(** * Appointment synchronisation and aggregation layer

  A shallow embedding of the data-access logic of the scheduling
  dashboard ([src/pages/DashboardModern.tsx], [src/pages/ClientDashboard.tsx]
  and the hooks bundled with them): the page-by-page fetch loop, the
  per-account cache of related entities, the status derivation used by the
  calendar cells, the mutations and the financial summary.

  Conventions of the embedding:
  - a remote call of the store client returns [{ data, error }]; it is a
    record of two options ([None] is JavaScript's [null]);
  - JavaScript numbers that hold offsets, lengths and counts are integers
    here ([Z]): they stay below 2^32, the longest array, where the
    arithmetic of numbers is that of integers; amounts are numbers as
    JavaScript has them, IEEE 754 doubles ([JsNumber.Number]);
  - a [while] loop is a function with fuel; each loop comes with the lemma
    that the fuel used by its caller is enough;
  - a [throw] is the [Rejected] outcome of the enclosing async function. *)

From stdpp Require Import gmap strings list pretty.
From Stdlib Require Import ZArith Ascii SpecFloat.

Local Open Scope string_scope.
Local Open Scope list_scope.
Local Open Scope Z_scope.

(** ** Numbers

    A JavaScript number is a double: [spec_float] of the Standard Library
    at precision 53 and maximal exponent 1024, with its rounding to
    nearest, ties to even.  Whole amounts are written as integers. *)

Module JsNumber.

Definition Number : Type := spec_float.

(** The double nearest to an integer. *)
Definition ofZ (z : Z) : Number := binary_normalize 53 1024 z 0 false.

(** [x + y]. *)
Definition add (x y : Number) : Number := SFadd 53 1024 x y.

(** The numbers that count as false: the two zeros and [NaN]. *)
Definition falsy (x : Number) : bool :=
  match x with
  | S754_zero _ | S754_nan => true
  | _ => false
  end.

End JsNumber.
Export JsNumber.
Coercion JsNumber.ofZ : Z >-> JsNumber.Number.

(** ** The store client *)

Module Supabase.

(** [PostgrestError]: only [message] is read by the code. *)
Record PostgrestError := { message : string }.

Record Response (T : Type) := { data : option T; error : option PostgrestError }.
Arguments data {T} _.
Arguments error {T} _.

Definition ok {T} (x : T) : Response T := {| data := Some x; error := None |}.
Definition failedWith {T} (e : PostgrestError) : Response T :=
  {| data := None; error := Some e |}.
Definition failed {T} (msg : string) : Response T :=
  failedWith {| message := msg |}.
(** [{ data: null, error: null }]. *)
Definition noData {T} : Response T := {| data := None; error := None |}.

(** Outcome of an async function: it resolves with a value or rejects
    with what was thrown. *)
Inductive Outcome (T : Type) :=
| Resolved (v : T)
| Rejected (e : PostgrestError).
Arguments Resolved {T} _.
Arguments Rejected {T} _.

End Supabase.
Export Supabase.

(** ** 4.1 The paginated fetcher

  The same loop is written out in [fetchAppointments], [fetchClients],
  [fetchAgendamentos], the [useAppointments] query, [getAppointmentsByPeriod]
  and the [useClientBookings] query; only the query in front of [.range]
  differs.  [range from to] stands for that query. *)

Module Pagination.
Section Loop.

Context {A : Type}.
Variable range : Z → Z → Response (list A).

Definition pageSize : Z := 1000.

(** The loop variables; [requested] is a ghost log of the offsets at which
    a page request was issued. *)
Record LoopState := {
  allAppointments : list A;
  from : Z;
  hasMore : bool;
  error : option PostgrestError;
  requested : list Z
}.

Definition initial : LoopState :=
  {| allAppointments := []; from := 0; hasMore := true; error := None;
     requested := [] |}.

Inductive Flow := Continue | Break.

(** One pass through the body of [while (hasMore)]. *)
Definition loopBody (st : LoopState) : LoopState * Flow :=
  let resp := range (from st) (from st + pageSize - 1) in
  let log := requested st ++ [from st] in
  match Supabase.error resp with
  | Some pageError =>
      ({| allAppointments := allAppointments st; from := from st;
          hasMore := hasMore st; error := Some pageError;
          requested := log |}, Break)
  | None =>
      let st1 :=
        match data resp with
        | Some pageData =>
            if 0 <? Z.of_nat (length pageData) then
              {| allAppointments := allAppointments st ++ pageData;
                 from := from st + pageSize;
                 hasMore := Z.of_nat (length pageData) =? pageSize;
                 error := error st; requested := log |}
            else
              {| allAppointments := allAppointments st; from := from st;
                 hasMore := false; error := error st; requested := log |}
        | None =>
            {| allAppointments := allAppointments st; from := from st;
               hasMore := false; error := error st; requested := log |}
        end in
      let st2 :=
        if pageSize * 10 <=? from st1 then
          {| allAppointments := allAppointments st1; from := from st1;
             hasMore := false; error := error st1;
             requested := requested st1 |}
        else st1 in
      (st2, Continue)
  end.

Fixpoint whileHasMore (fuel : nat) (st : LoopState) : option LoopState :=
  if hasMore st then
    match fuel with
    | O => None
    | S fuel' =>
        match loopBody st with
        | (st', Break) => Some st'
        | (st', Continue) => whileHasMore fuel' st'
        end
    end
  else Some st.

(** The loop as its callers run it. *)
Definition paginate : option LoopState := whileHasMore 10 initial.

(** Rows of the page at an offset ([null] data counts as no rows). *)
Definition pageRows (off : Z) : list A :=
  default [] (data (range off (off + pageSize - 1))).

Definition pageError (off : Z) : option PostgrestError :=
  Supabase.error (range off (off + pageSize - 1)).

(** Offsets [off, off + 1000, ...], [n] of them. *)
Definition offsetsFrom (off : Z) (n : nat) : list Z :=
  (λ i : nat, off + pageSize * Z.of_nat i) <$> seq 0 n.

Definition sumLengths (pages : list (list A)) : Z :=
  foldr (λ p acc, Z.of_nat (length p) + acc) 0 pages.

(** A page is full when it has exactly [pageSize] rows. *)
Definition Full (off : Z) : Prop :=
  Z.of_nat (length (pageRows off)) = pageSize.

(** What a run that starts in [st] with [left] pages to go before the cap
    and ends in [st'] after [S n] requests has done: every request but the
    last returned a full page without error; the rows are those pages in
    order, with the last page unless its request failed; and the loop only
    stopped short of the cap on a page that was not full. *)
Definition Described (left : nat) (st st' : LoopState) (n : nat) : Prop :=
  (n < left)%nat
  ∧ requested st' = requested st ++ offsetsFrom (from st) (S n)
  ∧ Forall (λ off, pageError off = None ∧ Full off) (offsetsFrom (from st) n)
  ∧ error st' = pageError (from st + pageSize * Z.of_nat n)
  ∧ allAppointments st' =
      allAppointments st ++ concat (pageRows <$> offsetsFrom (from st) n)
        ++ match error st' with
           | Some _ => []
           | None => pageRows (from st + pageSize * Z.of_nat n)
           end
  ∧ (error st' = None → (S n < left)%nat →
     ¬ Full (from st + pageSize * Z.of_nat n)).

End Loop.

(** The store's answer to [.range(from, to)] over an ordered result set
    [table]: the rows at positions [from] to [to], both included. *)
Definition rangeOfTable {A} (table : list A) (from to : Z) : Response (list A) :=
  ok (take (Z.to_nat (to - from + 1)) (drop (Z.to_nat from) table)).

(** The same store with a request that fails at one offset. *)
Definition rangeFailingAt {A} (table : list A) (bad : Z) (e : PostgrestError)
    (from to : Z) : Response (list A) :=
  if from =? bad then failedWith e else rangeOfTable table from to.

End Pagination.

(** ** Dates

    The status functions receive the appointment date as an optional string
    and turn it into a [Date] with [new Date(date)].  The argument is held
    here by what that constructor makes of it: [None] is an absent or empty
    string (falsy), [Some InvalidDate] a string that does not parse, and
    [Some (Time ms)] a date [ms] milliseconds after the epoch. *)

Module JsDate.

Inductive Date :=
| InvalidDate
| Time (ms : Z).

Definition msPerDay : Z := 86400000.

(** Local time is the host's.  The methods of [Date] reach it through the
    local calendar date and clock of an instant: [localDay ms] numbers the
    local calendar day that holds the instant [ms], [midnight d] is the
    time value that [setHours(0, 0, 0, 0)] gives to the dates of local day
    [d], and [localHours ms] is [getHours()] at [ms].  The offset from UTC
    may differ from one day to the next (daylight saving time). *)
Record TimeZone := {
  localDay : Z → Z;
  midnight : Z → Z;
  localHours : Z → Z
}.

Section LocalTime.

Variable tz : TimeZone.

(** The start, local time, of the day that holds the instant [ms]. *)
Definition startOfDay (ms : Z) : Z := midnight tz (localDay tz ms).

(** [d.setHours(0, 0, 0, 0)]. *)
Definition setHours0 (d : Date) : Date :=
  match d with
  | InvalidDate => InvalidDate
  | Time ms => Time (startOfDay ms)
  end.

End LocalTime.

(** Days begin one after the other. *)
Definition Ordered (tz : TimeZone) : Prop :=
  ∀ d1 d2, d1 < d2 → midnight tz d1 < midnight tz d2.

(** A zone that keeps one offset from UTC, in milliseconds, all year. *)
Definition fixedOffset (offset : Z) : TimeZone :=
  {| localDay := λ ms, (ms + offset) `div` msPerDay;
     midnight := λ d, d * msPerDay - offset;
     localHours := λ ms, ((ms + offset) `mod` msPerDay) `div` 3600000 |}.

(** date-fns [isBefore]: comparison of the time values; an invalid date
    compares false. *)
Definition isBefore (a b : Date) : bool :=
  match a, b with
  | Time x, Time y => x <? y
  | _, _ => false
  end.

(** [a > b] on two [Date] objects. *)
Definition gt (a b : Date) : bool :=
  match a, b with
  | Time x, Time y => y <? x
  | _, _ => false
  end.

End JsDate.
Export JsDate.

(** Truthiness of an optional string ([undefined], [null] and the empty
    string are falsy). *)
Definition truthy (s : option string) : bool :=
  match s with
  | Some s' => negb (String.eqb s' "")
  | None => false
  end.

(** ** 4.4 Status derivation (DashboardModern.tsx) *)

Module Dashboard.
Section Clock.

Variable tz : TimeZone.
(** [new Date()] at the time of the call. *)
Variable now : Z.

(** The local variable [effectiveStatus] of [getStatusColor], as it stands
    when the function reaches its [switch]. *)
Definition effectiveStatus (status : string) (date : option Date)
    (is_cortesia : bool) : string :=
  let effectiveStatus := status in
  let effectiveStatus :=
    match date with
    | Some parsed =>
        if String.eqb status "agendado" then
          let appointmentDate := setHours0 tz parsed in
          let today := setHours0 tz (Time now) in
          if isBefore appointmentDate today then
            (if is_cortesia then "cortesia" else "a_cobrar")
          else effectiveStatus
        else effectiveStatus
    | None => effectiveStatus
    end in
  if is_cortesia then "cortesia" else effectiveStatus.

Definition getStatusColor (status : string) (date : option Date)
    (recurrence_id : option string) (is_cortesia : bool) : string :=
  let effectiveStatus := effectiveStatus status date is_cortesia in
  if truthy recurrence_id then
    if String.eqb effectiveStatus "pago" then "bg-green-100 text-green-800 border-green-200"
    else if String.eqb effectiveStatus "a_cobrar" then "bg-red-100 text-red-800 border-red-200"
    else if String.eqb effectiveStatus "cortesia" then "bg-pink-100 text-pink-800 border-pink-200"
    else if String.eqb effectiveStatus "agendado" then "bg-blue-100 text-blue-800 border-blue-200"
    else if String.eqb effectiveStatus "cancelado" then "bg-gray-100 text-gray-600 border-gray-200 line-through"
    else "bg-blue-50 text-blue-700 border-blue-200"
  else
    if String.eqb effectiveStatus "pago" then "bg-green-100 text-green-800 border-green-200"
    else if String.eqb effectiveStatus "a_cobrar" then "bg-red-100 text-red-800 border-red-200"
    else if String.eqb effectiveStatus "cortesia" then "bg-pink-100 text-pink-800 border-pink-200"
    else if String.eqb effectiveStatus "agendado" then "bg-purple-100 text-purple-800 border-purple-200"
    else if String.eqb effectiveStatus "cancelado" then "bg-gray-100 text-gray-600 border-gray-200 line-through"
    else "bg-purple-50 text-purple-700 border-purple-200".

(** The label of the complimentary status; the source writes a gift emoji
    in front of the word. *)
Definition cortesiaLabel : string := "🎁 Cortesia".

Definition getStatusLabel (status : string) (date : option Date)
    (is_cortesia : bool) : string :=
  let past :=
    match date with
    | Some parsed =>
        let appointmentDate := setHours0 tz parsed in
        let today := setHours0 tz (Time now) in
        isBefore appointmentDate today && String.eqb status "agendado"
    | None => false
    end in
  if past then (if is_cortesia then cortesiaLabel else "A Cobrar")
  else if String.eqb status "cancelado" then "Cancelado"
  else if String.eqb status "pago" then "Pago"
  else if String.eqb status "agendado" then
    (if is_cortesia then cortesiaLabel else "Agendado")
  else if String.eqb status "a_cobrar" then "A Cobrar"
  else if String.eqb status "cortesia" then cortesiaLabel
  else "A Cobrar".

End Clock.
End Dashboard.

(** ** Status text of the client portal (ClientDashboard.tsx) *)

Module Portal.

Definition getStatusText (now : Z) (status : string) (date : option Date) : string :=
  let future :=
    match date with
    | Some appointmentDate => JsDate.gt appointmentDate (Time now)
    | None => false
    end in
  if future then "Agendado"
  else if String.eqb status "agendado" || String.eqb status "pago" then "Agendado"
  else if String.eqb status "a_cobrar" then "Pendente"
  else if String.eqb status "cancelado" then "Cancelado"
  else status.

End Portal.

(** ** 3. Data model: rows of the remote collections *)

Module Appointment.
(** A row of [appointments].  [date] is the stored date-time string; two
    slots are the same when the strings are.  [updated_at] is the time
    stamp of the row, which only the cancellation of the portal writes
    itself. *)
Record t := {
  id : string;
  client_id : option string;
  date : string;
  status : string;
  modality : option string;
  modality_id : option string;
  valor_total : Number;
  recurrence_id : option string;
  user_id : string;
  booking_source : string;
  payment_status : option string;
  is_cortesia : bool;
  updated_at : string
}.
End Appointment.

Module Client.
(** A row of [booking_clients] (the password hash, never read here, is
    left out). *)
Record t := {
  id : string;
  name : string;
  email : string;
  phone : option string;
  user_id : string
}.
End Client.

Module Modality.
Record t := {
  id : string;
  name : string;
  valor : Number;
  user_id : string
}.
End Modality.

(** What [select('id, name, phone')] and [select('id, name, valor')] keep of
    a row; these are the records held by the caches. *)
Module ClientRef.
Record t := { id : string; name : string; phone : option string }.
Definition ofRow (c : Client.t) : t :=
  {| id := Client.id c; name := Client.name c; phone := Client.phone c |}.
End ClientRef.

Module ModalityRef.
Record t := { id : string; name : string; valor : Number }.
Definition ofRow (m : Modality.t) : t :=
  {| id := Modality.id m; name := Modality.name m; valor := Modality.valor m |}.
End ModalityRef.

(** The view-model built by the join stage: the row and the two optional
    decorations. *)
Module AppointmentWithModality.
Record ClientInfo := { name : string; phone : option string }.
Record ModalityInfo := { modality_name : string; valor : Number }.
Record t := {
  row : Appointment.t;
  client : option ClientInfo;
  modality_info : option ModalityInfo
}.
Definition status (a : t) : string := Appointment.status (row a).
Definition valor_total (a : t) : Number := Appointment.valor_total (row a).
End AppointmentWithModality.

(** ** 4.6 Financial aggregator ([getFinancialSummary]) *)

Module Financial.

(** The totals are numbers; the counts are integers (see the
    conventions: a count is at most the length of an array). *)
Record Summary := {
  total_recebido : Number;
  total_pendente : Number;
  total_agendado : Number;
  total_cancelado : Number;
  agendamentos_pagos : Z;
  agendamentos_pendentes : Z;
  agendamentos_agendados : Z;
  agendamentos_cancelados : Z
}.

Definition emptySummary : Summary :=
  {| total_recebido := 0; total_pendente := 0; total_agendado := 0;
     total_cancelado := 0; agendamentos_pagos := 0;
     agendamentos_pendentes := 0; agendamentos_agendados := 0;
     agendamentos_cancelados := 0 |}.

(** [x || 0] on a number. *)
Definition orZero (x : Number) : Number := if falsy x then 0 else x.

(** The reducer: one [switch] on the status, no [default] branch. *)
Definition step (summary : Summary) (appointment : AppointmentWithModality.t)
    : Summary :=
  let valor := orZero (AppointmentWithModality.valor_total appointment) in
  let status := AppointmentWithModality.status appointment in
  if String.eqb status "pago" then
    {| total_recebido := add (total_recebido summary) valor;
       total_pendente := total_pendente summary;
       total_agendado := total_agendado summary;
       total_cancelado := total_cancelado summary;
       agendamentos_pagos := agendamentos_pagos summary + 1;
       agendamentos_pendentes := agendamentos_pendentes summary;
       agendamentos_agendados := agendamentos_agendados summary;
       agendamentos_cancelados := agendamentos_cancelados summary |}
  else if String.eqb status "a_cobrar" then
    {| total_recebido := total_recebido summary;
       total_pendente := add (total_pendente summary) valor;
       total_agendado := total_agendado summary;
       total_cancelado := total_cancelado summary;
       agendamentos_pagos := agendamentos_pagos summary;
       agendamentos_pendentes := agendamentos_pendentes summary + 1;
       agendamentos_agendados := agendamentos_agendados summary;
       agendamentos_cancelados := agendamentos_cancelados summary |}
  else if String.eqb status "agendado" then
    {| total_recebido := total_recebido summary;
       total_pendente := total_pendente summary;
       total_agendado := add (total_agendado summary) valor;
       total_cancelado := total_cancelado summary;
       agendamentos_pagos := agendamentos_pagos summary;
       agendamentos_pendentes := agendamentos_pendentes summary;
       agendamentos_agendados := agendamentos_agendados summary + 1;
       agendamentos_cancelados := agendamentos_cancelados summary |}
  else if String.eqb status "cancelado" then
    {| total_recebido := total_recebido summary;
       total_pendente := total_pendente summary;
       total_agendado := total_agendado summary;
       total_cancelado := add (total_cancelado summary) valor;
       agendamentos_pagos := agendamentos_pagos summary;
       agendamentos_pendentes := agendamentos_pendentes summary;
       agendamentos_agendados := agendamentos_agendados summary;
       agendamentos_cancelados := agendamentos_cancelados summary + 1 |}
  else summary.

Definition getFinancialSummary (appointments : list AppointmentWithModality.t)
    : Summary :=
  fold_left step appointments emptySummary.

(** The appointments carrying exactly one status. *)
Definition withStatus (s : string) (appointments : list AppointmentWithModality.t)
    : list AppointmentWithModality.t :=
  filter (λ a, AppointmentWithModality.status a = s) appointments.

(** The values of a list added to [start] one after the other, in the
    order of the list, each addition rounded as [+] rounds it; a value
    that is zero or [NaN] counts as 0. *)
Definition addUp (start : Number) (appointments : list AppointmentWithModality.t)
    : Number :=
  fold_left (λ acc a, add acc (orZero (AppointmentWithModality.valor_total a)))
            appointments start.

(** The running total of a list, from 0. *)
Definition sumValues (appointments : list AppointmentWithModality.t) : Number :=
  addUp 0 appointments.

(** The sum of whole amounts as integers add up. *)
Definition exactSum (amounts : list Z) : Z := foldr Z.add 0 amounts.

(** A summary to which the values and counts of a list are added. *)
Definition tally (s : Summary) (l : list AppointmentWithModality.t) : Summary :=
  {| total_recebido := addUp (total_recebido s) (withStatus "pago" l);
     total_pendente := addUp (total_pendente s) (withStatus "a_cobrar" l);
     total_agendado := addUp (total_agendado s) (withStatus "agendado" l);
     total_cancelado := addUp (total_cancelado s) (withStatus "cancelado" l);
     agendamentos_pagos :=
       agendamentos_pagos s + Z.of_nat (length (withStatus "pago" l));
     agendamentos_pendentes :=
       agendamentos_pendentes s + Z.of_nat (length (withStatus "a_cobrar" l));
     agendamentos_agendados :=
       agendamentos_agendados s + Z.of_nat (length (withStatus "agendado" l));
     agendamentos_cancelados :=
       agendamentos_cancelados s + Z.of_nat (length (withStatus "cancelado" l)) |}.

End Financial.

(** ** 4.2 Related-entity cache ([fetchRelatedData])

    [clientsCache] and [modalitiesCache] are module-level maps from the
    account id to a map from entity id to record. *)

Module RelatedData.

Record Cache := {
  clientsCache : gmap string (gmap string ClientRef.t);
  modalitiesCache : gmap string (gmap string ModalityRef.t)
}.

(** The remote collections the function reads, and whether each of its two
    requests, if issued, comes back with an error. *)
Record Remote := {
  booking_clients : list Client.t;
  modalities : list Modality.t;
  clientsFailure : option PostgrestError;
  modalitiesFailure : option PostgrestError
}.

(** The requests a call issues, in the order of the [Promise.all] array. *)
Inductive Request :=
| SelectClientsIn (ids : list string) (userId : string)
| SelectModalitiesIn (ids : list string) (userId : string).

(** [.filter(Boolean)] on a column of optional ids. *)
Definition truthyIds (ids : list (option string)) : list string :=
  omap (λ o, if truthy o then o else None) ids.

(** [[...new Set(l)]]: the first occurrence of each value, in order. *)
Fixpoint uniqueFrom (seen : list string) (l : list string) : list string :=
  match l with
  | [] => []
  | x :: l' =>
      if bool_decide (x ∈ seen) then uniqueFrom seen l'
      else x :: uniqueFrom (x :: seen) l'
  end.

Definition unique (l : list string) : list string := uniqueFrom [] l.

(** [ids.filter(id => !cached?.has(id))]. *)
Definition missingIds {V} (cached : option (gmap string V)) (ids : list string)
    : list string :=
  filter (λ id, ¬ is_Some (cached ≫= (λ m, m !! id))) ids.

(** The function does the same thing to the two collections; [R] is the
    type of rows of one of them, [V] what the [select] keeps of a row. *)
Section Kind.

Context {R V : Type}.
Variable rowId : R → string.
Variable rowUser : R → string.
Variable ofRow : R → V.
Variable key : V → string.

(** [select(...).in('id', ids).eq('user_id', userId)]. *)
Definition selectIn (table : list R) (failure : option PostgrestError)
    (ids : list string) (userId : string) : Response (list V) :=
  match failure with
  | Some e => failedWith e
  | None =>
      ok (ofRow <$> filter (λ r, rowId r ∈ ids ∧ rowUser r = userId) table)
  end.

(** [rows.forEach(r => map.set(r.id, r))]. *)
Definition setAll (rows : list V) (m : gmap string V) : gmap string V :=
  fold_left (λ acc r, <[key r := r]> acc) rows m.

(** One collection: the ids not in the cache, the response (a request is
    sent only when some id is missing) and the cached map with the rows of
    the response set into a copy of it. *)
Definition resolveKind (table : list R) (failure : option PostgrestError)
    (cached : option (gmap string V)) (uniqueIds : list string)
    (userId : string) : gmap string V * list string :=
  let missing := missingIds cached uniqueIds in
  let response :=
    if bool_decide (missing ≠ []) then selectIn table failure missing userId
    else noData in
  let newMap := default ∅ cached in
  let newMap := setAll (default [] (data response)) newMap in
  (newMap, missing).

End Kind.

Record Result := {
  clientsMap : gmap string ClientRef.t;
  modalitiesMap : gmap string ModalityRef.t
}.

(** [fetchRelatedData]: the maps it returns, the caches afterwards and the
    requests it issued.  [user] is [user?.id]. *)
Definition fetchRelatedData (user : option string) (remote : Remote)
    (cache : Cache) (appointments : list Appointment.t)
    : Result * Cache * list Request :=
  match appointments with
  | [] => ({| clientsMap := ∅; modalitiesMap := ∅ |}, cache, [])
  | _ =>
      let uniqueClientIds :=
        unique (truthyIds (Appointment.client_id <$> appointments)) in
      let uniqueModalityIds :=
        unique (truthyIds (Appointment.modality_id <$> appointments)) in
      let userId := default "" user in
      let cachedClients := clientsCache cache !! userId in
      let cachedModalities := modalitiesCache cache !! userId in
      let '(newClientsMap, missingClientIds) :=
        resolveKind Client.id Client.user_id ClientRef.ofRow ClientRef.id
          (booking_clients remote) (clientsFailure remote)
          cachedClients uniqueClientIds userId in
      let '(newModalitiesMap, missingModalityIds) :=
        resolveKind Modality.id Modality.user_id ModalityRef.ofRow ModalityRef.id
          (modalities remote) (modalitiesFailure remote)
          cachedModalities uniqueModalityIds userId in
      ({| clientsMap := newClientsMap; modalitiesMap := newModalitiesMap |},
       {| clientsCache := <[userId := newClientsMap]> (clientsCache cache);
          modalitiesCache := <[userId := newModalitiesMap]> (modalitiesCache cache) |},
       (if bool_decide (missingClientIds ≠ [])
        then [SelectClientsIn missingClientIds userId] else []) ++
       (if bool_decide (missingModalityIds ≠ [])
        then [SelectModalitiesIn missingModalityIds userId] else []))
  end.

(** The clients half and the modalities half of a call, named. *)
Definition clientsHalf (user : option string) (remote : Remote) (cache : Cache)
    (appointments : list Appointment.t) : gmap string ClientRef.t * list string :=
  resolveKind Client.id Client.user_id ClientRef.ofRow ClientRef.id
    (booking_clients remote) (clientsFailure remote)
    (clientsCache cache !! default "" user)
    (unique (truthyIds (Appointment.client_id <$> appointments)))
    (default "" user).

Definition modalitiesHalf (user : option string) (remote : Remote) (cache : Cache)
    (appointments : list Appointment.t) : gmap string ModalityRef.t * list string :=
  resolveKind Modality.id Modality.user_id ModalityRef.ofRow ModalityRef.id
    (modalities remote) (modalitiesFailure remote)
    (modalitiesCache cache !! default "" user)
    (unique (truthyIds (Appointment.modality_id <$> appointments)))
    (default "" user).

(** Ids named by a request. *)
Definition requestedClientIds (reqs : list Request) : list string :=
  mjoin (omap (λ r, match r with
                    | SelectClientsIn ids _ => Some ids
                    | _ => None
                    end) reqs).

Definition requestedModalityIds (reqs : list Request) : list string :=
  mjoin (omap (λ r, match r with
                    | SelectModalitiesIn ids _ => Some ids
                    | _ => None
                    end) reqs).

(** Resolving twice: the second call starts from the caches the first one
    left, against a remote that may have changed or fail differently. *)
Definition resolveTwice (user : option string) (remote1 remote2 : Remote)
    (cache : Cache) (appointments : list Appointment.t)
    : (Result * Cache * list Request) * (Result * Cache * list Request) :=
  let first := fetchRelatedData user remote1 cache appointments in
  let second := fetchRelatedData user remote2 (first.1.2) appointments in
  (first, second).

End RelatedData.

(** ** The callers of the paginated loop *)

Module Queries.

Import Pagination.

(** *** [useAppointments]: the query function

    [range] is the query [.eq('user_id', user.id).order('date', ...)] of the
    account, [remote] what [fetchRelatedData] reads.  The result is [None]
    only if the loop ran out of fuel. *)

Definition decorate (clientsMap : gmap string ClientRef.t)
    (modalitiesMap : gmap string ModalityRef.t) (appointment : Appointment.t)
    : AppointmentWithModality.t :=
  let clientData :=
    match Appointment.client_id appointment with
    | Some cid => if truthy (Some cid) then clientsMap !! cid else None
    | None => None
    end in
  let modalityData :=
    match Appointment.modality_id appointment with
    | Some mid => if truthy (Some mid) then modalitiesMap !! mid else None
    | None => None
    end in
  {| AppointmentWithModality.row := appointment;
     AppointmentWithModality.client :=
       (λ c, {| AppointmentWithModality.name := ClientRef.name c;
                AppointmentWithModality.phone := ClientRef.phone c |})
         <$> clientData;
     AppointmentWithModality.modality_info :=
       (λ m, {| AppointmentWithModality.modality_name := ModalityRef.name m;
                AppointmentWithModality.valor := ModalityRef.valor m |})
         <$> modalityData |}.

Definition useAppointments_queryFn (user : option string)
    (range : Z → Z → Response (list Appointment.t))
    (remote : RelatedData.Remote) (cache : RelatedData.Cache)
    : option (Outcome (list AppointmentWithModality.t) * RelatedData.Cache) :=
  if truthy user then
    st ← paginate range;
    match error st with
    | Some e => Some (Rejected e, cache)
    | None =>
        let '(maps, cache', _) :=
          RelatedData.fetchRelatedData user remote cache (allAppointments st) in
        Some (Resolved
                (decorate (RelatedData.clientsMap maps)
                          (RelatedData.modalitiesMap maps)
                   <$> allAppointments st),
              cache')
    end
  else Some (Rejected {| message := "Usuário não autenticado" |}, cache).

(** *** [fetchAppointments] of the dashboard and [fetchClients] of the
    client list

    Both keep what they fetched in component state and report a failure in
    a toast; they differ in the title of the toast. *)

Record Toast := { title : string; description : string; variant : string }.

Record PageState (A : Type) := {
  items : list A;
  toasts : list Toast
}.
Arguments items {A} _.
Arguments toasts {A} _.

Definition fetchInto {A} (errorTitle : string)
    (range : Z → Z → Response (list A)) (page : PageState A)
    : option (PageState A) :=
  st ← paginate range;
  match error st with
  | Some e =>
      Some {| items := items page;
              toasts := toasts page ++
                [{| title := errorTitle; description := message e;
                    variant := "destructive" |}] |}
  | None =>
      Some {| items := allAppointments st; toasts := toasts page |}
  end.

Definition fetchAppointments {A} := @fetchInto A "Erro ao carregar agendamentos".
Definition fetchClients {A} := @fetchInto A "Erro ao carregar clientes".

(** *** [useClientBookings]: the query function *)

Record BookingClient := {
  bc_id : option string;
  bc_name : string;
  bc_email : string;
  bc_phone : option string
}.

Record ClientBooking := {
  booking : Appointment.t;
  booking_clients : BookingClient
}.

Definition bookingClientOfRow (c : Client.t) : BookingClient :=
  {| bc_id := Some (Client.id c); bc_name := Client.name c;
     bc_email := Client.email c; bc_phone := Client.phone c |}.

Definition unidentifiedClient : BookingClient :=
  {| bc_id := None; bc_name := "Cliente não identificado";
     bc_email := "N/A"; bc_phone := Some "N/A" |}.

(** [select('id, name, email, phone').in('id', ids).eq('user_id', userId)]. *)
Definition selectBookingClients (table : list Client.t)
    (failure : option PostgrestError) (ids : list string) (userId : string)
    : Response (list BookingClient) :=
  match failure with
  | Some e => failedWith e
  | None =>
      ok (bookingClientOfRow <$>
            filter (λ c, Client.id c ∈ ids ∧ Client.user_id c = userId) table)
  end.

Definition attachClient (clients : list BookingClient)
    (appointment : Appointment.t) : ClientBooking :=
  let clientData :=
    if truthy (Appointment.client_id appointment) then
      find (λ client, bool_decide (bc_id client = Appointment.client_id appointment))
           clients
    else None in
  {| booking := appointment;
     booking_clients := default unidentifiedClient clientData |}.

Definition useClientBookings_queryFn (adminUserId : option string)
    (range : Z → Z → Response (list Appointment.t))
    (table : list Client.t) (clientsFailure : option PostgrestError)
    : option (Outcome (list ClientBooking)) :=
  if truthy adminUserId then
    st ← paginate range;
    match error st with
    | Some _ => Some (Resolved [])
    | None =>
        match allAppointments st with
        | [] => Some (Resolved [])
        | _ =>
            let clientIds :=
              RelatedData.truthyIds (Appointment.client_id <$> allAppointments st) in
            let clientsResponse :=
              match clientIds with
              | [] => ok []
              | _ => selectBookingClients table clientsFailure clientIds
                       (default "" adminUserId)
              end in
            match Supabase.error clientsResponse with
            | Some _ => Some (Resolved [])
            | None =>
                let clients := default [] (data clientsResponse) in
                Some (Resolved (attachClient clients <$> allAppointments st))
            end
        end
    end
  else Some (Resolved []).

End Queries.

(** ** Strings

    [String.prototype.trim] and [String.prototype.toLowerCase] are the
    host's: the white space and the case mapping of Unicode.  The layer
    only calls them; they are taken as given. *)

Module JsString.

Class Builtins := {
  trim : string → string;
  toLowerCase : string → string
}.

End JsString.

(** What the two built-ins do to ASCII text (bytes below 128): the white
    space removed is space, tab, line feed, vertical tab, form feed and
    carriage return, and the letters folded are [A-Z].  The examples hold
    ASCII text only and are run with these. *)

Module AsciiText.

Definition isSpace (c : ascii) : bool :=
  let n := nat_of_ascii c in
  (n =? 32)%nat || ((9 <=? n)%nat && (n <=? 13)%nat).

Definition lowerChar (c : ascii) : ascii :=
  let n := nat_of_ascii c in
  if (65 <=? n)%nat && (n <=? 90)%nat then ascii_of_nat (n + 32) else c.

Fixpoint dropSpaces (l : list ascii) : list ascii :=
  match l with
  | c :: l' => if isSpace c then dropSpaces l' else l
  | [] => []
  end.

Definition trim (s : string) : string :=
  String.string_of_list_ascii
    (rev (dropSpaces (rev (dropSpaces (String.list_ascii_of_string s))))).

Definition toLowerCase (s : string) : string :=
  String.string_of_list_ascii (lowerChar <$> String.list_ascii_of_string s).

Definition builtins : JsString.Builtins :=
  {| JsString.trim := trim; JsString.toLowerCase := toLowerCase |}.

End AsciiText.

(** ** 4.5 Creating an appointment ([createAppointmentMutation]) *)

Module CreateAppointment.

(** An optional, nullable number of a JavaScript object:
    [customValue?: number | null]. *)
Inductive OptNumber :=
| Undefined
| Null
| Num (n : Number).

Record CreateAppointmentData := {
  client_id : string;
  date : string;
  modality_id : string;
  status : option string;
  recurrence_id : option string;
  booking_source : option string;
  is_cortesia : option bool;
  customValue : OptNumber
}.

(** The object handed to [insert]. *)
Record InsertPayload := {
  ins_client_id : string;
  ins_date : string;
  ins_modality_id : string;
  ins_valor_total : OptNumber;
  ins_is_cortesia : bool;
  ins_status : string;
  ins_recurrence_id : option string;
  ins_booking_source : string;
  ins_user_id : string
}.

(** [.single()]: the one row of the result, an error for none or several. *)
Definition single {T} (failure : option PostgrestError) (rows : list T)
    : Response T :=
  match failure with
  | Some e => failedWith e
  | None =>
      match rows with
      | [row] => ok row
      | _ => failed "JSON object requested, multiple (or no) rows returned"
      end
  end.

(** [select('valor').eq('id', id).eq('user_id', userId).single()]. *)
Definition selectModalityValor (modalities : list Modality.t)
    (failure : option PostgrestError) (id userId : string) : Response Number :=
  single failure
    (Modality.valor <$>
       filter (λ m, Modality.id m = id ∧ Modality.user_id m = userId) modalities).

(** The expression written for [valor_total] in the payload. *)
Definition valorTotal (is_cortesia : option bool) (customValue : OptNumber)
    (modalityValor : Number) : OptNumber :=
  if default false is_cortesia then Num 0
  else
    match customValue with
    | Null => Num modalityValor
    | other => other
    end.

Definition payload (userId : string) (appointmentData : CreateAppointmentData)
    (modalityValor : Number) : InsertPayload :=
  {| ins_client_id := client_id appointmentData;
     ins_date := date appointmentData;
     ins_modality_id := modality_id appointmentData;
     ins_valor_total :=
       valorTotal (is_cortesia appointmentData) (customValue appointmentData)
                  modalityValor;
     ins_is_cortesia := default false (is_cortesia appointmentData);
     ins_status :=
       if truthy (status appointmentData) then default "" (status appointmentData)
       else "agendado";
     ins_recurrence_id := recurrence_id appointmentData;
     ins_booking_source :=
       if truthy (booking_source appointmentData)
       then default "" (booking_source appointmentData)
       else "manual";
     ins_user_id := userId |}.

(** [mutationFn]: the payloads it sent to [insert] and its outcome.
    [insert] is the store's answer to [insert(payload).select('*').single()]. *)
Definition mutationFn (user : option string) (modalities : list Modality.t)
    (modalityFailure : option PostgrestError)
    (insert : InsertPayload → Response Appointment.t)
    (appointmentData : CreateAppointmentData)
    : list InsertPayload * Outcome (option Appointment.t) :=
  if truthy user then
    let userId := default "" user in
    let modality :=
      selectModalityValor modalities modalityFailure
        (modality_id appointmentData) userId in
    match Supabase.error modality, data modality with
    | None, Some valor =>
        let sent := payload userId appointmentData valor in
        let resp := insert sent in
        match Supabase.error resp with
        | Some e => ([sent], Rejected e)
        | None => ([sent], Resolved (data resp))
        end
    | _, _ => ([], Rejected {| message := "Modalidade não encontrada" |})
    end
  else ([], Rejected {| message := "Usuário não autenticado" |}).

End CreateAppointment.

(** ** 4.5 Booking from the client portal ([createBookingMutation]) *)

Module CreateBooking.

Record ClientData := {
  name : string;
  email : string;
  phone : option string
}.

Record CreateClientBookingData := {
  user_id : string;
  client_id : option string;
  client_data : option ClientData;
  date : string;
  modality : string;
  modality_id : option string;
  valor_total : Number;
  payment_policy : option string
}.

(** The two collections the mutation reads and writes. *)
Record Db := {
  appointments : list Appointment.t;
  booking_clients : list Client.t
}.

(** What the store decides for one call: which of the four requests fail,
    and the ids and the time stamp it gives to the rows it creates. *)
Record Env := {
  clientLookupFailure : option PostgrestError;
  clientInsertFailure : option PostgrestError;
  slotQueryFailure : option PostgrestError;
  appointmentInsertFailure : option PostgrestError;
  newClientId : string;
  newAppointmentId : string;
  newUpdatedAt : string
}.

(** [.maybeSingle()], of which only [data] is read: the row when there is
    exactly one, [null] otherwise (also when the request fails). *)
Definition maybeSingleData {T} (failure : option PostgrestError) (rows : list T)
    : option T :=
  match failure with
  | Some _ => None
  | None => match rows with [row] => Some row | _ => None end
  end.

(** The rows that occupy a slot: same account, same date-time, not
    cancelled. *)
Definition occupying (userId fullDateTime : string)
    (appointments : list Appointment.t) : list Appointment.t :=
  filter (λ a, Appointment.user_id a = userId
               ∧ Appointment.date a = fullDateTime
               ∧ Appointment.status a ≠ "cancelado") appointments.

Section Host.

Context `{!JsString.Builtins}.

(** First part of [mutationFn]: find or create the client.  Returns the
    collections afterwards and [clientId], or the error thrown. *)
Definition resolveClient (env : Env) (db : Db) (bookingData : CreateClientBookingData)
    : Db * (PostgrestError + option string) :=
  let clientId := client_id bookingData in
  match truthy clientId, client_data bookingData with
  | false, Some clientData =>
      let normalizedEmail :=
        JsString.toLowerCase (JsString.trim (email clientData)) in
      let existingClient :=
        maybeSingleData (clientLookupFailure env)
          (filter (λ c, Client.email c = normalizedEmail
                        ∧ Client.user_id c = user_id bookingData)
                  (booking_clients db)) in
      match existingClient with
      | Some existing => (db, inr (Some (Client.id existing)))
      | None =>
          match clientInsertFailure env with
          | Some clientError =>
              (db, inl {| message :=
                     String.append "Erro ao criar cliente: " (message clientError) |})
          | None =>
              let newClient :=
                {| Client.id := newClientId env;
                   Client.name := name clientData;
                   Client.email := normalizedEmail;
                   Client.phone :=
                     if truthy (phone clientData) then phone clientData else None;
                   Client.user_id := user_id bookingData |} in
              ({| appointments := appointments db;
                  booking_clients := booking_clients db ++ [newClient] |},
               inr (Some (Client.id newClient)))
          end
      end
  | _, _ => (db, inr clientId)
  end.

(** The row stored for the booking. *)
Definition newBookingRow (env : Env) (bookingData : CreateClientBookingData)
    (clientId : string) : Appointment.t :=
  let paymentStatus := "not_required" in
  let appointmentStatus :=
    if bool_decide (payment_policy bookingData = Some "opcional")
    then "agendado" else "agendado" in
  {| Appointment.id := newAppointmentId env;
     Appointment.client_id := Some clientId;
     Appointment.date := date bookingData;
     Appointment.status := appointmentStatus;
     Appointment.modality := Some (modality bookingData);
     Appointment.modality_id := modality_id bookingData;
     Appointment.valor_total := valor_total bookingData;
     Appointment.recurrence_id := None;
     Appointment.user_id := user_id bookingData;
     Appointment.booking_source := "online";
     Appointment.payment_status := Some paymentStatus;
     Appointment.is_cortesia := false;
     Appointment.updated_at := newUpdatedAt env |}.

Definition mutationFn (env : Env) (db : Db) (bookingData : CreateClientBookingData)
    : Db * Outcome Appointment.t :=
  match resolveClient env db bookingData with
  | (db1, inl thrown) => (db1, Rejected thrown)
  | (db1, inr clientId) =>
      if negb (truthy clientId) then
        (db1, Rejected {| message := "ID do cliente é obrigatório" |})
      else
        let fullDateTime := date bookingData in
        match slotQueryFailure env with
        | Some _ =>
            (db1, Rejected {| message := "Erro ao verificar disponibilidade do horário" |})
        | None =>
            let existingAppointments :=
              occupying (user_id bookingData) fullDateTime (appointments db1) in
            if 0 <? Z.of_nat (length existingAppointments) then
              (db1, Rejected {| message := "Este horário já está ocupado" |})
            else
              match appointmentInsertFailure env with
              | Some e => (db1, Rejected e)
              | None =>
                  let newBooking :=
                    newBookingRow env bookingData (default "" clientId) in
                  ({| appointments := appointments db1 ++ [newBooking];
                      booking_clients := booking_clients db1 |},
                   Resolved newBooking)
              end
        end
  end.

End Host.

End CreateBooking.

(** ** 4.5 Deleting a client (the client list of DashboardModern.tsx) *)

Module Clients.

Import Queries.

Record AppointmentSummary := {
  id : string;
  date : string;
  modality : option string;
  status : string
}.

(** Component state. *)
Record State := {
  clients : list Client.t;
  clientToDelete : option Client.t;
  isDeleting : bool;
  loadingAppointments : bool;
  appointmentsForClient : list AppointmentSummary;
  confirmClientName : string;
  toasts : list Toast
}.

Record Db := {
  appointments : list Appointment.t;
  booking_clients : list Client.t;
  modalities : list Modality.t
}.

Record Env := {
  appointmentsQueryFailure : option PostgrestError;
  modalitiesQueryFailure : option PostgrestError;
  deleteAppointmentsFailure : option PostgrestError;
  deleteClientFailure : option PostgrestError
}.

(** The delete requests sent to the store. *)
Inductive Request :=
| DeleteAppointments (client_id user_id : string)
| DeleteClient (id user_id : string).

(** The appointments of one client of one account. *)
Definition appointmentsOf (clientId userId : string)
    (appointments : list Appointment.t) : list Appointment.t :=
  filter (λ a, Appointment.client_id a = Some clientId
               ∧ Appointment.user_id a = userId) appointments.

Definition appointmentsNotOf (clientId userId : string)
    (appointments : list Appointment.t) : list Appointment.t :=
  filter (λ a, ¬ (Appointment.client_id a = Some clientId
                  ∧ Appointment.user_id a = userId)) appointments.

Definition destructive (title description : string) : Toast :=
  {| title := title; description := description; variant := "destructive" |}.

(** [select('id, name').in('id', ids).eq('user_id', userId)] turned into
    the map from id to name. *)
Definition modalityNames (modalities : list Modality.t) (ids : list string)
    (userId : string) : gmap string string :=
  fold_left (λ (acc : gmap string string) m,
               <[Modality.id m := Modality.name m]> acc)
            (filter (λ m, Modality.id m ∈ ids ∧ Modality.user_id m = userId)
                    modalities)
            ∅.

Section Host.

Context `{!JsString.Builtins}.

(** The text compared by the dialog: trimmed, then lower-cased. *)
Definition folded (s : string) : string :=
  JsString.toLowerCase (JsString.trim s).

(** [openDeleteModal]: select the client and load its appointments (in the
    order the store returns them). *)
Definition openDeleteModal (userId : string) (env : Env) (db : Db)
    (client : Client.t) (st : State) : State :=
  let opened (found : list AppointmentSummary) (extra : list Toast) :=
    {| clients := clients st; clientToDelete := Some client;
       isDeleting := isDeleting st; loadingAppointments := false;
       appointmentsForClient := found; confirmClientName := "";
       toasts := toasts st ++ extra |} in
  match appointmentsQueryFailure env with
  | Some e => opened [] [destructive "Erro ao buscar agendamentos" (message e)]
  | None =>
      let appointments := appointmentsOf (Client.id client) userId (appointments db) in
      let missingModalities :=
        RelatedData.unique
          (RelatedData.truthyIds
             (Appointment.modality_id <$>
                filter (λ a, truthy (Appointment.modality a) = false
                             ∧ truthy (Appointment.modality_id a) = true)
                       appointments)) in
      let fetched : PostgrestError + gmap string string :=
        match missingModalities with
        | [] => inr ∅
        | _ =>
            match modalitiesQueryFailure env with
            | Some e => inl e
            | None =>
                inr (modalityNames (modalities db) missingModalities userId)
            end
        end in
      match fetched with
      | inl e => opened [] [destructive "Erro ao buscar agendamentos" (message e)]
      | inr modalityMap =>
          let normalized :=
            (λ a,
               {| id := Appointment.id a; date := Appointment.date a;
                  status := Appointment.status a;
                  modality :=
                    if truthy (Appointment.modality a) then Appointment.modality a
                    else if truthy (Appointment.modality_id a) then
                      let name := modalityMap !! default "" (Appointment.modality_id a) in
                      if truthy name then name else None
                    else None |}) <$> appointments in
          opened normalized []
      end
  end.

(** [setConfirmClientName(e.target.value)], the [onChange] of the input
    of the dialog. *)
Definition setConfirmClientName (value : string) (st : State) : State :=
  {| clients := clients st; clientToDelete := clientToDelete st;
     isDeleting := isDeleting st; loadingAppointments := loadingAppointments st;
     appointmentsForClient := appointmentsForClient st;
     confirmClientName := value; toasts := toasts st |}.

(** The [disabled] attribute of the confirm button of the dialog. *)
Definition deleteDisabled (st : State) : bool :=
  isDeleting st
  || match clientToDelete st with
     | None => true
     | Some client =>
         (0 <? Z.of_nat (length (appointmentsForClient st)))
         && negb (String.eqb
                    (JsString.toLowerCase (JsString.trim (confirmClientName st)))
                    (JsString.toLowerCase (JsString.trim (Client.name client))))
     end.

End Host.

(** [handleDeleteClient]: state and store afterwards, and the requests
    sent, in order. *)
Definition handleDeleteClient (userId : string) (env : Env) (db : Db) (st : State)
    : State * Db * list Request :=
  match clientToDelete st with
  | None => (st, db, [])
  | Some client =>
      let failedWith (e : PostgrestError) :=
        {| clients := clients st; clientToDelete := clientToDelete st;
           isDeleting := false; loadingAppointments := loadingAppointments st;
           appointmentsForClient := appointmentsForClient st;
           confirmClientName := confirmClientName st;
           toasts := toasts st ++ [destructive "Erro ao excluir cliente" (message e)] |} in
      let cascade := 0 <? Z.of_nat (length (appointmentsForClient st)) in
      let first :=
        if cascade then [DeleteAppointments (Client.id client) userId] else [] in
      match (if cascade then deleteAppointmentsFailure env else None) with
      | Some e => (failedWith e, db, first)
      | None =>
          let db1 :=
            if cascade then
              {| appointments := appointmentsNotOf (Client.id client) userId (appointments db);
                 booking_clients := booking_clients db;
                 modalities := modalities db |}
            else db in
          let sent := first ++ [DeleteClient (Client.id client) userId] in
          match deleteClientFailure env with
          | Some e => (failedWith e, db1, sent)
          | None =>
              let db2 :=
                {| appointments := appointments db1;
                   booking_clients :=
                     filter (λ c, ¬ (Client.id c = Client.id client
                                     ∧ Client.user_id c = userId))
                            (booking_clients db1);
                   modalities := modalities db1 |} in
              let description :=
                if cascade then
                  String.append (Client.name client)
                    (String.append " e "
                       (String.append (pretty (length (appointmentsForClient st)))
                                      " agendamento(s) foram excluídos."))
                else String.append (Client.name client) " foi excluído com sucesso." in
              ({| clients :=
                    filter (λ c, Client.id c ≠ Client.id client) (clients st);
                  clientToDelete := None;
                  isDeleting := false;
                  loadingAppointments := loadingAppointments st;
                  appointmentsForClient := [];
                  confirmClientName := confirmClientName st;
                  toasts := toasts st ++
                    [{| title := "Cliente excluído"; description := description;
                        variant := "" |}] |},
               db2, sent)
          end
      end
  end.

End Clients.

(** ** Sample data used by the examples *)

Module Samples.

Definition appointment (id status : string) (valor : Z) : Appointment.t :=
  {| Appointment.id := id; Appointment.client_id := Some "c1";
     Appointment.date := "2024-05-10T10:00:00"; Appointment.status := status;
     Appointment.modality := Some "Futsal"; Appointment.modality_id := Some "m1";
     Appointment.valor_total := valor; Appointment.recurrence_id := None;
     Appointment.user_id := "u1"; Appointment.booking_source := "manual";
     Appointment.payment_status := None; Appointment.is_cortesia := false;
     Appointment.updated_at := "2024-05-01T09:00:00.000Z" |}.

Definition plain (a : Appointment.t) : AppointmentWithModality.t :=
  {| AppointmentWithModality.row := a;
     AppointmentWithModality.client := None;
     AppointmentWithModality.modality_info := None |}.

(** [{status: paid, value: 100}, {status: to-charge, value: 50},
    {status: cancelled, value: 30}]. *)
Definition threeAppointments : list AppointmentWithModality.t :=
  [plain (appointment "a1" "pago" 100);
   plain (appointment "a2" "a_cobrar" 50);
   plain (appointment "a3" "cancelado" 30)].

(** One modality of account [u1], priced 120. *)
Definition modalities : list Modality.t :=
  [{| Modality.id := "m1"; Modality.name := "Futsal"; Modality.valor := 120;
      Modality.user_id := "u1" |}].

Definition createData (is_cortesia : option bool)
    (customValue : CreateAppointment.OptNumber)
    : CreateAppointment.CreateAppointmentData :=
  {| CreateAppointment.client_id := "c1";
     CreateAppointment.date := "2024-05-10T10:00:00";
     CreateAppointment.modality_id := "m1";
     CreateAppointment.status := None;
     CreateAppointment.recurrence_id := None;
     CreateAppointment.booking_source := None;
     CreateAppointment.is_cortesia := is_cortesia;
     CreateAppointment.customValue := customValue |}.

(** A store that accepts every insert and answers with a row. *)
Definition insertEcho (p : CreateAppointment.InsertPayload)
    : Response Appointment.t :=
  ok (appointment "new" (CreateAppointment.ins_status p) 0).

(** A collection of 1500 rows whose second page cannot be fetched. *)
Definition secondPageFails : Z → Z → Response (list Appointment.t) :=
  Pagination.rangeFailingAt (replicate 1500 (appointment "a1" "agendado" 120))
    1000 {| message := "timeout" |}.

(** *** A portal booking for a slot that is taken *)

Definition slot : string := "2024-05-10T10:00:00".

Definition bookingDb : CreateBooking.Db :=
  {| CreateBooking.appointments := [appointment "a1" "agendado" 120];
     CreateBooking.booking_clients := [] |}.

Definition bookingEnv : CreateBooking.Env :=
  {| CreateBooking.clientLookupFailure := None;
     CreateBooking.clientInsertFailure := None;
     CreateBooking.slotQueryFailure := None;
     CreateBooking.appointmentInsertFailure := None;
     CreateBooking.newClientId := "c9";
     CreateBooking.newAppointmentId := "a9";
     CreateBooking.newUpdatedAt := "2024-05-02T12:00:00.000Z" |}.

Definition booking (client_id : option string)
    (client_data : option CreateBooking.ClientData) (date : string)
    : CreateBooking.CreateClientBookingData :=
  {| CreateBooking.user_id := "u1";
     CreateBooking.client_id := client_id;
     CreateBooking.client_data := client_data;
     CreateBooking.date := date;
     CreateBooking.modality := "Futsal";
     CreateBooking.modality_id := Some "m1";
     CreateBooking.valor_total := 120;
     CreateBooking.payment_policy := None |}.

Definition newcomer : CreateBooking.ClientData :=
  {| CreateBooking.name := "Bia"; CreateBooking.email := " Bia@Example.com ";
     CreateBooking.phone := None |}.

(** *** The delete dialog of a client with one appointment *)

Definition ana : Client.t :=
  {| Client.id := "c1"; Client.name := "Ana"; Client.email := "ana@example.com";
     Client.phone := None; Client.user_id := "u1" |}.

Definition clientsDb : Clients.Db :=
  {| Clients.appointments :=
       [appointment "a1" "agendado" 120;
        {| Appointment.id := "a2"; Appointment.client_id := Some "c2";
           Appointment.date := "2024-05-11T10:00:00"; Appointment.status := "pago";
           Appointment.modality := None; Appointment.modality_id := Some "m1";
           Appointment.valor_total := 120; Appointment.recurrence_id := None;
           Appointment.user_id := "u1"; Appointment.booking_source := "manual";
           Appointment.payment_status := None; Appointment.is_cortesia := false;
           Appointment.updated_at := "2024-05-01T09:00:00.000Z" |}];
     Clients.booking_clients := [ana];
     Clients.modalities := modalities |}.

Definition noFailure : Clients.Env :=
  {| Clients.appointmentsQueryFailure := None;
     Clients.modalitiesQueryFailure := None;
     Clients.deleteAppointmentsFailure := None;
     Clients.deleteClientFailure := None |}.

Definition clientsPage : Clients.State :=
  {| Clients.clients := [ana]; Clients.clientToDelete := None;
     Clients.isDeleting := false; Clients.loadingAppointments := false;
     Clients.appointmentsForClient := []; Clients.confirmClientName := "";
     Clients.toasts := [] |}.

(** The dialog after [openDeleteModal] and after the operator typed
    [typed]. *)
Definition dialog (typed : string) : Clients.State :=
  Clients.setConfirmClientName typed
    (Clients.openDeleteModal "u1" noFailure clientsDb ana clientsPage).

(** *** A failing first page, an empty store and empty caches *)

Definition firstPageFails : Z → Z → Response (list Appointment.t) :=
  Pagination.rangeFailingAt [] 0 {| message := "timeout" |}.

Definition emptyRemote : RelatedData.Remote :=
  {| RelatedData.booking_clients := []; RelatedData.modalities := [];
     RelatedData.clientsFailure := None; RelatedData.modalitiesFailure := None |}.

Definition emptyCache : RelatedData.Cache :=
  {| RelatedData.clientsCache := ∅; RelatedData.modalitiesCache := ∅ |}.

Definition emptyPage : Queries.PageState Appointment.t :=
  {| Queries.items := [appointment "old" "pago" 10]; Queries.toasts := [] |}.

End Samples.

(** ** 4.5 Cache reconciliation ([onSuccess] of the mutations)

    The updaters handed to [queryClient.setQueryData]; [oldData] is
    [undefined] when the query was never fetched. *)

Module QueryCache.

Definition idOf (a : AppointmentWithModality.t) : string :=
  Appointment.id (AppointmentWithModality.row a).

(** Create: the new record in front ([useAppointments] and, for both of its
    keys, [useClientBookings]). *)
Definition onCreated {T} (newAppointment : T) (oldData : option (list T)) : list T :=
  match oldData with
  | None => [newAppointment]
  | Some old => newAppointment :: old
  end.

(** Update: the record with the same id is replaced where it stands. *)
Definition onUpdated (updatedAppointment : AppointmentWithModality.t)
    (oldData : option (list AppointmentWithModality.t))
    : list AppointmentWithModality.t :=
  match oldData with
  | None => [updatedAppointment]
  | Some old =>
      (λ apt, if String.eqb (idOf apt) (idOf updatedAppointment)
              then updatedAppointment else apt) <$> old
  end.

(** Delete: [variables] is the id handed to the mutation. *)
Definition onDeleted (variables : string)
    (oldData : option (list AppointmentWithModality.t))
    : list AppointmentWithModality.t :=
  match oldData with
  | None => []
  | Some old => filter (λ apt, idOf apt ≠ variables) old
  end.

(** The queries each of the three handlers marks stale. *)
Definition invalidated : list string :=
  ["appointments"; "clientBookings"; "availableHours"].

End QueryCache.

(** ** 4.5 Updating and deleting an appointment ([useAppointments]) *)

Module UpdateAppointment.

Record UpdateAppointmentData := {
  client_id : option string;
  date : option string;
  modality_id : option string;
  status : option string;
  valor_total : option Number
}.

(** What [update(updateData)] does to a row: the fields present replace
    the columns. *)
Definition applyPatch (updateData : UpdateAppointmentData) (row : Appointment.t)
    : Appointment.t :=
  {| Appointment.id := Appointment.id row;
     Appointment.client_id :=
       match client_id updateData with
       | Some c => Some c
       | None => Appointment.client_id row
       end;
     Appointment.date := default (Appointment.date row) (date updateData);
     Appointment.status := default (Appointment.status row) (status updateData);
     Appointment.modality := Appointment.modality row;
     Appointment.modality_id :=
       match modality_id updateData with
       | Some m => Some m
       | None => Appointment.modality_id row
       end;
     Appointment.valor_total :=
       default (Appointment.valor_total row) (valor_total updateData);
     Appointment.recurrence_id := Appointment.recurrence_id row;
     Appointment.user_id := Appointment.user_id row;
     Appointment.booking_source := Appointment.booking_source row;
     Appointment.payment_status := Appointment.payment_status row;
     Appointment.is_cortesia := Appointment.is_cortesia row;
     Appointment.updated_at := Appointment.updated_at row |}.

(** The rows [.eq('id', id).eq('user_id', userId)] selects. *)
Definition targeted (id userId : string) (row : Appointment.t) : bool :=
  String.eqb (Appointment.id row) id && String.eqb (Appointment.user_id row) userId.

(** The store and what it decides for one call. *)
Record Env := {
  modalities : list Modality.t;
  modalityFailure : option PostgrestError;
  updateFailure : option PostgrestError
}.

Record Result := {
  (** the appointments afterwards *)
  stored : list Appointment.t;
  (** whether the price of the modality was asked of the store *)
  askedModality : bool;
  (** the object handed to [update], when the call got that far *)
  sent : option UpdateAppointmentData;
  outcome : Outcome (option Appointment.t)
}.

(** The price used for a changed modality: the cached record first, the
    store otherwise.  Returns the price or the error thrown, and whether
    the store was asked. *)
Definition modalityPrice (env : Env) (cache : RelatedData.Cache)
    (userId modalityId : string) : (PostgrestError + Number) * bool :=
  let cachedModalities := RelatedData.modalitiesCache cache !! userId in
  match cachedModalities ≫= (λ m, m !! modalityId) with
  | Some modalityData => (inr (ModalityRef.valor modalityData), false)
  | None =>
      let fetched :=
        CreateAppointment.selectModalityValor (modalities env)
          (modalityFailure env) modalityId userId in
      match Supabase.error fetched, data fetched with
      | None, Some valor => (inr valor, true)
      | _, _ => (inl {| message := "Modalidade não encontrada" |}, true)
      end
  end.

(** [update(updateData).eq('id', id).eq('user_id', userId).select('*').single()].
    The store applies the update and answers with the one row updated; a
    request for a single row that matches none or several fails, and the
    store then leaves its rows as they were. *)
Definition updateRows (failure : option PostgrestError)
    (appointments : list Appointment.t) (id userId : string)
    (updateData : UpdateAppointmentData)
    : list Appointment.t * Response Appointment.t :=
  match failure with
  | Some e => (appointments, failedWith e)
  | None =>
      let updated :=
        applyPatch updateData <$>
          filter (λ row, targeted id userId row = true) appointments in
      match updated with
      | [_] =>
          ((λ row, if targeted id userId row
                   then applyPatch updateData row else row) <$> appointments,
           CreateAppointment.single None updated)
      | _ => (appointments, CreateAppointment.single None updated)
      end
  end.

Definition mutationFn (user : option string) (env : Env)
    (cache : RelatedData.Cache) (appointments : list Appointment.t)
    (id : string) (data : UpdateAppointmentData) : Result :=
  if truthy user then
    let userId := default "" user in
    let priced :=
      if truthy (modality_id data) then
        match modalityPrice env cache userId (default "" (modality_id data)) with
        | (inr valor, asked) =>
            (inr {| client_id := client_id data; date := date data;
                    modality_id := modality_id data; status := status data;
                    valor_total := Some valor |}, asked)
        | (inl thrown, asked) => (inl thrown, asked)
        end
      else (inr data, false) in
    match priced with
    | (inl thrown, asked) =>
        {| stored := appointments; askedModality := asked; sent := None;
           outcome := Rejected thrown |}
    | (inr updateData, asked) =>
        let '(stored', resp) :=
          updateRows (updateFailure env) appointments id userId updateData in
        {| stored := stored'; askedModality := asked; sent := Some updateData;
           outcome :=
             match Supabase.error resp with
             | Some e => Rejected e
             | None => Resolved (Supabase.data resp)
             end |}
    end
  else
    {| stored := appointments; askedModality := false; sent := None;
       outcome := Rejected {| message := "Usuário não autenticado" |} |}.

End UpdateAppointment.

Module DeleteAppointment.

(** [deleteAppointmentMutation]: the appointments afterwards and the
    outcome; a delete that matches no row is no error. *)
Definition mutationFn (user : option string) (failure : option PostgrestError)
    (appointments : list Appointment.t) (id : string)
    : list Appointment.t * Outcome unit :=
  if truthy user then
    match failure with
    | Some e => (appointments, Rejected e)
    | None =>
        (filter (λ row, UpdateAppointment.targeted id (default "" user) row = false)
                appointments,
         Resolved ())
    end
  else (appointments, Rejected {| message := "Usuário não autenticado" |}).

End DeleteAppointment.

(** ** The other mutations of [useClientBookings]

    [updateBooking], [cancelBooking], [confirmBooking] and [markCompleted]
    all run [update(data).eq('id', id).select().single()]. *)

Module BookingMutations.

Record UpdateClientBookingData := {
  status : option string;
  modality : option string;
  valor_total : option Number
}.

Definition applyPatch (data : UpdateClientBookingData) (row : Appointment.t)
    : Appointment.t :=
  {| Appointment.id := Appointment.id row;
     Appointment.client_id := Appointment.client_id row;
     Appointment.date := Appointment.date row;
     Appointment.status := default (Appointment.status row) (status data);
     Appointment.modality :=
       match modality data with
       | Some m => Some m
       | None => Appointment.modality row
       end;
     Appointment.modality_id := Appointment.modality_id row;
     Appointment.valor_total :=
       default (Appointment.valor_total row) (valor_total data);
     Appointment.recurrence_id := Appointment.recurrence_id row;
     Appointment.user_id := Appointment.user_id row;
     Appointment.booking_source := Appointment.booking_source row;
     Appointment.payment_status := Appointment.payment_status row;
     Appointment.is_cortesia := Appointment.is_cortesia row;
     Appointment.updated_at := Appointment.updated_at row |}.

(** As for the update of [useAppointments], a request that does not match
    exactly one row fails and changes nothing. *)
Definition updateBooking (failure : option PostgrestError)
    (appointments : list Appointment.t) (id : string)
    (data : UpdateClientBookingData)
    : list Appointment.t * Outcome (option Appointment.t) :=
  match failure with
  | Some e => (appointments, Rejected e)
  | None =>
      let updated :=
        applyPatch data <$>
          filter (λ row, Appointment.id row = id) appointments in
      let resp := CreateAppointment.single None updated in
      (match updated with
       | [_] =>
           (λ row, if String.eqb (Appointment.id row) id
                   then applyPatch data row else row) <$> appointments
       | _ => appointments
       end,
       match Supabase.error resp with
       | Some e => Rejected e
       | None => Resolved (Supabase.data resp)
       end)
  end.

Definition onlyStatus (s : string) : UpdateClientBookingData :=
  {| status := Some s; modality := None; valor_total := None |}.

Definition cancelBooking (failure : option PostgrestError)
    (appointments : list Appointment.t) (id : string) :=
  updateBooking failure appointments id (onlyStatus "cancelado").

Definition confirmBooking (failure : option PostgrestError)
    (appointments : list Appointment.t) (id : string) :=
  updateBooking failure appointments id (onlyStatus "agendado").

Definition markCompleted (failure : option PostgrestError)
    (appointments : list Appointment.t) (id : string) :=
  updateBooking failure appointments id (onlyStatus "pago").

End BookingMutations.

(** ** The client portal page (ClientDashboard.tsx) *)

Module PortalPage.

(** What the join [client:booking_clients(name, email, phone)] attaches. *)
Record ClientJoin := {
  name : string;
  email : string;
  phone : option string
}.

(** A row of the page: the appointment and its joined client. *)
Record Agendamento := {
  apt : Appointment.t;
  client : option ClientJoin
}.

(** The logged-in client of [useClientAuth] ([client] in the source; [me]
    below, where the rows have a field of that name). *)
Record PortalClient := {
  clientId : string;
  clientEmail : string;
  clientName : string
}.

Section Tabs.

(** [parseISO] of date-fns. *)
Variable parseISO : string → Date.

(** The callbacks of the two filters; each call reads the clock itself
    ([now] is that reading). *)
Definition isFuturo (now : Z) (a : Agendamento) : bool :=
  let aptDate := parseISO (Appointment.date (apt a)) in
  JsDate.gt aptDate (Time now)
  && negb (String.eqb (Appointment.status (apt a)) "cancelado").

Definition isPassado (now : Z) (a : Agendamento) : bool :=
  let aptDate := parseISO (Appointment.date (apt a)) in
  isBefore aptDate (Time now)
  || String.eqb (Appointment.status (apt a)) "cancelado".

(** The two lists, with the clock reading of each callback call. *)
Definition agendamentosFuturos (readings : list Z) (agendamentos : list Agendamento)
    : list Agendamento :=
  (filter (λ p, isFuturo p.1 p.2 = true) (zip readings agendamentos)).*2.

Definition agendamentosPassados (readings : list Z) (agendamentos : list Agendamento)
    : list Agendamento :=
  (filter (λ p, isPassado p.1 p.2 = true) (zip readings agendamentos)).*2.

End Tabs.

(** *** [handleCancelar] *)

Record Db := {
  appointments : list Appointment.t;
  booking_clients : list Client.t
}.

(** What a call of [handleCancelar] meets: which requests fail, and
    [new Date().toISOString()] at the update. *)
Record Env := {
  fetchError1 : option PostgrestError;
  fetchError2 : option PostgrestError;
  updateError : option PostgrestError;
  nowISO : string
}.

Record State := {
  agendamentos : list Agendamento;
  cancelingId : option string;
  alerts : list string
}.

(** [.maybeSingle()]: no row is [null] without error, several rows are an
    error. *)
Definition maybeSingle {T} (failure : option PostgrestError) (rows : list T)
    : Response T :=
  match failure with
  | Some e => failedWith e
  | None =>
      match rows with
      | [] => noData
      | [row] => ok row
      | _ => failed "JSON object requested, multiple (or no) rows returned"
      end
  end.

Definition join (clients : list Client.t) (row : Appointment.t) : Agendamento :=
  {| apt := row;
     client :=
       (λ c, {| name := Client.name c; email := Client.email c;
                phone := Client.phone c |})
         <$> (Appointment.client_id row
                ≫= (λ cid, find (λ c, bool_decide (Client.id c = cid)) clients)) |}.

(** [{ ...apt, status: 'cancelado' }], the patch of the list entry. *)
Definition cancelled (row : Appointment.t) : Appointment.t :=
  BookingMutations.applyPatch (BookingMutations.onlyStatus "cancelado") row.

(** [update({ status: 'cancelado', updated_at: ... })], what the store
    does to a row. *)
Definition cancelledAt (updatedAt : string) (row : Appointment.t) : Appointment.t :=
  {| Appointment.id := Appointment.id row;
     Appointment.client_id := Appointment.client_id row;
     Appointment.date := Appointment.date row;
     Appointment.status := "cancelado";
     Appointment.modality := Appointment.modality row;
     Appointment.modality_id := Appointment.modality_id row;
     Appointment.valor_total := Appointment.valor_total row;
     Appointment.recurrence_id := Appointment.recurrence_id row;
     Appointment.user_id := Appointment.user_id row;
     Appointment.booking_source := Appointment.booking_source row;
     Appointment.payment_status := Appointment.payment_status row;
     Appointment.is_cortesia := Appointment.is_cortesia row;
     Appointment.updated_at := updatedAt |}.

(** A row and a list entry with the time stamp blanked, to compare rows
    in their other columns. *)
Definition untimed (row : Appointment.t) : Appointment.t :=
  {| Appointment.id := Appointment.id row;
     Appointment.client_id := Appointment.client_id row;
     Appointment.date := Appointment.date row;
     Appointment.status := Appointment.status row;
     Appointment.modality := Appointment.modality row;
     Appointment.modality_id := Appointment.modality_id row;
     Appointment.valor_total := Appointment.valor_total row;
     Appointment.recurrence_id := Appointment.recurrence_id row;
     Appointment.user_id := Appointment.user_id row;
     Appointment.booking_source := Appointment.booking_source row;
     Appointment.payment_status := Appointment.payment_status row;
     Appointment.is_cortesia := Appointment.is_cortesia row;
     Appointment.updated_at := "" |}.

Definition untimedEntry (a : Agendamento) : Agendamento :=
  {| apt := untimed (apt a); client := client a |}.

(** The appointment the handler accepts as the client's own, if any. *)
Definition findOwn (env : Env) (db : Db) (me : PortalClient)
    (adminUserId agendamentoId : string) : option Appointment.t :=
  let byClientId :=
    maybeSingle (fetchError1 env)
      (filter (λ row, Appointment.id row = agendamentoId
                      ∧ Appointment.client_id row = Some (clientId me))
              (appointments db)) in
  match Supabase.error byClientId, data byClientId with
  | None, Some dataByClientId => Some dataByClientId
  | _, _ =>
      let byAccount :=
        maybeSingle (fetchError2 env)
          (join (booking_clients db) <$>
             filter (λ row, Appointment.id row = agendamentoId
                            ∧ Appointment.user_id row = adminUserId)
                    (appointments db)) in
      match Supabase.error byAccount, data byAccount with
      | None, Some allAppointments =>
          if bool_decide (email <$> client allAppointments
                          = Some (clientEmail me))
          then Some (apt allAppointments) else None
      | _, _ => None
      end
  end.

(** [confirmed] is the answer to the [confirm] dialog. *)
Definition handleCancelar (confirmed : bool) (env : Env) (me : PortalClient)
    (adminUserId agendamentoId : string) (db : Db) (st : State) : State * Db :=
  if negb confirmed then (st, db)
  else
    let finish (list : list Agendamento) (alert : string) :=
      {| agendamentos := list; cancelingId := None;
         alerts := alerts st ++ [alert] |} in
    match findOwn env db me adminUserId agendamentoId with
    | None =>
        (finish (agendamentos st)
           "Erro ao verificar agendamento. Tente novamente.", db)
    | Some _ =>
        match updateError env with
        | Some e =>
            (finish (agendamentos st)
               (String.append "Erro ao cancelar agendamento: " (message e)), db)
        | None =>
            (finish
               ((λ a, if String.eqb (Appointment.id (apt a)) agendamentoId
                      then {| apt := cancelled (apt a); client := client a |}
                      else a) <$> agendamentos st)
               "Agendamento cancelado com sucesso!",
             {| appointments :=
                  (λ row, if String.eqb (Appointment.id row) agendamentoId
                          then cancelledAt (nowISO env) row else row)
                    <$> appointments db;
                booking_clients := booking_clients db |})
        end
    end.

End PortalPage.

(** ** The weekly dashboard page (DashboardModern.tsx) *)

Module DashboardPage.

(** The [Appointment] interface of the page. *)
Record DashAppointment := {
  id : string;
  date : string;
  status : string;
  modality : string;
  clientName : string;
  recurrence_id : option string
}.

(** The component state the click handlers touch. *)
Record State := {
  appointments : list DashAppointment;
  isModalOpen : bool;
  selectedDate : option Date;
  selectedTime : option string;
  isDetailsModalOpen : bool;
  selectedAppointment : option DashAppointment;
  isConfirmationModalOpen : bool;
  blockedTimeSlot : option (Date * string)
}.

(** What is written to the PDF document, in order. *)
Inductive DocOp :=
| SetFontSize (size : Z)
| Text (text : string) (x y : Z)
| TextCentered (text : string) (x y : Z)
| Save (fileName : string).

Definition dayNames : list string :=
  ["Domingo"; "Segunda"; "Terça"; "Quarta"; "Quinta"; "Sexta"; "Sábado"].

Section Page.

Variable tz : TimeZone.
(** [new Date(apt.date)]. *)
Variable newDate : string → Date.
(** [parseInt(timeSlot.split(':')[0])]; [None] is [NaN]. *)
Variable parseHour : string → option Z.
(** From the [useWorkingHours] hook. *)
Variable isTimeSlotBlocked : Date → string → bool.
Variable isDayEnabled : Date → bool.
Variable getAvailableHoursForDay : Date → list string.
(** [format(d, 'dd/MM')], [format(d, 'HH:00')] and [format(d, 'yyyy_MM_dd')]. *)
Variable formatDayMonth : Date → string.
Variable formatHour : Date → string.
Variable formatFileDate : Date → string.

(** date-fns [isSameDay]: the two local days start at the same instant. *)
Definition isSameDay (a b : Date) : bool :=
  match a, b with
  | Time x, Time y => startOfDay tz x =? startOfDay tz y
  | _, _ => false
  end.

(** [d.getHours()]; [None] is [NaN]. *)
Definition getHours (d : Date) : option Z :=
  match d with
  | Time ms => Some (localHours tz ms)
  | InvalidDate => None
  end.

(** [a === b] on two numbers. *)
Definition sameNumber (a b : option Z) : bool :=
  match a, b with
  | Some x, Some y => x =? y
  | _, _ => false
  end.

(** *** The stat cards *)

Definition isToday (now : Z) (apt : DashAppointment) : bool :=
  isSameDay (newDate (date apt)) (Time now).

(** The callback of the filter under the card "A Cobrar". *)
Definition isToCharge (now : Z) (apt : DashAppointment) : bool :=
  if String.eqb (status apt) "a_cobrar" then true
  else if String.eqb (status apt) "agendado" then
    isBefore (setHours0 tz (newDate (date apt))) (setHours0 tz (Time now))
  else false.

Definition todayCount (now : Z) (l : list DashAppointment) : nat :=
  length (filter (λ apt, isToday now apt = true) l).

Definition toChargeCount (now : Z) (l : list DashAppointment) : nat :=
  length (filter (λ apt, isToCharge now apt = true) l).

Definition paidCount (l : list DashAppointment) : nat :=
  length (filter (λ apt, status apt = "pago") l).

(** The [date] argument as [getStatusColor] and [getStatusLabel] see it. *)
Definition dateArgument (apt : DashAppointment) : option Date :=
  if String.eqb (date apt) "" then None else Some (newDate (date apt)).

(** *** The calendar grid *)

Definition inSlot (day : Date) (timeSlot : string) (apt : DashAppointment) : bool :=
  let slotHour := parseHour timeSlot in
  let aptDate := newDate (date apt) in
  let aptHour := getHours aptDate in
  isSameDay aptDate day && sameNumber aptHour slotHour.

Definition getAppointmentForSlot (l : list DashAppointment) (day : Date)
    (timeSlot : string) : option DashAppointment :=
  find (inSlot day timeSlot) l.

Definition handleCellClick (day : Date) (timeSlot : string) (st : State) : State :=
  match getAppointmentForSlot (appointments st) day timeSlot with
  | Some appointment =>
      {| appointments := appointments st; isModalOpen := isModalOpen st;
         selectedDate := selectedDate st; selectedTime := selectedTime st;
         isDetailsModalOpen := true; selectedAppointment := Some appointment;
         isConfirmationModalOpen := isConfirmationModalOpen st;
         blockedTimeSlot := blockedTimeSlot st |}
  | None =>
      if negb (isTimeSlotBlocked day timeSlot) then
        {| appointments := appointments st; isModalOpen := true;
           selectedDate := Some day; selectedTime := Some timeSlot;
           isDetailsModalOpen := isDetailsModalOpen st;
           selectedAppointment := selectedAppointment st;
           isConfirmationModalOpen := isConfirmationModalOpen st;
           blockedTimeSlot := blockedTimeSlot st |}
      else
        {| appointments := appointments st; isModalOpen := isModalOpen st;
           selectedDate := selectedDate st; selectedTime := selectedTime st;
           isDetailsModalOpen := isDetailsModalOpen st;
           selectedAppointment := selectedAppointment st;
           isConfirmationModalOpen := true;
           blockedTimeSlot := Some (day, timeSlot) |}
  end.

Definition handleConfirmBlockedTimeSlot (st : State) : State :=
  match blockedTimeSlot st with
  | Some (day, timeSlot) =>
      {| appointments := appointments st; isModalOpen := true;
         selectedDate := Some day; selectedTime := Some timeSlot;
         isDetailsModalOpen := isDetailsModalOpen st;
         selectedAppointment := selectedAppointment st;
         isConfirmationModalOpen := false; blockedTimeSlot := None |}
  | None => st
  end.

Definition handleCancelBlockedTimeSlot (st : State) : State :=
  {| appointments := appointments st; isModalOpen := isModalOpen st;
     selectedDate := selectedDate st; selectedTime := selectedTime st;
     isDetailsModalOpen := isDetailsModalOpen st;
     selectedAppointment := selectedAppointment st;
     isConfirmationModalOpen := false; blockedTimeSlot := None |}.

(** *** [generateAvailableHoursPDF] *)

(** [Math.ceil(n / 5)]. *)
Definition rowsFor (n : nat) : nat := (n + 4) / 5.

(** The two nested [for] loops that lay the free hours out, five to a
    row. *)
Definition gridOps (freeHours : list string) (currentY : Z) : list DocOp :=
  let columns := 5%nat in
  let rows := rowsFor (length freeHours) in
  row ← seq 0 rows;
  col ← seq 0 columns;
  let index := (row * columns + col)%nat in
  match freeHours !! index with
  | Some hour =>
      [SetFontSize 9;
       Text hour (25 + Z.of_nat col * 35) (currentY + Z.of_nat row * 5)]
  | None => []
  end.

Definition freeHoursOf (l : list DashAppointment) (day : Date) : list string :=
  let availableHours := getAvailableHoursForDay day in
  let dayAppointments := filter (λ apt, isSameDay (newDate (date apt)) day = true) l in
  let occupiedHours := (λ apt, formatHour (newDate (date apt))) <$> dayAppointments in
  filter (λ time, time ∉ occupiedHours) availableHours.

(** The body of [weekDays.forEach]: what it writes and [currentY]
    afterwards. *)
Definition dayOps (l : list DashAppointment) (dayIndex : nat) (day : Date)
    (currentY : Z) : list DocOp * Z :=
  let dayName := default "undefined" (dayNames !! dayIndex) in
  let dayDate := formatDayMonth day in
  let header :=
    [SetFontSize 12;
     Text (String.append dayName
             (String.append " (" (String.append dayDate ")"))) 20 currentY] in
  let currentY := currentY + 8 in
  let '(body, currentY) :=
    if negb (isDayEnabled day) then
      ([SetFontSize 10; Text "FECHADO" 25 currentY], currentY + 12)
    else
      let freeHours := freeHoursOf l day in
      if (0 <? length freeHours)%nat then
        (gridOps freeHours currentY,
         currentY + Z.of_nat (rowsFor (length freeHours)) * 5 + 3)
      else
        ([SetFontSize 10; Text "Nenhum horário disponível" 25 currentY],
         currentY + 8) in
  (header ++ body, currentY + 3).

(** [addDays(startOfWeek(currentWeek), i)] for the seven days of the week;
    [weekStart] numbers the local day on which the week begins. *)
Definition weekDays (weekStart : Z) : list Date :=
  (λ i : nat, Time (midnight tz (weekStart + Z.of_nat i))) <$> seq 0 7.

Definition weekOps (l : list DashAppointment) (days : list Date)
    (currentY : Z) : list DocOp * Z :=
  fold_left
    (λ acc '(dayIndex, day),
       let '(ops, y) := dayOps l dayIndex day acc.2 in (acc.1 ++ ops, y))
    (imap (λ i day, (i, day)) days) ([], currentY).

Definition generateAvailableHoursPDF (l : list DashAppointment)
    (weekStart : Z) (currentWeek : Date) : list DocOp :=
  [SetFontSize 16; TextCentered "Horários Disponíveis da Semana" 105 20]
  ++ (weekOps l (weekDays weekStart) 35).1
  ++ [Save (String.append "horarios_semana_"
              (String.append (formatFileDate currentWeek) ".pdf"))].

End Page.
End DashboardPage.

(** ** 4.5 [getAppointmentsByPeriod] ([useAppointments])

    The loop and the join stage of the query function once more; [range]
    is now the query of the account between the two dates,
    [.gte('date', startDate).lte('date', endDate).order('date')]. *)

Module Period.

Import Pagination Queries.

Definition getAppointmentsByPeriod (user : option string)
    (range : Z → Z → Response (list Appointment.t))
    (remote : RelatedData.Remote) (cache : RelatedData.Cache)
    : option (Outcome (list AppointmentWithModality.t) * RelatedData.Cache) :=
  if truthy user then
    st ← paginate range;
    match error st with
    | Some e => Some (Rejected e, cache)
    | None =>
        let '(maps, cache', _) :=
          RelatedData.fetchRelatedData user remote cache (allAppointments st) in
        Some (Resolved
                (decorate (RelatedData.clientsMap maps)
                          (RelatedData.modalitiesMap maps)
                   <$> allAppointments st),
              cache')
    end
  else Some (Rejected {| message := "Usuário não autenticado" |}, cache).

End Period.

(** ** [fetchAgendamentos] of the client portal (ClientDashboard.tsx)

    The appointments of the store are held in the order of the query
    ([order('date')]).  The function may replace the id of the logged-in
    client object; it returns the list of the page and that object. *)

Module FetchAgendamentos.

Import Pagination PortalPage.

Record Env := {
  clientError : option PostgrestError;
  emailError : option PostgrestError;
  (** the offset at which a page request of the first, resp. the
      alternative, query fails, if one does *)
  pageFailure : option (Z * PostgrestError);
  altPageFailure : option (Z * PostgrestError)
}.

(** The store's answers to [.range] over the result set [table]. *)
Definition pages {A} (failure : option (Z * PostgrestError)) (table : list A)
    : Z → Z → Response (list A) :=
  match failure with
  | Some (bad, e) => rangeFailingAt table bad e
  | None => rangeOfTable table
  end.

(** The check of the client against [booking_clients], by id and then by
    e-mail address: the client to go on with, or [None] where the function
    returns early. *)
Definition verifiedClient (env : Env) (db : Db) (client : PortalClient)
    (adminUserId : string) : option PortalClient :=
  let clientCheck :=
    maybeSingle (clientError env)
      (filter (λ c, Client.id c = clientId client
                    ∧ Client.user_id c = adminUserId)
              (booking_clients db)) in
  match Supabase.error clientCheck with
  | Some _ => None
  | None =>
      match data clientCheck with
      | Some _ => Some client
      | None =>
          let clientByEmail :=
            maybeSingle (emailError env)
              (filter (λ c, Client.email c = clientEmail client
                            ∧ Client.user_id c = adminUserId)
                      (booking_clients db)) in
          match Supabase.error clientByEmail with
          | Some _ => None
          | None =>
              match data clientByEmail with
              | Some found =>
                  Some {| clientId := Client.id found;
                          clientEmail := clientEmail client;
                          clientName := clientName client |}
              | None => None
              end
          end
      end
  end.

(** The rows of the two queries. *)
Definition ownRows (db : Db) (clientId adminUserId : string) : list Agendamento :=
  join (booking_clients db) <$>
    filter (λ row, Appointment.client_id row = Some clientId
                   ∧ Appointment.user_id row = adminUserId)
           (appointments db).

Definition accountRows (db : Db) (adminUserId : string) : list Agendamento :=
  join (booking_clients db) <$>
    filter (λ row, Appointment.user_id row = adminUserId) (appointments db).

Definition fetchAgendamentos (env : Env) (db : Db) (me : option PortalClient)
    (adminUserId : option string) (agendamentos : list Agendamento)
    : option (list Agendamento * option PortalClient) :=
  match me with
  | None => Some (agendamentos, me)
  | Some client =>
      if negb (truthy (Some (clientId client))) || negb (truthy adminUserId)
      then Some (agendamentos, me)
      else
        let admin := default "" adminUserId in
        match verifiedClient env db client admin with
        | None => Some (agendamentos, me)
        | Some client =>
            st ← paginate (pages (pageFailure env)
                             (ownRows db (clientId client) admin));
            match error st with
            | Some _ => Some (agendamentos, Some client)
            | None =>
                let data := allAppointments st in
                match data with
                | [] =>
                    alt ← paginate (pages (altPageFailure env)
                                      (accountRows db admin));
                    let allAltAppointments := allAppointments alt in
                    let clientAppointments :=
                      filter (λ apt, email <$> PortalPage.client apt
                                     = Some (clientEmail client))
                             allAltAppointments in
                    match error alt, allAltAppointments, clientAppointments with
                    | None, _ :: _, _ :: _ =>
                        Some (clientAppointments, Some client)
                    | _, _, _ => Some (data, Some client)
                    end
                | _ => Some (data, Some client)
                end
            end
        end
  end.

End FetchAgendamentos.

(** ** The search box of the client list (DashboardModern.tsx) *)

Module ClientSearch.

(** [s.includes(sub)]. *)
Fixpoint includes (s sub : string) : bool :=
  String.prefix sub s
  || match s with
     | EmptyString => false
     | String _ s' => includes s' sub
     end.

Section Host.

Context `{!JsString.Builtins}.

(** The callback of the filter; [client.phone?.includes] of an absent
    phone is [undefined]. *)
Definition matches (searchTerm : string) (client : Client.t) : bool :=
  includes (JsString.toLowerCase (Client.name client))
           (JsString.toLowerCase searchTerm)
  || includes (JsString.toLowerCase (Client.email client))
              (JsString.toLowerCase searchTerm)
  || match Client.phone client with
     | Some phone => includes phone searchTerm
     | None => false
     end.

Definition filteredClients (searchTerm : string) (clients : list Client.t)
    : list Client.t :=
  filter (λ client, matches searchTerm client = true) clients.

End Host.

End ClientSearch.

(** ** More sample data *)

Module MoreSamples.

Import Samples.

Definition timeout : PostgrestError := {| message := "timeout" |}.

(** One appointment of Ana in account [u1], and the run of the loop that
    fetches it. *)
Definition oneRow : list Appointment.t := [appointment "a1" "agendado" 120].

Definition oneRowRun : @Pagination.LoopState Appointment.t :=
  {| Pagination.allAppointments := oneRow; Pagination.from := 1000;
     Pagination.hasMore := false; Pagination.error := None;
     Pagination.requested := [0] |}.

Definition remoteWithAna : RelatedData.Remote :=
  {| RelatedData.booking_clients := [ana]; RelatedData.modalities := modalities;
     RelatedData.clientsFailure := None; RelatedData.modalitiesFailure := None |}.

(** *** Updating an appointment *)

Definition futsal : ModalityRef.t :=
  {| ModalityRef.id := "m1"; ModalityRef.name := "Futsal"; ModalityRef.valor := 120 |}.

(** The cache of account [u1] knows the modality [m1]. *)
Definition pricedCache : RelatedData.Cache :=
  {| RelatedData.clientsCache := ∅;
     RelatedData.modalitiesCache := {[ "u1" := {[ "m1" := futsal ]} ]} |}.

Definition updateEnv : UpdateAppointment.Env :=
  {| UpdateAppointment.modalities := [];
     UpdateAppointment.modalityFailure := None;
     UpdateAppointment.updateFailure := None |}.

Definition changeModality (mid : string) : UpdateAppointment.UpdateAppointmentData :=
  {| UpdateAppointment.client_id := None; UpdateAppointment.date := None;
     UpdateAppointment.modality_id := Some mid;
     UpdateAppointment.status := None;
     UpdateAppointment.valor_total := Some (ofZ 0) |}.

Definition complimentary : Appointment.t :=
  {| Appointment.id := "a1"; Appointment.client_id := Some "c1";
     Appointment.date := slot; Appointment.status := "agendado";
     Appointment.modality := Some "Volei"; Appointment.modality_id := Some "m2";
     Appointment.valor_total := 0; Appointment.recurrence_id := None;
     Appointment.user_id := "u1"; Appointment.booking_source := "manual";
     Appointment.payment_status := None; Appointment.is_cortesia := true;
     Appointment.updated_at := "2024-05-01T09:00:00.000Z" |}.

(** *** Bookings *)

Definition emptyBookingDb : CreateBooking.Db :=
  {| CreateBooking.appointments := []; CreateBooking.booking_clients := [] |}.

Definition cancelledDb : CreateBooking.Db :=
  {| CreateBooking.appointments :=
       (BookingMutations.cancelBooking None oneRow "a1").1;
     CreateBooking.booking_clients := [] |}.

(** The same address as [newcomer], written otherwise. *)
Definition newcomerAgain : CreateBooking.ClientData :=
  {| CreateBooking.name := "Bia"; CreateBooking.email := "BIA@example.com";
     CreateBooking.phone := None |}.

(** *** The client list *)

Definition clientDeleteFails : Clients.Env :=
  {| Clients.appointmentsQueryFailure := None;
     Clients.modalitiesQueryFailure := None;
     Clients.deleteAppointmentsFailure := None;
     Clients.deleteClientFailure := Some timeout |}.

Definition lookupFails : Clients.Env :=
  {| Clients.appointmentsQueryFailure := Some timeout;
     Clients.modalitiesQueryFailure := None;
     Clients.deleteAppointmentsFailure := None;
     Clients.deleteClientFailure := None |}.

(** *** The client portal *)

Definition portalAna : PortalPage.PortalClient :=
  {| PortalPage.clientId := "c1"; PortalPage.clientEmail := "ana@example.com";
     PortalPage.clientName := "Ana" |}.

Definition portalEve : PortalPage.PortalClient :=
  {| PortalPage.clientId := "c7"; PortalPage.clientEmail := "eve@example.com";
     PortalPage.clientName := "Eve" |}.

(** Ana logged in under an id the account does not know. *)
Definition portalAnaOtherId : PortalPage.PortalClient :=
  {| PortalPage.clientId := "c0"; PortalPage.clientEmail := "ana@example.com";
     PortalPage.clientName := "Ana" |}.

Definition portalDb : PortalPage.Db :=
  {| PortalPage.appointments := oneRow; PortalPage.booking_clients := [ana] |}.

Definition portalEnv : PortalPage.Env :=
  {| PortalPage.fetchError1 := None; PortalPage.fetchError2 := None;
     PortalPage.updateError := None;
     PortalPage.nowISO := "2024-05-09T15:30:00.000Z" |}.

Definition portalState : PortalPage.State :=
  {| PortalPage.agendamentos := PortalPage.join [ana] <$> oneRow;
     PortalPage.cancelingId := None; PortalPage.alerts := [] |}.

Definition fetchEnv : FetchAgendamentos.Env :=
  {| FetchAgendamentos.clientError := None;
     FetchAgendamentos.emailError := None;
     FetchAgendamentos.pageFailure := None;
     FetchAgendamentos.altPageFailure := None |}.

(** A parser that knows the one date of the samples: 10 May 2024, 10:00
    UTC. *)
Definition parseDate (s : string) : Date :=
  if String.eqb s slot then Time 1715335200000 else InvalidDate.

(** *** The dashboard *)

Definition dashAppointment : DashboardPage.DashAppointment :=
  {| DashboardPage.id := "a1"; DashboardPage.date := slot;
     DashboardPage.status := "agendado"; DashboardPage.modality := "Futsal";
     DashboardPage.clientName := "Ana"; DashboardPage.recurrence_id := None |}.

Definition dashState : DashboardPage.State :=
  {| DashboardPage.appointments := [dashAppointment];
     DashboardPage.isModalOpen := false; DashboardPage.selectedDate := None;
     DashboardPage.selectedTime := None;
     DashboardPage.isDetailsModalOpen := false;
     DashboardPage.selectedAppointment := None;
     DashboardPage.isConfirmationModalOpen := false;
     DashboardPage.blockedTimeSlot := None |}.

(** *** Amounts with cents

    The number that the decimal [n / 100] denotes, the double nearest to
    it ([cents 10] is the literal [0.1]), and a paid appointment of a given
    value. *)

Definition cents (n : Z) : Number := SFdiv 53 1024 (ofZ n) (ofZ 100).

Definition paid (valor : Number) : AppointmentWithModality.t :=
  plain
    {| Appointment.id := "a"; Appointment.client_id := Some "c1";
       Appointment.date := "2024-05-10T10:00:00"; Appointment.status := "pago";
       Appointment.modality := Some "Futsal"; Appointment.modality_id := Some "m1";
       Appointment.valor_total := valor; Appointment.recurrence_id := None;
       Appointment.user_id := "u1"; Appointment.booking_source := "manual";
       Appointment.payment_status := None; Appointment.is_cortesia := false;
       Appointment.updated_at := "2024-05-01T09:00:00.000Z" |}.

End MoreSamples.
(** * Properties *)

(** ** The paginated loop *)

Module PaginationFacts.

Import Pagination.

Section Loop.

Context {A : Type}.
Variable range : Z → Z → Response (list A).

Lemma offsetsFrom_S (off : Z) (n : nat) :
  offsetsFrom off (S n) = off :: offsetsFrom (off + pageSize) n.
Proof.
  unfold offsetsFrom. simpl. f_equal; [lia |].
  rewrite <- fmap_S_seq, <- list_fmap_compose.
  apply list_fmap_ext. intros _ i _. simpl. lia.
Qed.

Lemma offsetsFrom_length (off : Z) (n : nat) : length (offsetsFrom off n) = n.
Proof. unfold offsetsFrom. by rewrite length_fmap, length_seq. Qed.

Lemma offsetsFrom_last (off : Z) (n : nat) :
  offsetsFrom off (S n) = offsetsFrom off n ++ [off + pageSize * Z.of_nat n].
Proof. unfold offsetsFrom. by rewrite seq_S, fmap_app. Qed.

Lemma offsetsFrom_bound (off : Z) (n : nat) :
  Forall (λ o, off ≤ o < off + pageSize * Z.of_nat n) (offsetsFrom off n).
Proof.
  unfold offsetsFrom. apply Forall_fmap, Forall_forall. intros i Hi.
  apply elem_of_seq in Hi. unfold pageSize. simpl. lia.
Qed.

(** Once [hasMore] is false the loop is over, whatever the fuel. *)
Lemma whileHasMore_done (fuel : nat) (st : LoopState) :
  hasMore st = false → whileHasMore range fuel st = Some st.
Proof. intros H. destruct fuel; simpl; by rewrite H. Qed.

Lemma Described_one (left : nat) (st st' : LoopState) :
  (0 < left)%nat →
  requested st' = requested st ++ [from st] →
  error st' = pageError range (from st) →
  allAppointments st' =
    allAppointments st ++ match error st' with
                          | Some _ => []
                          | None => pageRows range (from st)
                          end →
  (error st' = None → (1 < left)%nat → ¬ Full range (from st)) →
  Described range left st st' 0.
Proof.
  intros Hl Hreq Herr Hall Hfull. unfold Described.
  assert (offsetsFrom (from st) 1 = [from st]) as ->
    by (unfold offsetsFrom; simpl; f_equal; lia).
  simpl. rewrite Z.mul_0_r, Z.add_0_r.
  repeat split; try done; try lia.
Qed.

Lemma Described_more (left : nat) (st st1 st' : LoopState) (n : nat) :
  pageError range (from st) = None → Full range (from st) →
  requested st1 = requested st ++ [from st] →
  allAppointments st1 = allAppointments st ++ pageRows range (from st) →
  from st1 = from st + pageSize →
  Described range left st1 st' n →
  Described range (S left) st st' (S n).
Proof.
  intros Hpe Hfull Hreq Hall Hfrom (Hn & Hr & Hf & He & Ha & Hs).
  unfold Described. rewrite Hfrom in *.
  replace (from st + pageSize * Z.of_nat (S n))
    with (from st + pageSize + pageSize * Z.of_nat n) by lia.
  repeat split.
  - lia.
  - rewrite Hr, Hreq, (offsetsFrom_S (from st) (S n)), <- app_assoc. done.
  - rewrite offsetsFrom_S. constructor; done.
  - done.
  - rewrite Ha, Hall, (offsetsFrom_S (from st) n), fmap_cons. simpl.
    by rewrite <- !app_assoc.
  - intros H1 H2. apply Hs; [done | lia].
Qed.

(** The run of the loop from a state at page [k]. *)
Lemma whileHasMore_run (fuel k : nat) (st : LoopState) :
  hasMore st = true → error st = None →
  from st = pageSize * Z.of_nat k → (k < 10)%nat → (10 - k ≤ fuel)%nat →
  ∃ st' n, whileHasMore range fuel st = Some st' ∧ Described range (10 - k) st st' n.
Proof.
  revert k st. induction fuel as [|fuel IH]; intros k st Hmore Herr Hfrom Hk Hfuel;
    [lia |].
  simpl. rewrite Hmore. unfold loopBody.
  destruct (Supabase.error (range (from st) (from st + pageSize - 1))) as [e|] eqn:Hpe.
  { (* the request fails: break *)
    eexists _, 0%nat. split; [reflexivity |].
    apply Described_one; simpl; unfold pageError; rewrite ?Hpe; try done; try lia.
    by rewrite app_nil_r. }
  destruct (data (range (from st) (from st + pageSize - 1))) as [pageData|] eqn:Hdata.
  2: { (* no data: stop *)
    assert (Hcap : (pageSize * 10 <=? from st) = false)
      by (apply Z.leb_gt; unfold pageSize in *; lia).
    simpl. rewrite Hcap. rewrite whileHasMore_done by done.
    eexists _, 0%nat. split; [reflexivity |].
    apply Described_one; simpl; unfold pageError, Full, pageRows;
      rewrite ?Hpe, ?Hdata, ?Herr; simpl; try done; try lia.
    by rewrite app_nil_r. }
  destruct (0 <? Z.of_nat (length pageData)) eqn:Hlen.
  2: { (* an empty page: stop *)
    assert (Hcap : (pageSize * 10 <=? from st) = false)
      by (apply Z.leb_gt; unfold pageSize in *; lia).
    simpl. rewrite Hcap. rewrite whileHasMore_done by done.
    eexists _, 0%nat. split; [reflexivity |].
    apply Z.ltb_ge in Hlen.
    apply Described_one; simpl; unfold pageError, Full, pageRows;
      rewrite ?Hpe, ?Hdata, ?Herr; simpl; try done; try lia.
    destruct pageData; [by rewrite app_nil_r | simpl in Hlen; lia]. }
  simpl.
  destruct (Z.of_nat (length pageData) =? pageSize) eqn:Hfull.
  2: { (* a short page: stop *)
    apply Z.eqb_neq in Hfull.
    eexists _, 0%nat. split.
    { destruct (pageSize * 10 <=? from st + pageSize);
        apply whileHasMore_done; done. }
    apply Described_one; destruct (pageSize * 10 <=? from st + pageSize);
      simpl; unfold pageError, Full, pageRows;
      rewrite ?Hpe, ?Hdata, ?Herr; simpl; try done; try lia. }
  apply Z.eqb_eq in Hfull.
  destruct (pageSize * 10 <=? from st + pageSize) eqn:Hcap.
  { (* a full page that reaches the cap: stop *)
    apply Z.leb_le in Hcap.
    rewrite whileHasMore_done by done.
    eexists _, 0%nat. split; [reflexivity |].
    apply Described_one; simpl; unfold pageError, Full, pageRows;
      rewrite ?Hpe, ?Hdata, ?Herr; simpl; try done; try lia.
    intros _ Hleft. unfold pageSize in *. lia. }
  (* a full page below the cap: go on *)
  apply Z.leb_gt in Hcap.
  match goal with |- ∃ _ _, whileHasMore _ _ ?s = _ ∧ _ => set (st1 := s) end.
  destruct (IH (S k) st1) as (st' & n & Hrun & Hdesc); simpl; try done.
  { lia. } { unfold pageSize in *. lia. } { lia. }
  exists st', (S n). split; [done |].
  replace (10 - k)%nat with (S (10 - S k)) by (unfold pageSize in *; lia).
  apply (Described_more _ st st1); simpl; unfold pageError, Full, pageRows;
    rewrite ?Hpe, ?Hdata; simpl; done.
Qed.

(** Ten rounds of fuel are enough from the initial state: the loop always
    returns, and its run is described from offset 0. *)
Lemma paginate_run :
  ∃ st n, paginate range = Some st ∧ Described range 10 initial st n.
Proof.
  destruct (whileHasMore_run 10 0 initial) as (st & n & Hrun & Hdesc);
    try done; try lia.
  by exists st, n.
Qed.

Lemma paginate_total : is_Some (paginate range).
Proof. destruct paginate_run as (st & n & -> & _). by eexists. Qed.

Lemma sumLengths_concat (pages : list (list A)) :
  Z.of_nat (length (concat pages)) = sumLengths pages.
Proof.
  induction pages as [|p pages IH]; [done |].
  simpl. rewrite length_app, <- IH. lia.
Qed.

Lemma sumLengths_bound (pages : list (list A)) :
  Forall (λ p, Z.of_nat (length p) ≤ pageSize) pages →
  sumLengths pages ≤ pageSize * Z.of_nat (length pages).
Proof.
  induction 1 as [|p pages Hp _ IH]; simpl; [lia |].
  unfold pageSize in *. lia.
Qed.


Lemma offsetsFrom_lookup (off : Z) (n i : nat) :
  (i < n)%nat → offsetsFrom off n !! i = Some (off + pageSize * Z.of_nat i).
Proof.
  intros Hi. unfold offsetsFrom. rewrite list_lookup_fmap, lookup_seq_lt by done.
  done.
Qed.

Lemma pageRows_bounded :
  (∀ off rows, data (range off (off + pageSize - 1)) = Some rows →
               Z.of_nat (length rows) ≤ pageSize) →
  ∀ off, Z.of_nat (length (pageRows range off)) ≤ pageSize.
Proof.
  intros Hrange off. unfold pageRows.
  destruct (data (range off (off + pageSize - 1))) as [rows|] eqn:Hd; simpl.
  - by apply (Hrange off).
  - unfold pageSize. lia.
Qed.

(** The rows of a run that met no error are the requested pages, in order. *)
Lemma Described_rows (st : LoopState) (n : nat) :
  Described range 10 initial st n → error st = None →
  allAppointments st = concat (pageRows range <$> requested st).
Proof.
  intros (_ & Hreq & _ & _ & Hall & _) Herr.
  rewrite Hall, Hreq, Herr, offsetsFrom_last, !fmap_app, !concat_app.
  simpl. by rewrite app_nil_r.
Qed.

(** C1. Every paginated fetch returns: the loop issues requests at offsets
    0, 1000, ... (at most ten, so never at offset 10000 or beyond); when no
    request failed, the rows returned are the concatenation of the pages
    fetched, in order, so their number is the sum of the page lengths; the
    loop goes on to the next offset exactly after a page of 1000 rows whose
    next offset is below 10000, so it stops on a shorter page, and stops
    unconditionally at the cap; with pages of at most 1000 rows the result
    holds at most 10000 rows. *)
Theorem paginated_fetch_concatenates_pages_up_to_cap :
  (∀ off rows, data (range off (off + pageSize - 1)) = Some rows →
               Z.of_nat (length rows) ≤ pageSize) →
  ∃ st n,
    paginate range = Some st
    ∧ requested st = offsetsFrom 0 (S n)
    ∧ (n < 10)%nat
    ∧ Forall (λ off, off < pageSize * 10) (requested st)
    ∧ (error st = None →
       allAppointments st = concat (pageRows range <$> requested st)
       ∧ Z.of_nat (length (allAppointments st))
           = sumLengths (pageRows range <$> requested st)
       ∧ (∀ i, (i ≤ n)%nat →
               (S i ≤ n)%nat ↔
               (Full range (pageSize * Z.of_nat i)
                ∧ pageSize * Z.of_nat (S i) < pageSize * 10))
       ∧ ((S n < 10)%nat →
          Z.of_nat (length (pageRows range (pageSize * Z.of_nat n))) < pageSize)
       ∧ Z.of_nat (length (allAppointments st)) ≤ 10000).
Proof.
  intros Hrange.
  destruct paginate_run as (st & n & Hrun & Hdesc).
  pose proof (Described_rows st n Hdesc) as Hrows.
  destruct Hdesc as (Hn & Hreq & Hfull & Herr & Hall & Hshort).
  simpl in *.
  exists st, n. split; [done |]. split; [done |]. split; [done |]. split.
  { rewrite Hreq. eapply Forall_impl; [apply offsetsFrom_bound |].
    simpl. intros off Hoff. unfold pageSize in *. lia. }
  intros Hok. specialize (Hrows Hok). specialize (Hshort Hok).
  split; [done |]. split; [rewrite Hrows; apply sumLengths_concat |].
  split; [| split].
  - intros i Hi. split.
    + intros Hlt.
      assert (Hlook := offsetsFrom_lookup 0 n i Hlt).
      rewrite Forall_lookup in Hfull. apply Hfull in Hlook as [_ Hf].
      rewrite Z.add_0_l in Hf. split; [done | unfold pageSize; lia].
    + intros [Hf Hcap].
      destruct (decide (i = n)) as [->|]; [| lia].
      exfalso. apply Hshort; [unfold pageSize in *; lia | done].
  - intros Hlt.
    pose proof (pageRows_bounded Hrange (pageSize * Z.of_nat n)) as Hle.
    assert (¬ Full range (pageSize * Z.of_nat n)) as Hnf by (by apply Hshort).
    unfold Full in Hnf. lia.
  - rewrite Hrows, sumLengths_concat.
    etrans; [apply sumLengths_bound |].
    + apply Forall_fmap, Forall_forall. intros off _. simpl.
      by apply pageRows_bounded.
    + rewrite length_fmap, Hreq, offsetsFrom_length. unfold pageSize. lia.
Qed.


(** A request that failed is the last one of the run: the loop stops at
    that page with the error, holding the rows of the pages before it. *)
Lemma failing_request_is_last (st : LoopState) (off : Z) (e : PostgrestError) :
  paginate range = Some st → off ∈ requested st → pageError range off = Some e →
  ∃ n, (n < 10)%nat
       ∧ requested st = offsetsFrom 0 n ++ [off]
       ∧ off = pageSize * Z.of_nat n
       ∧ error st = Some e
       ∧ allAppointments st = concat (pageRows range <$> offsetsFrom 0 n).
Proof.
  intros Hrun Hin Hpe.
  destruct paginate_run as (st' & n & Hrun' & Hdesc).
  rewrite Hrun in Hrun'. injection Hrun' as <-.
  destruct Hdesc as (Hn & Hreq & Hfull & Herr & Hall & _). simpl in *.
  rewrite Z.add_0_l in *.
  rewrite Hreq, offsetsFrom_last, elem_of_app, list_elem_of_singleton in Hin.
  destruct Hin as [Hin | ->].
  { rewrite Forall_forall in Hfull. apply Hfull in Hin as [Hnone _]. congruence. }
  rewrite Z.add_0_l in *. rewrite Hpe in Herr.
  exists n. rewrite Hreq, offsetsFrom_last, Z.add_0_l.
  repeat split; try done.
  rewrite Hall, Herr. by rewrite app_nil_r.
Qed.

End Loop.

(** *** The store as an ordered table *)

Section Table.

Context {A : Type}.
Variable table : list A.

Lemma rangeOfTable_bounded (off : Z) (rows : list A) :
  data (rangeOfTable table off (off + pageSize - 1)) = Some rows →
  Z.of_nat (length rows) ≤ pageSize.
Proof.
  unfold rangeOfTable. simpl. intros [= <-].
  rewrite length_take. unfold pageSize. lia.
Qed.

Lemma pageRows_table (off : Z) :
  pageRows (rangeOfTable table) off = take 1000 (drop (Z.to_nat off) table).
Proof.
  unfold pageRows, rangeOfTable. simpl. f_equal. unfold pageSize. lia.
Qed.

(** Consecutive windows of the table add up to one window. *)
Lemma windows_concat (k n : nat) :
  concat (pageRows (rangeOfTable table) <$> offsetsFrom (pageSize * Z.of_nat k) n)
  = take (1000 * n) (drop (1000 * k) table).
Proof.
  revert k. induction n as [|n IH]; intros k.
  { by rewrite Nat.mul_0_r. }
  rewrite offsetsFrom_S, fmap_cons. simpl concat.
  replace (pageSize * Z.of_nat k + pageSize) with (pageSize * Z.of_nat (S k))
    by lia.
  rewrite IH, pageRows_table.
  replace (Z.to_nat (pageSize * Z.of_nat k)) with (1000 * k)%nat
    by (unfold pageSize; lia).
  replace (1000 * S k)%nat with (1000 * k + 1000)%nat by lia.
  rewrite <- drop_drop, take_take_drop. f_equal. lia.
Qed.

(** Against a store that answers every request from the same table, the
    fetch returns the first 10000 rows of the table. *)
Lemma paginate_table :
  ∃ st, paginate (rangeOfTable table) = Some st
        ∧ error st = None
        ∧ allAppointments st = take (Z.to_nat (pageSize * 10)) table.
Proof.
  destruct (paginate_run (rangeOfTable table)) as (st & n & Hrun & Hdesc).
  pose proof (Described_rows _ st n Hdesc) as Hrows.
  destruct Hdesc as (Hn & Hreq & _ & Herr & _ & Hshort).
  simpl in *. exists st. split; [done |]. split; [done |].
  rewrite Hrows, Hreq by done.
  pose proof (windows_concat 0 (S n)) as Hw.
  rewrite Z.mul_0_r, Nat.mul_0_r in Hw. simpl drop in Hw. rewrite Hw.
  destruct (decide (S n = 10%nat)) as [->|Hne]; [done |].
  assert (¬ Full (rangeOfTable table) (0 + pageSize * Z.of_nat n)) as Hnf
    by (apply Hshort; [done | lia]).
  unfold Full in Hnf. rewrite pageRows_table, length_take, length_drop in Hnf.
  unfold pageSize in *. rewrite drop_0, !take_ge; [done | |]; lia.
Qed.

End Table.
End PaginationFacts.

(** A fetch of a three-row collection: one request, three rows. *)
Lemma paginated_fetch_witness :
  let range := Pagination.rangeOfTable [1; 2; 3] in
  ∃ st n,
    Pagination.paginate range = Some st
    ∧ Pagination.requested st = Pagination.offsetsFrom 0 (S n)
    ∧ (n < 10)%nat
    ∧ Forall (λ off, off < Pagination.pageSize * 10) (Pagination.requested st)
    ∧ Pagination.error st = None
    ∧ Pagination.allAppointments st
        = concat (Pagination.pageRows range <$> Pagination.requested st)
    ∧ Z.of_nat (length (Pagination.allAppointments st))
        = Pagination.sumLengths (Pagination.pageRows range <$> Pagination.requested st)
    ∧ (∀ i, (i ≤ n)%nat →
            (S i ≤ n)%nat ↔
            (Pagination.Full range (Pagination.pageSize * Z.of_nat i)
             ∧ Pagination.pageSize * Z.of_nat (S i) < Pagination.pageSize * 10))
    ∧ ((S n < 10)%nat →
       Z.of_nat (length (Pagination.pageRows range (Pagination.pageSize * Z.of_nat n)))
         < Pagination.pageSize)
    ∧ Z.of_nat (length (Pagination.allAppointments st)) ≤ 10000.
Proof.
  intros range.
  destruct (PaginationFacts.paginated_fetch_concatenates_pages_up_to_cap range)
    as (st & n & Hrun & Hreq & Hn & Hcap & Hok).
  { intros off rows. apply PaginationFacts.rangeOfTable_bounded. }
  assert (Pagination.error st = None) as Herr.
  { vm_compute in Hrun. injection Hrun as <-. reflexivity. }
  exists st, n. repeat (split; [assumption |]). apply Hok, Herr.
Defined.

(** ** The callers of the loop when a page request fails *)

Module QueriesFacts.

Import Pagination Queries PaginationFacts.

Section Failure.

Variable range : Z → Z → Response (list Appointment.t).

Lemma useAppointments_rejects (user : option string)
    (remote : RelatedData.Remote) (cache : RelatedData.Cache)
    (st : LoopState) (e : PostgrestError) :
  truthy user = true → paginate range = Some st → error st = Some e →
  useAppointments_queryFn user range remote cache = Some (Rejected e, cache).
Proof.
  intros Hu Hrun Herr. unfold useAppointments_queryFn.
  rewrite Hu, Hrun. simpl. by rewrite Herr.
Qed.

Lemma fetchInto_reports {A} (title : string) (r : Z → Z → Response (list A))
    (page : PageState A) (st : LoopState) (e : PostgrestError) :
  paginate r = Some st → error st = Some e →
  fetchInto title r page
  = Some {| items := items page;
            toasts := toasts page ++
              [{| Queries.title := title; description := message e;
                  variant := "destructive" |}] |}.
Proof. intros Hrun Herr. unfold fetchInto. rewrite Hrun. simpl. by rewrite Herr. Qed.

Lemma useClientBookings_swallows (adminUserId : option string)
    (table : list Client.t) (clientsFailure : option PostgrestError)
    (st : LoopState) (e : PostgrestError) :
  paginate range = Some st → error st = Some e →
  useClientBookings_queryFn adminUserId range table clientsFailure
  = Some (Resolved []).
Proof.
  intros Hrun Herr. unfold useClientBookings_queryFn.
  destruct (truthy adminUserId); [| done].
  rewrite Hrun. simpl. by rewrite Herr.
Qed.

(** The callers always return: the loop inside them never runs out of
    fuel. *)
Lemma callers_return (user adminUserId : option string)
    (remote : RelatedData.Remote) (cache : RelatedData.Cache)
    (page : PageState Appointment.t) (table : list Client.t)
    (clientsFailure : option PostgrestError) :
  is_Some (useAppointments_queryFn user range remote cache)
  ∧ is_Some (fetchAppointments range page)
  ∧ is_Some (useClientBookings_queryFn adminUserId range table clientsFailure).
Proof.
  destruct (paginate_total range) as [st Hrun].
  unfold useAppointments_queryFn, fetchAppointments, fetchInto,
    useClientBookings_queryFn.
  rewrite Hrun. simpl. repeat split.
  - destruct (truthy user); [| by eexists].
    destruct (error st); [by eexists |].
    destruct (RelatedData.fetchRelatedData _ _ _ _) as [[maps cache'] reqs].
    by eexists.
  - destruct (error st); by eexists.
  - destruct (truthy adminUserId); [| by eexists].
    destruct (error st); [by eexists |].
    destruct (allAppointments st); [by eexists |].
    destruct (Supabase.error _); by eexists.
Qed.

(** Without an error, the [useAppointments] query delivers the rows of the
    loop, each with its decorations, and the dashboard stores them. *)
Lemma fetched_rows_are_delivered (user : option string)
    (remote : RelatedData.Remote) (cache : RelatedData.Cache)
    (page : PageState Appointment.t) (st : LoopState) :
  truthy user = true → paginate range = Some st → error st = None →
  (∃ rows cache',
      useAppointments_queryFn user range remote cache
      = Some (Resolved rows, cache')
      ∧ AppointmentWithModality.row <$> rows = allAppointments st)
  ∧ fetchAppointments range page
    = Some {| items := allAppointments st; toasts := toasts page |}.
Proof.
  intros Hu Hrun Herr. split.
  - unfold useAppointments_queryFn. rewrite Hu, Hrun. simpl. rewrite Herr.
    destruct (RelatedData.fetchRelatedData _ _ _ _) as [[maps cache'] reqs].
    eexists _, _. split; [reflexivity |].
    rewrite <- list_fmap_compose. apply list_fmap_id.
  - unfold fetchAppointments, fetchInto. rewrite Hrun. simpl. by rewrite Herr.
Qed.

(** C8, as the code has it. When a page request of a paginated fetch
    returns an error, that request is the last one of the loop, and no row
    of the pages fetched before it is delivered: the [useAppointments]
    query rejects with the error and leaves the caches alone; the dashboard
    keeps the list it had and shows the error in a toast; the
    [useClientBookings] query resolves with the empty list. *)
Theorem page_error_stops_loop_and_discards_rows
    (user adminUserId : option string) (remote : RelatedData.Remote)
    (cache : RelatedData.Cache) (page : PageState Appointment.t)
    (table : list Client.t) (clientsFailure : option PostgrestError)
    (st : LoopState) (off : Z) (e : PostgrestError) :
  truthy user = true →
  paginate range = Some st → off ∈ requested st → pageError range off = Some e →
  last (requested st) = Some off
  ∧ error st = Some e
  ∧ useAppointments_queryFn user range remote cache = Some (Rejected e, cache)
  ∧ fetchAppointments range page
    = Some {| items := items page;
              toasts := toasts page ++
                [{| title := "Erro ao carregar agendamentos";
                    description := message e; variant := "destructive" |}] |}
  ∧ useClientBookings_queryFn adminUserId range table clientsFailure
    = Some (Resolved []).
Proof.
  intros Hu Hrun Hin Hpe.
  destruct (failing_request_is_last range st off e Hrun Hin Hpe)
    as (n & _ & Hreq & _ & Herr & _).
  split; [by rewrite Hreq, last_snoc |]. split; [done |].
  split; [by apply (useAppointments_rejects _ _ _ st) |].
  split; [by apply (fetchInto_reports _ _ _ st) |].
  by apply (useClientBookings_swallows _ _ _ st e).
Qed.

End Failure.

Lemma secondPageFails_run :
  ∃ st, paginate Samples.secondPageFails = Some st
        ∧ requested st = [0; 1000]
        ∧ error st = Some {| message := "timeout" |}
        ∧ length (allAppointments st) = 1000%nat.
Proof. eexists. vm_compute. repeat split. Qed.

(** A fetch whose first request times out. *)
Lemma page_error_witness :
  let st : @LoopState Appointment.t :=
    {| allAppointments := []; from := 0; hasMore := true;
       error := Some {| message := "timeout" |}; requested := [0] |} in
  last (requested st) = Some 0
  ∧ error st = Some {| message := "timeout" |}
  ∧ useAppointments_queryFn (Some "u1") Samples.firstPageFails
      Samples.emptyRemote Samples.emptyCache
    = Some (Rejected {| message := "timeout" |}, Samples.emptyCache)
  ∧ fetchAppointments Samples.firstPageFails Samples.emptyPage
    = Some {| items := items Samples.emptyPage;
              toasts := toasts Samples.emptyPage ++
                [{| title := "Erro ao carregar agendamentos";
                    description := "timeout"; variant := "destructive" |}] |}
  ∧ useClientBookings_queryFn (Some "u1") Samples.firstPageFails [] None
    = Some (Resolved []).
Proof.
  intros st.
  apply (page_error_stops_loop_and_discards_rows Samples.firstPageFails
           (Some "u1") (Some "u1") Samples.emptyRemote Samples.emptyCache
           Samples.emptyPage [] None st 0 {| message := "timeout" |}).
  - reflexivity.
  - reflexivity.
  - left.
  - reflexivity.
Defined.

(** C8 as stated fails on the [useClientBookings] query: with a first page
    of 1000 rows fetched and the request for the second page failing, the
    query resolves, with the empty list; it does not reject. *)
Lemma client_bookings_page_error_counterexample :
  pageError Samples.secondPageFails 1000 = Some {| message := "timeout" |}
  ∧ useClientBookings_queryFn (Some "u1") Samples.secondPageFails [] None
    = Some (Resolved [])
  ∧ ∀ e, useClientBookings_queryFn (Some "u1") Samples.secondPageFails [] None
         ≠ Some (Rejected e).
Proof.
  assert (useClientBookings_queryFn (Some "u1") Samples.secondPageFails [] None
          = Some (Resolved [])) as Hres by (vm_compute; reflexivity).
  split; [reflexivity |]. split; [done |].
  intros e. rewrite Hres. discriminate.
Qed.

End QueriesFacts.

(** ** Status derivation *)

Module StatusFacts.

Import Dashboard.

(** In a zone of fixed offset the start of the day is the local midnight
    at or before the instant, and the days are in order. *)
Lemma startOfDay_midnight (offset ms : Z) :
  (startOfDay (fixedOffset offset) ms + offset) `mod` msPerDay = 0
  ∧ startOfDay (fixedOffset offset) ms ≤ ms
    < startOfDay (fixedOffset offset) ms + msPerDay.
Proof.
  unfold startOfDay, fixedOffset, msPerDay. simpl.
  pose proof (Z.mod_pos_bound (ms + offset) 86400000 ltac:(lia)) as Hb.
  pose proof (Z.div_mod (ms + offset) 86400000 ltac:(lia)) as Hd.
  split; [| lia].
  replace ((ms + offset) `div` 86400000 * 86400000 - offset + offset)
    with ((ms + offset) `div` 86400000 * 86400000) by lia.
  apply Z.mod_mul. lia.
Qed.

Lemma fixedOffset_Ordered (offset : Z) : Ordered (fixedOffset offset).
Proof. intros d1 d2 Hlt. unfold fixedOffset, msPerDay. simpl. lia. Qed.

Section Clock.

Variable tz : TimeZone.
Variable now : Z.
Hypothesis tz_ordered : Ordered tz.

(** The zeroed dates compare as the local days do. *)
Lemma startOfDay_lt (ms1 ms2 : Z) :
  startOfDay tz ms1 < startOfDay tz ms2 ↔ localDay tz ms1 < localDay tz ms2.
Proof.
  unfold startOfDay. split; [| apply tz_ordered].
  intros Hlt.
  destruct (Z.lt_trichotomy (localDay tz ms1) (localDay tz ms2))
    as [Hd|[Hd|Hd]]; [done | rewrite Hd in Hlt; lia |].
  apply tz_ordered in Hd. lia.
Qed.

(** With the flag set the effective status is the complimentary one, and
    so is the colour, on either branch of the recurrence test. *)
Lemma effectiveStatus_cortesia (status : string) (date : option Date) :
  effectiveStatus tz now status date true = "cortesia".
Proof. unfold effectiveStatus. by destruct date. Qed.

Lemma getStatusColor_cortesia (status : string) (date : option Date)
    (recurrence_id : option string) :
  getStatusColor tz now status date recurrence_id true
  = "bg-pink-100 text-pink-800 border-pink-200".
Proof.
  unfold getStatusColor. rewrite effectiveStatus_cortesia.
  by destruct (truthy recurrence_id).
Qed.

(** The label of a complimentary appointment whose raw status is
    [agendado] is the complimentary one, whatever the date. *)
Lemma getStatusLabel_cortesia_agendado (date : option Date) :
  getStatusLabel tz now "agendado" date true = cortesiaLabel.
Proof.
  unfold getStatusLabel.
  destruct date as [d|]; [| done]. simpl.
  by destruct (isBefore (setHours0 tz d) (Time _)).
Qed.

(** C3, where the code departs from it. For a complimentary appointment
    the effective status computed by [getStatusColor] is [cortesia], but
    [getStatusLabel] does not go through it: for the raw statuses [pago],
    [a_cobrar] and [cancelado] it returns the label of the raw status, for
    every date. *)
Theorem complimentary_label_follows_raw_status (date : option Date) :
  effectiveStatus tz now "pago" date true = "cortesia"
  ∧ getStatusLabel tz now "pago" date true = "Pago"
  ∧ getStatusLabel tz now "a_cobrar" date true = "A Cobrar"
  ∧ getStatusLabel tz now "cancelado" date true = "Cancelado"
  ∧ getStatusLabel tz now (effectiveStatus tz now "pago" date true) date true
    = cortesiaLabel.
Proof.
  rewrite effectiveStatus_cortesia. unfold getStatusLabel.
  destruct date as [d|]; simpl; [| done].
  by rewrite !andb_false_r.
Qed.

(** C4. In a zone whose days begin one after the other, and without the
    complimentary flag: an appointment whose raw status is [agendado] and
    whose date falls on a local calendar day strictly before today's (the
    two dates compared with their time of day zeroed) has the effective
    status [a_cobrar]; in every other case, also for a date earlier on the
    same day, one that does not parse or a missing one, the effective
    status is the raw status.  The label follows: it is the label of the
    effective status. *)
Theorem non_complimentary_effective_status (status : string)
    (date : option Date) :
  (∀ ms, status = "agendado" → date = Some (Time ms) →
         localDay tz ms < localDay tz now →
         effectiveStatus tz now status date false = "a_cobrar")
  ∧ (¬ (status = "agendado"
        ∧ ∃ ms, date = Some (Time ms) ∧ localDay tz ms < localDay tz now) →
     effectiveStatus tz now status date false = status)
  ∧ getStatusLabel tz now status date false
    = getStatusLabel tz now (effectiveStatus tz now status date false) None false.
Proof.
  unfold effectiveStatus, getStatusLabel. split; [| split].
  - intros ms -> -> Hlt. simpl. apply startOfDay_lt in Hlt.
    by apply Z.ltb_lt in Hlt as ->.
  - intros Hnot. destruct date as [[|ms]|]; simpl; try done.
    + by destruct (String.eqb status "agendado").
    + destruct (String.eqb_spec status "agendado") as [->|]; [| done].
      simpl. destruct (_ <? _) eqn:Hlt; [| done].
      apply Z.ltb_lt, startOfDay_lt in Hlt. exfalso. apply Hnot. eauto.
  - destruct date as [[|ms]|]; simpl.
    + assert ((if String.eqb status "agendado" then status else status) = status)
        as -> by (by destruct (String.eqb status "agendado")).
      done.
    + destruct (String.eqb_spec status "agendado") as [->|Hne]; simpl.
      * by destruct (_ <? _).
      * rewrite andb_false_r.
        by apply String.eqb_neq in Hne as ->.
    + done.
Qed.

End Clock.

(** An appointment of yesterday 20:00, seen today at 10:00, in UTC; and
    one of today 08:00, two hours before, which stays [agendado]. *)
Lemma non_complimentary_effective_status_witness :
  effectiveStatus (fixedOffset 0) (2 * msPerDay + 36000000) "agendado"
    (Some (Time (msPerDay + 72000000))) false = "a_cobrar"
  ∧ effectiveStatus (fixedOffset 0) (2 * msPerDay + 36000000) "agendado"
      (Some (Time (2 * msPerDay + 28800000))) false = "agendado".
Proof.
  split.
  - apply (non_complimentary_effective_status (fixedOffset 0)
             (2 * msPerDay + 36000000) (fixedOffset_Ordered 0)
             "agendado" (Some (Time (msPerDay + 72000000))))
      with (ms := msPerDay + 72000000).
    + reflexivity.
    + reflexivity.
    + vm_compute. reflexivity.
  - apply (non_complimentary_effective_status (fixedOffset 0)
             (2 * msPerDay + 36000000) (fixedOffset_Ordered 0)
             "agendado" (Some (Time (2 * msPerDay + 28800000)))).
    intros [_ (ms & [= <-] & Hlt)]. vm_compute in Hlt. discriminate Hlt.
Defined.

(** C10. In the portal, an appointment dated strictly after the current
    moment is shown as "Agendado" whatever its stored status; one dated at
    or before it is shown by its stored status. *)
Theorem portal_future_appointment_shows_agendado (now ms : Z) (status : string) :
  (now < ms → Portal.getStatusText now status (Some (Time ms)) = "Agendado")
  ∧ (ms ≤ now →
     Portal.getStatusText now status (Some (Time ms))
     = if String.eqb status "agendado" || String.eqb status "pago" then "Agendado"
       else if String.eqb status "a_cobrar" then "Pendente"
       else if String.eqb status "cancelado" then "Cancelado"
       else status).
Proof.
  unfold Portal.getStatusText. simpl. split; intros H.
  - by apply Z.ltb_lt in H as ->.
  - by apply Z.ltb_ge in H as ->.
Qed.

Lemma portal_future_appointment_witness :
  Portal.getStatusText 1000 "cancelado" (Some (Time 2000)) = "Agendado"
  ∧ Portal.getStatusText 1000 "a_cobrar" (Some (Time 2000)) = "Agendado"
  ∧ Portal.getStatusText 1000 "cancelado" (Some (Time 1000)) = "Cancelado".
Proof.
  split; [| split].
  - apply (portal_future_appointment_shows_agendado 1000 2000 "cancelado"). lia.
  - apply (portal_future_appointment_shows_agendado 1000 2000 "a_cobrar"). lia.
  - apply (portal_future_appointment_shows_agendado 1000 1000 "cancelado"). lia.
Defined.

End StatusFacts.

(** ** The financial summary *)

Module FinancialFacts.

Import Financial.

Lemma withStatus_cons (s : string) (a : AppointmentWithModality.t)
    (l : list AppointmentWithModality.t) :
  withStatus s (a :: l)
  = if String.eqb (AppointmentWithModality.status a) s
    then a :: withStatus s l else withStatus s l.
Proof.
  unfold withStatus. rewrite filter_cons.
  destruct (String.eqb_spec (AppointmentWithModality.status a) s);
    by case_decide.
Qed.

Lemma fold_step_tally (l : list AppointmentWithModality.t) (s : Summary) :
  fold_left step l s = tally s l.
Proof.
  revert s. induction l as [|a l IH]; intros s.
  { destruct s. unfold tally. simpl. f_equal; lia. }
  cbn [fold_left]. rewrite IH. unfold tally, step. cbv zeta.
  rewrite !withStatus_cons.
  destruct (String.eqb_spec (AppointmentWithModality.status a) "pago") as [Heq|_];
    [rewrite ?Heq; simpl; f_equal; lia |].
  destruct (String.eqb_spec (AppointmentWithModality.status a) "a_cobrar") as [Heq|_];
    [rewrite ?Heq; simpl; f_equal; lia |].
  destruct (String.eqb_spec (AppointmentWithModality.status a) "agendado") as [Heq|_];
    [rewrite ?Heq; simpl; f_equal; lia |].
  destruct (String.eqb_spec (AppointmentWithModality.status a) "cancelado") as [Heq|_];
    [rewrite ?Heq; simpl; f_equal; lia |].
  done.
Qed.

Lemma step_other (s : Summary) (a : AppointmentWithModality.t) :
  AppointmentWithModality.status a ∉ ["pago"; "a_cobrar"; "agendado"; "cancelado"] →
  step s a = s.
Proof.
  intros Hother. unfold step. cbv zeta.
  destruct (String.eqb_spec (AppointmentWithModality.status a) "pago") as [Heq|_];
    [rewrite Heq in Hother; set_solver |].
  destruct (String.eqb_spec (AppointmentWithModality.status a) "a_cobrar") as [Heq|_];
    [rewrite Heq in Hother; set_solver |].
  destruct (String.eqb_spec (AppointmentWithModality.status a) "agendado") as [Heq|_];
    [rewrite Heq in Hother; set_solver |].
  destruct (String.eqb_spec (AppointmentWithModality.status a) "cancelado") as [Heq|_];
    [rewrite Heq in Hother; set_solver |].
  done.
Qed.

(** The running total, one value at a time. *)
Lemma sumValues_snoc (l : list AppointmentWithModality.t)
    (a : AppointmentWithModality.t) :
  sumValues (l ++ [a])
  = add (sumValues l) (orZero (AppointmentWithModality.valor_total a)).
Proof. unfold sumValues, addUp. by rewrite fold_left_app. Qed.

(** C5, as the code has it. For every list of appointments the summary
    holds, for each of the statuses [pago], [a_cobrar], [agendado] and
    [cancelado], the number of the appointments with exactly that status
    and the total of their values as the addition of numbers gives it:
    from 0, one value after the other in the order of the list, each
    addition rounded to a double, a value that is zero or [NaN] counting
    as 0.  An appointment with any other status changes nothing; and the
    list [paid 100, to-charge 50, cancelled 30] gives 100 (1), 50 (1),
    30 (1) and 0 (0) scheduled. *)
Theorem financial_summary_sums_and_counts_by_status
    (appointments : list AppointmentWithModality.t) :
  getFinancialSummary appointments
  = {| total_recebido := sumValues (withStatus "pago" appointments);
       total_pendente := sumValues (withStatus "a_cobrar" appointments);
       total_agendado := sumValues (withStatus "agendado" appointments);
       total_cancelado := sumValues (withStatus "cancelado" appointments);
       agendamentos_pagos := Z.of_nat (length (withStatus "pago" appointments));
       agendamentos_pendentes :=
         Z.of_nat (length (withStatus "a_cobrar" appointments));
       agendamentos_agendados :=
         Z.of_nat (length (withStatus "agendado" appointments));
       agendamentos_cancelados :=
         Z.of_nat (length (withStatus "cancelado" appointments)) |}
  ∧ sumValues [] = 0
  ∧ (∀ l a, sumValues (l ++ [a])
            = add (sumValues l) (orZero (AppointmentWithModality.valor_total a)))
  ∧ (∀ before a after,
       AppointmentWithModality.status a ∉ ["pago"; "a_cobrar"; "agendado"; "cancelado"] →
       getFinancialSummary (before ++ a :: after)
       = getFinancialSummary (before ++ after))
  ∧ getFinancialSummary Samples.threeAppointments
    = {| total_recebido := 100; total_pendente := 50; total_agendado := 0;
         total_cancelado := 30; agendamentos_pagos := 1;
         agendamentos_pendentes := 1; agendamentos_agendados := 0;
         agendamentos_cancelados := 1 |}.
Proof.
  split; [| split; [| split; [| split]]].
  - unfold getFinancialSummary. rewrite fold_step_tally. done.
  - reflexivity.
  - apply sumValues_snoc.
  - intros before a after Hother.
    unfold getFinancialSummary. rewrite !fold_left_app.
    cbn [fold_left]. by rewrite step_other.
  - vm_compute. reflexivity.
Qed.

(** An appointment with the status [cortesia] put in front of the three
    of the example leaves the summary as it was. *)
Lemma financial_summary_witness :
  getFinancialSummary
    ([] ++ Samples.plain (Samples.appointment "a0" "cortesia" 70)
        :: Samples.threeAppointments)
  = getFinancialSummary ([] ++ Samples.threeAppointments).
Proof.
  destruct (financial_summary_sums_and_counts_by_status []) as (_ & _ & _ & Hother & _).
  apply Hother. simpl. intros Hin.
  repeat (apply elem_of_cons in Hin as [Hin|Hin]; [discriminate |]).
  by apply elem_of_nil in Hin.
Defined.

(** C5 as stated fails where the addition rounds.  Three paid appointments
    of 0.10, 0.20 and 0.30 have the sum 0.60, and the summary gives
    0.6000000000000001, the number after it; listed from the last to the
    first they give 0.60.  Three paid appointments of 2^53, 1 and 1 have
    the sum 2^53 + 2, which is a number, and the summary gives 2^53. *)
Lemma financial_summary_rounding_counterexample :
  let cents := MoreSamples.cents in
  let amounts := [2 ^ 53; 1; 1] in
  let paid := (λ v, Samples.plain (Samples.appointment "a" "pago" v)) <$> amounts in
  total_recebido (getFinancialSummary
                    (MoreSamples.paid <$> [cents 10; cents 20; cents 30]))
  = S754_finite false 5404319552844596 (-53)
  ∧ cents 60 = S754_finite false 5404319552844595 (-53)
  ∧ total_recebido (getFinancialSummary
                      (MoreSamples.paid <$> [cents 30; cents 20; cents 10]))
    = cents 60
  ∧ exactSum amounts = 2 ^ 53 + 2
  ∧ total_recebido (getFinancialSummary paid) = ofZ (2 ^ 53)
  ∧ total_recebido (getFinancialSummary paid) ≠ ofZ (exactSum amounts).
Proof. vm_compute. repeat split. discriminate. Qed.

End FinancialFacts.

(** ** Creating an appointment *)

Module CreateAppointmentFacts.

Import CreateAppointment.

(** What [valor_total] is for the three shapes of the request the code
    tells apart. *)
Lemma valorTotal_cortesia (customValue : OptNumber) (modalityValor : Z) :
  valorTotal (Some true) customValue modalityValor = Num 0.
Proof. done. Qed.

Lemma valorTotal_custom (is_cortesia : option bool) (v modalityValor : Z) :
  default false is_cortesia = false →
  valorTotal is_cortesia (Num v) modalityValor = Num v.
Proof. unfold valorTotal. by intros ->. Qed.

Lemma valorTotal_null (is_cortesia : option bool) (modalityValor : Z) :
  default false is_cortesia = false →
  valorTotal is_cortesia Null modalityValor = Num modalityValor.
Proof. unfold valorTotal. by intros ->. Qed.

Lemma valorTotal_omitted (is_cortesia : option bool) (modalityValor : Z) :
  default false is_cortesia = false →
  valorTotal is_cortesia Undefined modalityValor = Undefined.
Proof. unfold valorTotal. by intros ->. Qed.

(** C2, where the code departs from it. A request that is not
    complimentary and leaves [customValue] out, for a modality priced 120
    that exists for the account: the row sent to the store carries no
    [valor_total] instead of the price of the modality.  The same request
    with [customValue: null] sends 120, and with the complimentary flag it
    sends 0. *)
Theorem create_appointment_without_custom_value_sends_no_value :
  (mutationFn (Some "u1") Samples.modalities None Samples.insertEcho
     (Samples.createData None Undefined)).1
  = [payload "u1" (Samples.createData None Undefined) 120]
  ∧ ins_valor_total (payload "u1" (Samples.createData None Undefined) 120) = Undefined
  ∧ ins_valor_total (payload "u1" (Samples.createData None Null) 120) = Num 120
  ∧ ins_valor_total (payload "u1" (Samples.createData (Some true) Null) 120) = Num 0
  ∧ ins_valor_total (payload "u1" (Samples.createData (Some true) (Num 80)) 120) = Num 0
  ∧ ins_valor_total (payload "u1" (Samples.createData None (Num 80)) 120) = Num 80.
Proof. vm_compute. repeat split. Qed.

End CreateAppointmentFacts.

(** ** The related-entity cache *)

Module RelatedDataFacts.

Import RelatedData.

Lemma uniqueFrom_elem (seen l : list string) (x : string) :
  x ∈ uniqueFrom seen l ↔ x ∈ l ∧ x ∉ seen.
Proof.
  revert seen. induction l as [|y l IH]; intros seen; simpl.
  { set_solver. }
  case_bool_decide as Hy.
  - rewrite IH. set_solver.
  - rewrite elem_of_cons, IH.
    destruct (decide (x = y)) as [->|]; set_solver.
Qed.

Lemma uniqueFrom_NoDup (seen l : list string) : NoDup (uniqueFrom seen l).
Proof.
  revert seen. induction l as [|y l IH]; intros seen; simpl.
  { constructor. }
  case_bool_decide; [done |].
  constructor; [| done].
  rewrite uniqueFrom_elem. set_solver.
Qed.

(** [[...new Set(l)]] has no duplicates and the same members as [l]. *)
Lemma unique_NoDup (l : list string) : NoDup (unique l).
Proof. apply uniqueFrom_NoDup. Qed.

Lemma unique_elem (l : list string) (x : string) : x ∈ unique l ↔ x ∈ l.
Proof. unfold unique. rewrite uniqueFrom_elem. set_solver. Qed.

Lemma missingIds_elem {V} (cached : option (gmap string V)) (ids : list string)
    (x : string) :
  x ∈ missingIds cached ids ↔ x ∈ ids ∧ cached ≫= (λ m, m !! x) = None.
Proof.
  unfold missingIds. rewrite list_elem_of_filter, <- eq_None_not_Some. tauto.
Qed.

Lemma missingIds_NoDup {V} (cached : option (gmap string V)) (ids : list string) :
  NoDup ids → NoDup (missingIds cached ids).
Proof. apply NoDup_filter. Qed.

Section Kind.

Context {R V : Type}.
Variable rowId : R → string.
Variable rowUser : R → string.
Variable ofRow : R → V.
Variable key : V → string.
Hypothesis key_ofRow : ∀ r, key (ofRow r) = rowId r.

Lemma setAll_lookup_other (rows : list V) (m : gmap string V) (k : string) :
  k ∉ key <$> rows → setAll key rows m !! k = m !! k.
Proof.
  revert m. induction rows as [|r rows IH]; intros m Hk; [done |].
  rewrite fmap_cons, not_elem_of_cons in Hk. destruct Hk as [Hne Hk].
  unfold setAll in *. simpl. rewrite IH by done. by rewrite lookup_insert_ne.
Qed.

Lemma setAll_lookup_in (rows : list V) (m : gmap string V) (k : string) :
  k ∈ key <$> rows → is_Some (setAll key rows m !! k).
Proof.
  revert m. induction rows as [|r rows IH]; intros m Hk; [by apply elem_of_nil in Hk |].
  unfold setAll in *. simpl.
  destruct (decide (k ∈ key <$> rows)) as [Hin|Hnot]; [by apply IH |].
  rewrite fmap_cons, elem_of_cons in Hk. destruct Hk as [->|]; [| done].
  pose proof (setAll_lookup_other rows (<[key r := r]> m) (key r) Hnot) as Hl.
  unfold setAll in Hl. rewrite Hl, lookup_insert_eq. by eexists.
Qed.

(** Setting rows under keys the map does not hold keeps what it holds. *)
Lemma setAll_extends (rows : list V) (m : gmap string V) :
  (∀ r, r ∈ rows → m !! key r = None) → m ⊆ setAll key rows m.
Proof.
  intros Hfresh. apply map_subseteq_spec. intros k v Hkv.
  rewrite setAll_lookup_other; [done |].
  intros (r & -> & Hr)%list_elem_of_fmap. apply Hfresh in Hr. congruence.
Qed.

(** The rows of a response carry ids that were asked for. *)
Lemma selectIn_ids (table : list R) (failure : option PostgrestError)
    (ids : list string) (userId : string) (v : V) :
  v ∈ default [] (data (selectIn rowId rowUser ofRow table failure ids userId)) →
  key v ∈ ids.
Proof.
  unfold selectIn. destruct failure; simpl; [by intros ?%elem_of_nil |].
  intros (r & -> & Hr)%list_elem_of_fmap.
  apply list_elem_of_filter in Hr as [[Hid _] _]. by rewrite key_ofRow.
Qed.

Lemma resolveKind_missing (table : list R) (failure : option PostgrestError)
    (cached : option (gmap string V)) (ids : list string) (userId : string) :
  (resolveKind rowId rowUser ofRow key table failure cached ids userId).2
  = missingIds cached ids.
Proof. done. Qed.

(** The map returned holds every record the cache held, unchanged. *)
Lemma resolveKind_extends (table : list R) (failure : option PostgrestError)
    (cached : option (gmap string V)) (ids : list string) (userId : string) :
  default ∅ cached
  ⊆ (resolveKind rowId rowUser ofRow key table failure cached ids userId).1.
Proof.
  unfold resolveKind. simpl. apply setAll_extends. intros v Hv.
  assert (key v ∈ missingIds cached ids) as Hmiss.
  { case_bool_decide; [by eapply selectIn_ids | by apply elem_of_nil in Hv]. }
  apply missingIds_elem in Hmiss as [_ Hnone].
  destruct cached; [done | apply lookup_empty].
Qed.

(** Resolving again against the same collection, from the map the first
    resolution returned, gives that map back. *)
Lemma resolveKind_again (table : list R) (failure : option PostgrestError)
    (cached : option (gmap string V)) (ids : list string) (userId : string) :
  let new := (resolveKind rowId rowUser ofRow key table failure cached ids userId).1 in
  (resolveKind rowId rowUser ofRow key table failure (Some new) ids userId).1 = new.
Proof.
  intros new. unfold resolveKind at 1. simpl.
  case_bool_decide as Hcall; [| done].
  unfold selectIn. destruct failure as [e|] eqn:Hfail; [done |]. simpl.
  match goal with
  | |- setAll _ (_ <$> ?l) _ = _ => assert (l = []) as ->; [| done]
  end.
  apply elem_of_nil_inv. intros r Hr.
  apply list_elem_of_filter in Hr as [[Hid Hu] Hin].
  apply missingIds_elem in Hid as [Hids Hnew]. simpl in Hnew.
  (* the id was missing the first time as well *)
  assert (rowId r ∈ missingIds cached ids) as Hmiss.
  { apply missingIds_elem. split; [done |].
    pose proof (resolveKind_extends table None cached ids userId) as Hext.
    fold new in Hext. destruct cached as [m|]; [| done]. simpl in *.
    by eapply lookup_weaken_None. }
  (* so the first request asked for it and the row came back *)
  assert (is_Some (new !! rowId r)) as [v Hv]; [| congruence].
  unfold new, resolveKind. simpl.
  rewrite bool_decide_true by (intros Hnil; rewrite Hnil in Hmiss; by apply elem_of_nil in Hmiss).
  unfold selectIn. simpl. apply setAll_lookup_in.
  rewrite <- key_ofRow, <- list_fmap_compose.
  apply list_elem_of_fmap. exists r. split; [done |].
  by apply list_elem_of_filter.
Qed.

(** Resolving again against any collection keeps every record of the first
    resolution. *)
Lemma resolveKind_keeps (table table' : list R)
    (failure failure' : option PostgrestError)
    (cached : option (gmap string V)) (ids : list string) (userId : string) :
  let new := (resolveKind rowId rowUser ofRow key table failure cached ids userId).1 in
  new ⊆ (resolveKind rowId rowUser ofRow key table' failure' (Some new) ids userId).1.
Proof. intros new. apply (resolveKind_extends table' failure' (Some new)). Qed.

End Kind.

Lemma fetchRelatedData_cons (user : option string) (remote : Remote)
    (cache : Cache) (a : Appointment.t) (l : list Appointment.t) :
  fetchRelatedData user remote cache (a :: l)
  = ({| clientsMap := (clientsHalf user remote cache (a :: l)).1;
        modalitiesMap := (modalitiesHalf user remote cache (a :: l)).1 |},
     {| clientsCache :=
          <[default "" user := (clientsHalf user remote cache (a :: l)).1]>
            (clientsCache cache);
        modalitiesCache :=
          <[default "" user := (modalitiesHalf user remote cache (a :: l)).1]>
            (modalitiesCache cache) |},
     (if bool_decide ((clientsHalf user remote cache (a :: l)).2 ≠ [])
      then [SelectClientsIn (clientsHalf user remote cache (a :: l)).2 (default "" user)]
      else []) ++
     (if bool_decide ((modalitiesHalf user remote cache (a :: l)).2 ≠ [])
      then [SelectModalitiesIn (modalitiesHalf user remote cache (a :: l)).2 (default "" user)]
      else [])).
Proof. reflexivity. Qed.

Lemma requestedClientIds_call (c m : list string) (u : string) :
  requestedClientIds
    ((if bool_decide (c ≠ []) then [SelectClientsIn c u] else []) ++
     (if bool_decide (m ≠ []) then [SelectModalitiesIn m u] else []))
  = c.
Proof.
  unfold requestedClientIds.
  do 2 case_bool_decide; simpl; rewrite ?app_nil_r; try done.
  all: destruct c; [done | congruence].
Qed.

Lemma requestedModalityIds_call (c m : list string) (u : string) :
  requestedModalityIds
    ((if bool_decide (c ≠ []) then [SelectClientsIn c u] else []) ++
     (if bool_decide (m ≠ []) then [SelectModalitiesIn m u] else []))
  = m.
Proof.
  unfold requestedModalityIds.
  do 2 case_bool_decide; simpl; rewrite ?app_nil_r; try done.
  all: destruct m; [done | congruence].
Qed.

(** C7. Resolving the same appointments twice against the same store: the
    second resolution returns the maps of the first (the same record, or
    the same absence, for every id) and leaves the caches as the first left
    them; the ids of each request are free of duplicates; and no id that
    the cache holds after the first resolution is requested by the
    second. *)
Theorem resolving_twice_is_idempotent (user : option string) (remote : Remote)
    (cache : Cache) (appointments : list Appointment.t) :
  let first := fetchRelatedData user remote cache appointments in
  let second := fetchRelatedData user remote first.1.2 appointments in
  second.1.1 = first.1.1
  ∧ second.1.2 = first.1.2
  ∧ NoDup (requestedClientIds first.2) ∧ NoDup (requestedModalityIds first.2)
  ∧ NoDup (requestedClientIds second.2) ∧ NoDup (requestedModalityIds second.2)
  ∧ Forall (λ id, clientsCache first.1.2 !! default "" user
                    ≫= (λ m, m !! id) = None)
           (requestedClientIds second.2)
  ∧ Forall (λ id, modalitiesCache first.1.2 !! default "" user
                    ≫= (λ m, m !! id) = None)
           (requestedModalityIds second.2).
Proof.
  destruct appointments as [|a l].
  { simpl. repeat split; try done; constructor. }
  intros first second. unfold second, first.
  rewrite !fetchRelatedData_cons. cbn [fst snd].
  rewrite !requestedClientIds_call, !requestedModalityIds_call.
  set (u := default "" user).
  set (c1 := clientsHalf user remote cache (a :: l)).
  set (m1 := modalitiesHalf user remote cache (a :: l)).
  set (cache1 := {| clientsCache := <[u := c1.1]> (clientsCache cache);
                    modalitiesCache := <[u := m1.1]> (modalitiesCache cache) |}).
  assert (Hc : (clientsHalf user remote cache1 (a :: l)).1 = c1.1).
  { unfold clientsHalf, cache1. cbn [clientsCache]. fold u.
    rewrite lookup_insert_eq. by apply resolveKind_again. }
  assert (Hm : (modalitiesHalf user remote cache1 (a :: l)).1 = m1.1).
  { unfold modalitiesHalf, cache1. cbn [modalitiesCache]. fold u.
    rewrite lookup_insert_eq. by apply resolveKind_again. }
  rewrite Hc, Hm.
  split; [done |].
  split; [unfold cache1; cbn [clientsCache modalitiesCache];
          by rewrite !insert_insert_eq |].
  unfold c1, m1, clientsHalf, modalitiesHalf. rewrite !resolveKind_missing.
  repeat split; try (apply missingIds_NoDup, unique_NoDup).
  - apply Forall_forall. intros id Hid. by apply missingIds_elem in Hid as [_ ?].
  - apply Forall_forall. intros id Hid. by apply missingIds_elem in Hid as [_ ?].
Qed.

(** Whatever the store answers the second time, every record the first
    resolution returned is returned again, unchanged. *)
Lemma second_resolution_keeps_records (user : option string)
    (remote remote' : Remote) (cache : Cache) (appointments : list Appointment.t) :
  let '(first, second) := resolveTwice user remote remote' cache appointments in
  clientsMap first.1.1 ⊆ clientsMap second.1.1
  ∧ modalitiesMap first.1.1 ⊆ modalitiesMap second.1.1.
Proof.
  unfold resolveTwice. destruct appointments as [|a l]; [done |].
  rewrite !fetchRelatedData_cons. cbn [fst snd clientsMap modalitiesMap].
  unfold clientsHalf, modalitiesHalf. cbn [clientsCache modalitiesCache].
  rewrite !lookup_insert_eq.
  split; apply resolveKind_keeps; done.
Qed.

End RelatedDataFacts.

(** ** Booking from the portal *)

Module CreateBookingFacts.

Import CreateBooking.

Section Host.

Context `{!JsString.Builtins}.

(** Finding or creating the client never touches the appointments. *)
Lemma resolveClient_appointments (env : Env) (db : Db)
    (bookingData : CreateClientBookingData) :
  appointments (resolveClient env db bookingData).1 = appointments db.
Proof.
  unfold resolveClient.
  destruct (truthy (client_id bookingData)); [done |].
  destruct (client_data bookingData) as [cd|]; [| done].
  destruct (maybeSingleData _ _); [done |].
  by destruct (clientInsertFailure env).
Qed.

(** A slot is occupied when the filter of the availability query keeps a
    row. *)
Lemma occupying_nonempty (userId fullDateTime : string)
    (rows : list Appointment.t) :
  (0 <? Z.of_nat (length (occupying userId fullDateTime rows))) = true
  ↔ ∃ a, a ∈ rows
         ∧ Appointment.user_id a = userId
         ∧ Appointment.date a = fullDateTime
         ∧ Appointment.status a ≠ "cancelado".
Proof.
  unfold occupying. rewrite Z.ltb_lt. split.
  - destruct (filter _ rows) as [|a rest] eqn:Hf; [simpl; lia |].
    intros _. exists a.
    assert (a ∈ filter (λ a, Appointment.user_id a = userId
                             ∧ Appointment.date a = fullDateTime
                             ∧ Appointment.status a ≠ "cancelado") rows) as Hin
      by (rewrite Hf; left).
    apply list_elem_of_filter in Hin. tauto.
  - intros (a & Hin & Hu & Hd & Hs).
    assert (a ∈ filter (λ a, Appointment.user_id a = userId
                             ∧ Appointment.date a = fullDateTime
                             ∧ Appointment.status a ≠ "cancelado") rows) as Hf
      by (apply list_elem_of_filter; tauto).
    destruct (filter _ rows); [by apply elem_of_nil in Hf | simpl; lia].
Qed.

(** No call that ends in an error has added an appointment. *)
Lemma rejected_keeps_appointments (env : Env) (db db' : Db)
    (bookingData : CreateClientBookingData) (e : PostgrestError) :
  mutationFn env db bookingData = (db', Rejected e) →
  appointments db' = appointments db.
Proof.
  unfold mutationFn.
  pose proof (resolveClient_appointments env db bookingData) as Hres.
  destruct (resolveClient env db bookingData) as [db1 [thrown|clientId]];
    simpl in Hres.
  { by intros [= <- _]. }
  destruct (truthy clientId); simpl; [| by intros [= <- _]].
  destruct (slotQueryFailure env); [by intros [= <- _] |].
  destruct (0 <? _); [by intros [= <- _] |].
  destruct (appointmentInsertFailure env); [by intros [= <- _] | done].
Qed.

(** C6, as the code has it. A call that ends in an error has inserted no
    appointment.  When the client of the call is resolved and the
    availability query is answered: if an appointment of the account has
    exactly the requested date-time and is not cancelled, the call is
    rejected as slot occupied and the store is as client resolution left
    it; otherwise the insert is attempted, and the appointments gain the
    new row exactly when the store accepts it. *)
Theorem slot_check_guards_insert (env : Env) (db db1 : Db)
    (bookingData : CreateClientBookingData) (clientId : string) :
  resolveClient env db bookingData = (db1, inr (Some clientId)) →
  clientId ≠ "" →
  slotQueryFailure env = None →
  (∀ db' e, mutationFn env db bookingData = (db', Rejected e) →
            appointments db' = appointments db)
  ∧ ((∃ a, a ∈ appointments db
           ∧ Appointment.user_id a = user_id bookingData
           ∧ Appointment.date a = date bookingData
           ∧ Appointment.status a ≠ "cancelado") →
     mutationFn env db bookingData
     = (db1, Rejected {| message := "Este horário já está ocupado" |})
     ∧ appointments db1 = appointments db)
  ∧ (¬ (∃ a, a ∈ appointments db
             ∧ Appointment.user_id a = user_id bookingData
             ∧ Appointment.date a = date bookingData
             ∧ Appointment.status a ≠ "cancelado") →
     mutationFn env db bookingData
     = match appointmentInsertFailure env with
       | Some e => (db1, Rejected e)
       | None =>
           ({| appointments :=
                 appointments db ++ [newBookingRow env bookingData clientId];
               booking_clients := booking_clients db1 |},
            Resolved (newBookingRow env bookingData clientId))
       end).
Proof.
  intros Hres Hid Hquery.
  pose proof (resolveClient_appointments env db bookingData) as Happ.
  rewrite Hres in Happ. simpl in Happ.
  assert (truthy (Some clientId) = true) as Htruthy.
  { simpl. by apply String.eqb_neq in Hid as ->. }
  split; [intros db' e; apply rejected_keeps_appointments |].
  unfold mutationFn. rewrite Hres, Htruthy, Hquery, Happ. simpl.
  split.
  - intros Hocc. apply occupying_nonempty in Hocc. by rewrite Hocc.
  - intros Hfree.
    destruct (0 <? _) eqn:Hlen.
    { exfalso. apply Hfree. by apply occupying_nonempty. }
    by destruct (appointmentInsertFailure env).
Qed.

End Host.

#[local] Existing Instance AsciiText.builtins.

(** A known client asks for the slot that appointment [a1] holds. *)
Lemma slot_check_witness :
  CreateBooking.mutationFn Samples.bookingEnv Samples.bookingDb
    (Samples.booking (Some "c1") None Samples.slot)
  = (Samples.bookingDb, Rejected {| message := "Este horário já está ocupado" |})
  ∧ appointments Samples.bookingDb = appointments Samples.bookingDb.
Proof.
  apply (slot_check_guards_insert Samples.bookingEnv Samples.bookingDb
           Samples.bookingDb (Samples.booking (Some "c1") None Samples.slot) "c1").
  - reflexivity.
  - discriminate.
  - reflexivity.
  - exists (Samples.appointment "a1" "agendado" 120).
    repeat split; [left | discriminate].
Defined.

(** C6 as stated fails on two calls for the taken slot: one without any
    client identity is rejected for the missing client id, not for the
    slot; one from a new client is rejected for the slot after the client
    record was created, so the store did change. *)
Lemma slot_occupied_counterexample :
  (CreateBooking.mutationFn Samples.bookingEnv Samples.bookingDb
     (Samples.booking None None Samples.slot)).2
  = Rejected {| message := "ID do cliente é obrigatório" |}
  ∧ (CreateBooking.mutationFn Samples.bookingEnv Samples.bookingDb
       (Samples.booking None (Some Samples.newcomer) Samples.slot)).2
    = Rejected {| message := "Este horário já está ocupado" |}
  ∧ (CreateBooking.mutationFn Samples.bookingEnv Samples.bookingDb
       (Samples.booking None (Some Samples.newcomer) Samples.slot)).1
    ≠ Samples.bookingDb
  ∧ booking_clients
      (CreateBooking.mutationFn Samples.bookingEnv Samples.bookingDb
         (Samples.booking None (Some Samples.newcomer) Samples.slot)).1
    = [{| Client.id := "c9"; Client.name := "Bia";
          Client.email := "bia@example.com"; Client.phone := None;
          Client.user_id := "u1" |}].
Proof. vm_compute. repeat split. discriminate. Qed.

End CreateBookingFacts.

(** ** Deleting a client *)

Module ClientsFacts.

Import Queries Clients.

(** With no query failing, the dialog lists one entry per appointment of
    the client in the store. *)
Lemma openDeleteModal_lists_appointments (userId : string) (env : Env)
    (db : Db) (client : Client.t) (st : State) :
  appointmentsQueryFailure env = None →
  modalitiesQueryFailure env = None →
  clientToDelete (openDeleteModal userId env db client st) = Some client
  ∧ confirmClientName (openDeleteModal userId env db client st) = ""
  ∧ length (appointmentsForClient (openDeleteModal userId env db client st))
    = length (appointmentsOf (Client.id client) userId (appointments db)).
Proof.
  intros Hq Hm. unfold openDeleteModal. rewrite Hq, Hm.
  destruct (RelatedData.unique _); simpl; by rewrite length_fmap.
Qed.

Lemma openDeleteModal_isDeleting (userId : string) (env : Env)
    (db : Db) (client : Client.t) (st : State) :
  isDeleting (openDeleteModal userId env db client st) = isDeleting st.
Proof.
  unfold openDeleteModal. destruct (appointmentsQueryFailure env); [done |].
  destruct (RelatedData.unique _); [done |].
  by destruct (modalitiesQueryFailure env).
Qed.

Section Host.

Context `{!JsString.Builtins}.

Lemma deleteDisabled_spec (st : State) (client : Client.t) :
  clientToDelete st = Some client → isDeleting st = false →
  deleteDisabled st
  = bool_decide (appointmentsForClient st ≠ []
                 ∧ folded (confirmClientName st) ≠ folded (Client.name client)).
Proof.
  intros Hc Hd. unfold deleteDisabled. rewrite Hc, Hd.
  fold (folded (confirmClientName st)) (folded (Client.name client)).
  destruct (appointmentsForClient st) as [|a l].
  { symmetry. apply bool_decide_eq_false. tauto. }
  destruct (String.eqb_spec (folded (confirmClientName st))
              (folded (Client.name client))) as [Heq|Hne].
  - symmetry. apply bool_decide_eq_false. tauto.
  - symmetry. apply bool_decide_eq_true. done.
Qed.

(** The button and the handler, by what the dialog lists. *)
Lemma listed_confirmation_and_cascade (userId : string) (env : Env)
    (db : Db) (client : Client.t) (st : State) :
  clientToDelete st = Some client → isDeleting st = false →
  deleteAppointmentsFailure env = None → deleteClientFailure env = None →
  (appointmentsForClient st ≠ [] →
     (deleteDisabled st = true ↔
      folded (confirmClientName st) ≠ folded (Client.name client))
     ∧ (confirmClientName st = Client.name client → deleteDisabled st = false)
     ∧ (handleDeleteClient userId env db st).2
       = [DeleteAppointments (Client.id client) userId;
          DeleteClient (Client.id client) userId]
     ∧ appointments (handleDeleteClient userId env db st).1.2
       = appointmentsNotOf (Client.id client) userId (appointments db))
  ∧ (appointmentsForClient st = [] →
     deleteDisabled st = false
     ∧ (handleDeleteClient userId env db st).2
       = [DeleteClient (Client.id client) userId]
     ∧ appointments (handleDeleteClient userId env db st).1.2 = appointments db)
  ∧ booking_clients (handleDeleteClient userId env db st).1.2
    = filter (λ c, ¬ (Client.id c = Client.id client ∧ Client.user_id c = userId))
             (booking_clients db)
  ∧ clientToDelete (handleDeleteClient userId env db st).1.1 = None.
Proof.
  intros Hc Hd Hfa Hfc.
  pose proof (deleteDisabled_spec st client Hc Hd) as Hdis.
  unfold handleDeleteClient. rewrite Hc, Hfa, Hfc.
  destruct (appointmentsForClient st) as [|a l] eqn:Hl; simpl.
  - split; [done |]. split; [| done].
    intros _. split; [| done].
    rewrite Hdis, bool_decide_false; [done | tauto].
  - split; [| split; [done | done]].
    intros _. rewrite Hdis. split; [| split; [| done]].
    + rewrite bool_decide_eq_true. split; [tauto | done].
    + intros ->. rewrite bool_decide_false; [done | tauto].
Qed.

(** C9, as the code has it. Open the dialog of a client, with no delete
    under way, the two lookups of [openDeleteModal] answered and a store
    that accepts the deletes, and let the operator type [typed].  When the
    client has appointments in the account, the confirm button is disabled
    exactly while the typed text and the client's name differ after
    trimming and lower-casing both, so typing the exact name enables it;
    the handler then sends the delete of the appointments of that client
    and account, which removes exactly those rows, and after it the delete
    of the client.  When the client has no appointment, the button is
    enabled whatever is typed and only the delete of the client is sent. *)
Theorem delete_client_confirmation_and_cascade (userId : string) (env : Env)
    (db : Db) (client : Client.t) (st : State) (typed : string) :
  isDeleting st = false →
  appointmentsQueryFailure env = None → modalitiesQueryFailure env = None →
  deleteAppointmentsFailure env = None → deleteClientFailure env = None →
  let dialog :=
    setConfirmClientName typed (openDeleteModal userId env db client st) in
  let existing := appointmentsOf (Client.id client) userId (appointments db) in
  (existing ≠ [] →
     (deleteDisabled dialog = true ↔
      folded typed ≠ folded (Client.name client))
     ∧ (typed = Client.name client → deleteDisabled dialog = false)
     ∧ (handleDeleteClient userId env db dialog).2
       = [DeleteAppointments (Client.id client) userId;
          DeleteClient (Client.id client) userId]
     ∧ appointments (handleDeleteClient userId env db dialog).1.2
       = appointmentsNotOf (Client.id client) userId (appointments db))
  ∧ (existing = [] →
     deleteDisabled dialog = false
     ∧ (handleDeleteClient userId env db dialog).2
       = [DeleteClient (Client.id client) userId]
     ∧ appointments (handleDeleteClient userId env db dialog).1.2 = appointments db)
  ∧ booking_clients (handleDeleteClient userId env db dialog).1.2
    = filter (λ c, ¬ (Client.id c = Client.id client ∧ Client.user_id c = userId))
             (booking_clients db)
  ∧ clientToDelete (handleDeleteClient userId env db dialog).1.1 = None.
Proof.
  intros Hd Hq Hm Hfa Hfc dialog existing.
  destruct (openDeleteModal_lists_appointments userId env db client st Hq Hm)
    as (Hclient & _ & Hlen).
  assert (clientToDelete dialog = Some client) as Hc by exact Hclient.
  assert (isDeleting dialog = false) as Hd'
    by (unfold dialog; simpl; by rewrite openDeleteModal_isDeleting).
  assert (appointmentsForClient dialog = [] ↔ existing = []) as Hlisted.
  { unfold dialog, existing. simpl.
    rewrite <- !length_zero_iff_nil, Hlen. done. }
  destruct (listed_confirmation_and_cascade userId env db client dialog
              Hc Hd' Hfa Hfc) as (Hsome & Hnone & Hclients & Hclosed).
  split; [| split; [| split]]; [| | exact Hclients | exact Hclosed].
  - intros Hex. apply Hsome. by rewrite Hlisted.
  - intros Hex. apply Hnone. by rewrite Hlisted.
Qed.

End Host.

#[local] Existing Instance AsciiText.builtins.

(** The dialog of Ana, who has one appointment, with her name typed. *)
Lemma delete_client_witness :
  appointmentsOf "c1" "u1" (appointments Samples.clientsDb)
  = [Samples.appointment "a1" "agendado" 120]
  ∧ (deleteDisabled (Samples.dialog "Ana") = true ↔
     folded "Ana" ≠ folded (Client.name Samples.ana))
  ∧ ("Ana" = Client.name Samples.ana →
     deleteDisabled (Samples.dialog "Ana") = false)
  ∧ (handleDeleteClient "u1" Samples.noFailure Samples.clientsDb
       (Samples.dialog "Ana")).2
    = [DeleteAppointments (Client.id Samples.ana) "u1";
       DeleteClient (Client.id Samples.ana) "u1"]
  ∧ appointments (handleDeleteClient "u1" Samples.noFailure Samples.clientsDb
                    (Samples.dialog "Ana")).1.2
    = appointmentsNotOf (Client.id Samples.ana) "u1"
        (appointments Samples.clientsDb).
Proof.
  split; [reflexivity |].
  destruct (delete_client_confirmation_and_cascade "u1" Samples.noFailure
              Samples.clientsDb Samples.ana Samples.clientsPage "Ana")
    as [Hexisting _];
    [reflexivity | reflexivity | reflexivity | reflexivity | reflexivity |].
  apply Hexisting. discriminate.
Defined.

(** C9 as stated fails on the match: for Ana, who has one appointment, the
    text " ANA " is not her exact name, yet the button is enabled. *)
Lemma delete_client_counterexample :
  appointmentsOf "c1" "u1" (appointments Samples.clientsDb)
  = [Samples.appointment "a1" "agendado" 120]
  ∧ confirmClientName (Samples.dialog " ANA ") ≠ Client.name Samples.ana
  ∧ deleteDisabled (Samples.dialog " ANA ") = false.
Proof. vm_compute. repeat split. discriminate. Qed.

End ClientsFacts.

(** * Further properties of the layer *)

(** ** Rows identified by a key *)

Module KeyFacts.

(** In a list without two rows of one key, a selection that holds of a row
    and only of rows with its key selects that row alone. *)
Lemma filter_unique {A K} (f : A → K) (P : A → Prop) `{!∀ x, Decision (P x)}
    (l : list A) (x : A) :
  NoDup (f <$> l) → x ∈ l → P x → (∀ y, y ∈ l → P y → f y = f x) →
  filter P l = [x].
Proof.
  induction l as [|a l IH]; intros Hnd Hin Hx Hkey.
  { by apply elem_of_nil in Hin. }
  rewrite fmap_cons in Hnd. apply NoDup_cons in Hnd as [Hfresh Hnd].
  apply elem_of_cons in Hin as [->|Hin].
  - rewrite filter_cons_True by done. f_equal.
    apply elem_of_nil_inv. intros y Hy.
    apply list_elem_of_filter in Hy as [Hy Hyl].
    apply Hfresh. rewrite <- (Hkey y) by (by right || done).
    by apply list_elem_of_fmap_2.
  - rewrite filter_cons_False.
    + apply IH; [done | done | done |]. intros y Hy. apply Hkey. by right.
    + intros Ha. apply Hfresh. rewrite (Hkey a) by (by left || done).
      by apply list_elem_of_fmap_2.
Qed.

(** A key selects no row or one row. *)
Lemma filter_key {A K} `{!EqDecision K} (f : A → K) (k : K) (l : list A) :
  NoDup (f <$> l) →
  filter (λ x, f x = k) l = []
  ∨ ∃ x, x ∈ l ∧ f x = k ∧ filter (λ x, f x = k) l = [x].
Proof.
  intros Hnd.
  destruct (filter (λ x, f x = k) l) as [|x rest] eqn:Hf; [by left | right].
  assert (x ∈ filter (λ x, f x = k) l) as Hx by (rewrite Hf; left).
  apply list_elem_of_filter in Hx as [Hk Hin].
  exists x. split; [done |]. split; [done |].
  rewrite <- Hf. apply (filter_unique f); try done.
  intros y _ Hy. congruence.
Qed.

End KeyFacts.

(** ** The [useClientBookings] query *)

Module ClientBookingsFacts.

Import Pagination Queries PaginationFacts.

Section Query.

Variable range : Z → Z → Response (list Appointment.t).
Variable table : list Client.t.

Lemma attachClient_booking (clients : list BookingClient) (a : Appointment.t) :
  booking (attachClient clients a) = a.
Proof. done. Qed.

(** The client attached to an appointment is the placeholder or one of
    the clients looked up, with the id the appointment refers to. *)
Lemma attachClient_client (clients : list BookingClient) (a : Appointment.t) :
  booking_clients (attachClient clients a) = unidentifiedClient
  ∨ (booking_clients (attachClient clients a) ∈ clients
     ∧ bc_id (booking_clients (attachClient clients a)) = Appointment.client_id a).
Proof.
  unfold attachClient. simpl.
  destruct (truthy (Appointment.client_id a)); [| by left].
  destruct (find _ clients) as [c|] eqn:Hfind; [| by left].
  right. apply find_some in Hfind as [Hin Hid]. simpl.
  apply bool_decide_eq_true in Hid. split; [| done].
  by apply list_elem_of_In.
Qed.

(** X1. Without a failing request the query delivers every fetched appointment
    once, in the order fetched, each with a client of the account that has
    the id the appointment refers to, or else with the placeholder
    "Cliente não identificado". *)
Theorem client_bookings_attach_own_client_or_placeholder
    (adminUserId : option string) (st : LoopState) :
  truthy adminUserId = true →
  paginate range = Some st → error st = None →
  ∃ rows,
    useClientBookings_queryFn adminUserId range table None = Some (Resolved rows)
    ∧ booking <$> rows = allAppointments st
    ∧ Forall (λ cb,
                booking_clients cb = unidentifiedClient
                ∨ ∃ c, c ∈ table
                       ∧ Client.user_id c = default "" adminUserId
                       ∧ Some (Client.id c) = Appointment.client_id (booking cb)
                       ∧ booking_clients cb = bookingClientOfRow c) rows.
Proof.
  intros Hadmin Hrun Herr. unfold useClientBookings_queryFn.
  rewrite Hadmin, Hrun.
  cbn -[selectBookingClients attachClient RelatedData.truthyIds].
  rewrite Herr.
  destruct (allAppointments st) as [|a l] eqn:Hall.
  { exists []. by repeat split. }
  rewrite <- Hall. clear Hall a l.
  set (ids := RelatedData.truthyIds (Appointment.client_id <$> allAppointments st)).
  set (resp := match ids with
               | [] => ok []
               | _ => selectBookingClients table None ids (default "" adminUserId)
               end).
  assert (Supabase.error resp = None) as Hnone by (unfold resp; by destruct ids).
  rewrite Hnone.
  eexists. split; [reflexivity |]. split.
  { rewrite <- list_fmap_compose. apply list_fmap_id. }
  assert (∀ bc, bc ∈ default [] (data resp) →
                ∃ c, c ∈ table ∧ Client.user_id c = default "" adminUserId
                     ∧ bc = bookingClientOfRow c) as Hclients.
  { intros bc Hin. unfold resp in Hin.
    destruct ids; [by apply elem_of_nil in Hin |].
    simpl in Hin. apply list_elem_of_fmap in Hin as (c & Hc & Hin).
    apply list_elem_of_filter in Hin as [[_ Hu] Hin]. by exists c. }
  apply Forall_fmap, Forall_forall. intros a _.
  unfold compose. rewrite attachClient_booking.
  destruct (attachClient_client (default [] (data resp)) a) as [Hph|[Hin Hid]];
    [by left | right].
  apply Hclients in Hin as (c & Hin & Hu & Hc).
  exists c. rewrite Hc in Hid. simpl in Hid. by repeat split.
Qed.

(** X2. When the lookup of the clients fails, the appointments already fetched
    are dropped: the query resolves with the empty list. *)
Theorem client_bookings_lookup_failure_drops_appointments
    (adminUserId : option string) (st : LoopState) (e : PostgrestError)
    (a : Appointment.t) :
  truthy adminUserId = true →
  paginate range = Some st → error st = None →
  a ∈ allAppointments st → truthy (Appointment.client_id a) = true →
  useClientBookings_queryFn adminUserId range table (Some e) = Some (Resolved []).
Proof.
  intros Hadmin Hrun Herr Hin Hcid. unfold useClientBookings_queryFn.
  rewrite Hadmin, Hrun.
  cbn -[selectBookingClients attachClient RelatedData.truthyIds].
  rewrite Herr.
  destruct (allAppointments st) as [|a0 l] eqn:Hall; [done |].
  rewrite <- Hall in *. clear Hall a0 l.
  assert (RelatedData.truthyIds (Appointment.client_id <$> allAppointments st) ≠ [])
    as Hids.
  { intros Hnil.
    assert (default "" (Appointment.client_id a)
            ∈ RelatedData.truthyIds (Appointment.client_id <$> allAppointments st))
      as Hmem; [| rewrite Hnil in Hmem; by apply elem_of_nil in Hmem].
    unfold RelatedData.truthyIds. apply list_elem_of_omap.
    exists (Appointment.client_id a). split; [by apply list_elem_of_fmap_2 |].
    rewrite Hcid. by destruct (Appointment.client_id a). }
  by destruct (RelatedData.truthyIds _).
Qed.

End Query.

(** The one appointment of Ana comes back with Ana attached. *)
Lemma client_bookings_attach_witness :
  ∃ rows,
    useClientBookings_queryFn (Some "u1") (rangeOfTable MoreSamples.oneRow)
      [Samples.ana] None = Some (Resolved rows)
    ∧ booking <$> rows = MoreSamples.oneRow.
Proof.
  destruct (client_bookings_attach_own_client_or_placeholder
              (rangeOfTable MoreSamples.oneRow) [Samples.ana] (Some "u1")
              MoreSamples.oneRowRun) as (rows & Hrun & Hrows & _);
    [reflexivity | reflexivity | reflexivity |].
  exists rows. split; assumption.
Defined.

Lemma client_bookings_lookup_failure_witness :
  useClientBookings_queryFn (Some "u1") (rangeOfTable MoreSamples.oneRow)
    [Samples.ana] (Some MoreSamples.timeout)
  = Some (Resolved []).
Proof.
  apply (client_bookings_lookup_failure_drops_appointments
           (rangeOfTable MoreSamples.oneRow) [Samples.ana] (Some "u1")
           MoreSamples.oneRowRun MoreSamples.timeout
           (Samples.appointment "a1" "agendado" 120)).
  - reflexivity.
  - reflexivity.
  - reflexivity.
  - left.
  - reflexivity.
Defined.

End ClientBookingsFacts.

(** ** More on the related-entity cache *)

Module RelatedDataMoreFacts.

Import RelatedData RelatedDataFacts.

Section Kind.

Context {R V : Type}.
Variable rowId : R → string.
Variable rowUser : R → string.
Variable ofRow : R → V.
Variable key : V → string.
Hypothesis key_ofRow : ∀ r, key (ofRow r) = rowId r.

Lemma setAll_lookup_Some (rows : list V) (m : gmap string V) (k : string) (v : V) :
  setAll key rows m !! k = Some v → m !! k = Some v ∨ (v ∈ rows ∧ key v = k).
Proof.
  revert m. induction rows as [|r rows IH]; intros m Hl; [by left |].
  unfold setAll in *. simpl in Hl. apply IH in Hl as [Hl|[Hin Hk]].
  - apply lookup_insert_Some in Hl as [[Hk <-]|[_ Hl]]; [right | by left].
    split; [left | done].
  - right. split; [by right | done].
Qed.

(** A record of the returned map was cached, or is a row of the account
    whose id was asked for. *)
Lemma resolveKind_sound (table : list R) (failure : option PostgrestError)
    (cached : option (gmap string V)) (ids : list string) (userId k : string)
    (v : V) :
  (resolveKind rowId rowUser ofRow key table failure cached ids userId).1 !! k
    = Some v →
  cached ≫= (λ m, m !! k) = Some v
  ∨ ∃ r, r ∈ table ∧ rowId r = k ∧ rowUser r = userId ∧ k ∈ ids ∧ v = ofRow r.
Proof.
  unfold resolveKind. simpl. intros Hl.
  apply setAll_lookup_Some in Hl as [Hl|[Hin Hk]].
  { left. destruct cached; [done | simpl in Hl; by rewrite lookup_empty in Hl]. }
  right. case_bool_decide; [| by apply elem_of_nil in Hin].
  unfold selectIn in Hin. destruct failure; [by apply elem_of_nil in Hin |].
  simpl in Hin. apply list_elem_of_fmap in Hin as (r & -> & Hin).
  apply list_elem_of_filter in Hin as [[Hid Hu] Hin].
  rewrite key_ofRow in Hk. subst k.
  apply missingIds_elem in Hid as [Hid _]. by exists r.
Qed.

(** An id that was asked for, is not cached and has a row in the account
    is in the returned map, when the request does not fail. *)
Lemma resolveKind_complete (table : list R)
    (cached : option (gmap string V)) (ids : list string) (userId : string)
    (r : R) :
  rowId r ∈ ids → cached ≫= (λ m, m !! rowId r) = None →
  r ∈ table → rowUser r = userId →
  is_Some ((resolveKind rowId rowUser ofRow key table None cached ids userId).1
             !! rowId r).
Proof.
  intros Hid Hcached Hin Hu.
  assert (rowId r ∈ missingIds cached ids) as Hmiss
    by (by apply missingIds_elem).
  unfold resolveKind. simpl.
  rewrite bool_decide_true
    by (intros Hnil; rewrite Hnil in Hmiss; by apply elem_of_nil in Hmiss).
  unfold selectIn. simpl. apply setAll_lookup_in.
  rewrite <- key_ofRow, <- list_fmap_compose.
  apply list_elem_of_fmap. exists r. split; [done |].
  by apply list_elem_of_filter.
Qed.

End Kind.

Lemma client_id_is_unique_id (l : list Appointment.t) (a : Appointment.t)
    (cid : string) :
  a ∈ l → Appointment.client_id a = Some cid → cid ≠ "" →
  cid ∈ unique (truthyIds (Appointment.client_id <$> l)).
Proof.
  intros Hin Hcid Hne. apply unique_elem. unfold truthyIds.
  apply list_elem_of_omap. exists (Some cid).
  split; [rewrite <- Hcid; by apply list_elem_of_fmap_2 |].
  simpl. by apply String.eqb_neq in Hne as ->.
Qed.

(** X3. A call serves what the cache of the account holds, unchanged, whatever
    the store now holds for those ids, and leaves the caches of every
    other account as they were. *)
Theorem cached_records_are_served_unchanged (user : option string)
    (remote : Remote) (cache : Cache) (a : Appointment.t)
    (l : list Appointment.t) :
  let '(maps, cache', _) := fetchRelatedData user remote cache (a :: l) in
  default ∅ (clientsCache cache !! default "" user) ⊆ clientsMap maps
  ∧ default ∅ (modalitiesCache cache !! default "" user) ⊆ modalitiesMap maps
  ∧ delete (default "" user) (clientsCache cache')
    = delete (default "" user) (clientsCache cache)
  ∧ delete (default "" user) (modalitiesCache cache')
    = delete (default "" user) (modalitiesCache cache).
Proof.
  rewrite fetchRelatedData_cons. cbn [clientsMap modalitiesMap clientsCache modalitiesCache].
  unfold clientsHalf, modalitiesHalf.
  split; [by apply resolveKind_extends |].
  split; [by apply resolveKind_extends |].
  by rewrite !delete_insert_eq.
Qed.

(** X4. A client that an appointment refers to, that is not cached and has a
    row in the account, is resolved to such a row when the request does
    not fail, and is in the cache of the account afterwards. *)
Theorem referenced_client_is_resolved (user : option string) (remote : Remote)
    (cache : Cache) (appointments : list Appointment.t) (a : Appointment.t)
    (c : Client.t) :
  a ∈ appointments →
  Appointment.client_id a = Some (Client.id c) → Client.id c ≠ "" →
  clientsFailure remote = None →
  c ∈ booking_clients remote → Client.user_id c = default "" user →
  clientsCache cache !! default "" user ≫= (λ m, m !! Client.id c) = None →
  let '(maps, cache', _) := fetchRelatedData user remote cache appointments in
  ∃ c', c' ∈ booking_clients remote
        ∧ Client.id c' = Client.id c
        ∧ Client.user_id c' = default "" user
        ∧ clientsMap maps !! Client.id c = Some (ClientRef.ofRow c')
        ∧ clientsCache cache' !! default "" user
            ≫= (λ m, m !! Client.id c) = Some (ClientRef.ofRow c').
Proof.
  intros Hin Hcid Hne Hfail Hc Hu Hcached.
  destruct appointments as [|a0 l]; [by apply elem_of_nil in Hin |].
  rewrite fetchRelatedData_cons. cbn [clientsMap clientsCache].
  rewrite lookup_insert_eq. cbn [mbind option_bind].
  unfold clientsHalf. rewrite Hfail.
  pose proof (client_id_is_unique_id (a0 :: l) a (Client.id c) Hin Hcid Hne) as Hid.
  destruct (resolveKind_complete Client.id Client.user_id ClientRef.ofRow
              ClientRef.id (λ _, eq_refl) (booking_clients remote)
              (clientsCache cache !! default "" user) _ (default "" user) c
              Hid Hcached Hc Hu) as [v Hv].
  pose proof Hv as Hsound.
  apply (resolveKind_sound Client.id Client.user_id ClientRef.ofRow
           ClientRef.id (λ _, eq_refl)) in Hsound as [Hold|(c' & ? & ? & ? & _ & ->)].
  { congruence. }
  exists c'. by rewrite Hv.
Qed.

(** X5. A client reference with no row in the account (deleted, or owned by
    another account) that is not cached stays unresolved: the returned map
    and the cache have no record for it, and the join leaves the client of
    the view-model undefined. *)
Theorem unknown_client_stays_unresolved (user : option string) (remote : Remote)
    (cache : Cache) (a : Appointment.t) (l : list Appointment.t) (cid : string) :
  Appointment.client_id a = Some cid →
  (∀ c, c ∈ booking_clients remote →
        ¬ (Client.id c = cid ∧ Client.user_id c = default "" user)) →
  clientsCache cache !! default "" user ≫= (λ m, m !! cid) = None →
  let '(maps, cache', _) := fetchRelatedData user remote cache (a :: l) in
  clientsMap maps !! cid = None
  ∧ clientsCache cache' !! default "" user ≫= (λ m, m !! cid) = None
  ∧ AppointmentWithModality.client
      (Queries.decorate (clientsMap maps) (modalitiesMap maps) a) = None.
Proof.
  intros Hcid Hnone Hcached.
  rewrite fetchRelatedData_cons. cbn [clientsMap modalitiesMap clientsCache].
  rewrite lookup_insert_eq. cbn [mbind option_bind].
  assert ((clientsHalf user remote cache (a :: l)).1 !! cid = None) as Hl.
  { apply eq_None_not_Some. intros [v Hv]. unfold clientsHalf in Hv.
    apply (resolveKind_sound Client.id Client.user_id ClientRef.ofRow
             ClientRef.id (λ _, eq_refl)) in Hv
      as [Hold|(c & Hc & Hid & Hu & _)]; [congruence |].
    by apply (Hnone c). }
  split; [done |]. split; [done |].
  unfold Queries.decorate. cbn [AppointmentWithModality.client]. rewrite Hcid.
  destruct (truthy (Some cid)); [by rewrite Hl | done].
Qed.


(** Ana, whom the one appointment refers to, is resolved from the store. *)
Lemma referenced_client_witness :
  let '(maps, cache', _) :=
    fetchRelatedData (Some "u1") MoreSamples.remoteWithAna Samples.emptyCache
      MoreSamples.oneRow in
  ∃ c', c' ∈ booking_clients MoreSamples.remoteWithAna
        ∧ Client.id c' = Client.id Samples.ana
        ∧ Client.user_id c' = "u1"
        ∧ clientsMap maps !! Client.id Samples.ana = Some (ClientRef.ofRow c')
        ∧ clientsCache cache' !! "u1"
            ≫= (λ m, m !! Client.id Samples.ana) = Some (ClientRef.ofRow c').
Proof.
  apply (referenced_client_is_resolved (Some "u1") MoreSamples.remoteWithAna
           Samples.emptyCache MoreSamples.oneRow
           (Samples.appointment "a1" "agendado" 120) Samples.ana).
  - left.
  - reflexivity.
  - discriminate.
  - reflexivity.
  - left.
  - reflexivity.
  - reflexivity.
Defined.

(** In an empty store the client of the appointment stays unresolved. *)
Lemma unknown_client_witness :
  let '(maps, cache', _) :=
    fetchRelatedData (Some "u1") Samples.emptyRemote Samples.emptyCache
      MoreSamples.oneRow in
  clientsMap maps !! "c1" = None
  ∧ clientsCache cache' !! "u1" ≫= (λ m, m !! "c1") = None
  ∧ AppointmentWithModality.client
      (Queries.decorate (clientsMap maps) (modalitiesMap maps)
         (Samples.appointment "a1" "agendado" 120)) = None.
Proof.
  apply (unknown_client_stays_unresolved (Some "u1") Samples.emptyRemote
           Samples.emptyCache (Samples.appointment "a1" "agendado" 120) [] "c1").
  - reflexivity.
  - intros c Hc. by apply elem_of_nil in Hc.
  - reflexivity.
Defined.

End RelatedDataMoreFacts.

(** ** Creating, updating and deleting appointments *)

Module MutationFacts.

(** X6. A modality that does not exist for the account, or a lookup that
    fails, stops the creation before anything is sent to the store. *)
Theorem create_appointment_rejects_unknown_modality (user : option string)
    (modalities : list Modality.t) (modalityFailure : option PostgrestError)
    (insert : CreateAppointment.InsertPayload → Response Appointment.t)
    (appointmentData : CreateAppointment.CreateAppointmentData) :
  truthy user = true →
  (is_Some modalityFailure
   ∨ ∀ m, m ∈ modalities →
          ¬ (Modality.id m = CreateAppointment.modality_id appointmentData
             ∧ Modality.user_id m = default "" user)) →
  CreateAppointment.mutationFn user modalities modalityFailure insert appointmentData
  = ([], Rejected {| message := "Modalidade não encontrada" |}).
Proof.
  intros Hu Hmissing. unfold CreateAppointment.mutationFn. rewrite Hu.
  unfold CreateAppointment.selectModalityValor, CreateAppointment.single.
  destruct Hmissing as [[e ->]|Hnone]; [done |].
  destruct modalityFailure; [done |].
  assert (filter (λ m, Modality.id m = CreateAppointment.modality_id appointmentData
                       ∧ Modality.user_id m = default "" user) modalities = [])
    as ->; [| done].
  apply elem_of_nil_inv. intros m Hm.
  apply list_elem_of_filter in Hm as [Hm Hin]. by apply (Hnone m).
Qed.

Import QueryCache.

(** X7. The update handler replaces records where they stand: the ids of the
    cached list, in order, are the same afterwards; every record is the
    updated one or an old one with another id; and when no cached record
    has the id, the list is left as it is (the updated record is not
    added). *)
Theorem cache_update_replaces_in_place
    (updatedAppointment : AppointmentWithModality.t)
    (old : list AppointmentWithModality.t) :
  idOf <$> onUpdated updatedAppointment (Some old) = idOf <$> old
  ∧ Forall (λ a, a = updatedAppointment
                 ∨ (a ∈ old ∧ idOf a ≠ idOf updatedAppointment))
           (onUpdated updatedAppointment (Some old))
  ∧ (Forall (λ a, idOf a ≠ idOf updatedAppointment) old →
     onUpdated updatedAppointment (Some old) = old).
Proof.
  unfold onUpdated. split; [| split].
  - rewrite <- list_fmap_compose. apply list_fmap_ext. intros _ a _. simpl.
    by destruct (String.eqb_spec (idOf a) (idOf updatedAppointment)).
  - apply Forall_fmap, Forall_forall. intros a Hin. simpl.
    destruct (String.eqb_spec (idOf a) (idOf updatedAppointment)); [by left | by right].
  - intros Hnone. rewrite <- (list_fmap_id old) at 2.
    apply Forall_fmap_ext_1. eapply Forall_impl; [exact Hnone |].
    intros a Ha. simpl. by apply String.eqb_neq in Ha as ->.
Qed.

Lemma cache_update_witness :
  onUpdated (Samples.plain (Samples.appointment "a9" "pago" 10))
    (Some Samples.threeAppointments)
  = Samples.threeAppointments.
Proof.
  apply (cache_update_replaces_in_place
           (Samples.plain (Samples.appointment "a9" "pago" 10))
           Samples.threeAppointments).
  repeat constructor; discriminate.
Defined.

(** X8. Removing from the cache the id of a record just put in front of it
    gives back the cache without the records of that id: the cache itself
    when the id was new. No record of the id is left. *)
Theorem cache_delete_undoes_create (newAppointment : AppointmentWithModality.t)
    (old : list AppointmentWithModality.t) :
  onDeleted (idOf newAppointment) (Some (onCreated newAppointment (Some old)))
  = onDeleted (idOf newAppointment) (Some old)
  ∧ Forall (λ a, idOf a ≠ idOf newAppointment)
           (onDeleted (idOf newAppointment) (Some old))
  ∧ (Forall (λ a, idOf a ≠ idOf newAppointment) old →
     onDeleted (idOf newAppointment)
       (Some (onCreated newAppointment (Some old))) = old).
Proof.
  unfold onDeleted, onCreated. rewrite filter_cons_False by (intros H; by apply H).
  split; [done |]. split.
  - apply Forall_forall. intros a Ha. by apply list_elem_of_filter in Ha as [? _].
  - intros Hfresh. induction Hfresh as [|a l Ha _ IH]; [done |].
    by rewrite filter_cons_True, IH.
Qed.

Lemma cache_delete_witness :
  onDeleted (idOf (Samples.plain (Samples.appointment "a9" "pago" 10)))
    (Some (onCreated (Samples.plain (Samples.appointment "a9" "pago" 10))
             (Some Samples.threeAppointments)))
  = Samples.threeAppointments.
Proof.
  apply (cache_delete_undoes_create
           (Samples.plain (Samples.appointment "a9" "pago" 10))
           Samples.threeAppointments).
  repeat constructor; discriminate.
Defined.

Import UpdateAppointment.

Lemma targeted_applyPatch (id userId : string) (updateData : UpdateAppointmentData)
    (row : Appointment.t) :
  targeted id userId (applyPatch updateData row) = targeted id userId row.
Proof. done. Qed.

Lemma updateRows_frame (failure : option PostgrestError)
    (appointments : list Appointment.t) (id userId : string)
    (updateData : UpdateAppointmentData) :
  let stored := (updateRows failure appointments id userId updateData).1 in
  Appointment.id <$> stored = Appointment.id <$> appointments
  ∧ Appointment.user_id <$> stored = Appointment.user_id <$> appointments
  ∧ Appointment.is_cortesia <$> stored = Appointment.is_cortesia <$> appointments
  ∧ filter (λ row, targeted id userId row = false) stored
    = filter (λ row, targeted id userId row = false) appointments.
Proof.
  unfold updateRows. destruct failure; [done |]. cbv zeta.
  destruct (applyPatch updateData <$> filter _ appointments) as [|r [|r' rest]];
    [done | | done].
  simpl. clear r.
  rewrite <- !list_fmap_compose.
  repeat split; try (apply list_fmap_ext; intros _ row _; simpl;
                     by destruct (targeted id userId row)).
  induction appointments as [|row l IH]; [done |].
  rewrite fmap_cons, !filter_cons, IH.
  destruct (targeted id userId row) eqn:Ht.
  - rewrite targeted_applyPatch, Ht. by repeat case_decide.
  - rewrite Ht. by repeat case_decide.
Qed.

(** X9. An update changes rows of the given id in the caller's account only:
    ids, accounts and complimentary flags of all rows, in order, are as
    before, and the rows with another id or of another account are
    untouched, whatever the outcome. *)
Theorem update_touches_only_targeted_rows (user : option string) (env : Env)
    (cache : RelatedData.Cache) (appointments : list Appointment.t)
    (id : string) (data : UpdateAppointmentData) :
  let res := mutationFn user env cache appointments id data in
  Appointment.id <$> stored res = Appointment.id <$> appointments
  ∧ Appointment.user_id <$> stored res = Appointment.user_id <$> appointments
  ∧ Appointment.is_cortesia <$> stored res
    = Appointment.is_cortesia <$> appointments
  ∧ filter (λ row, targeted id (default "" user) row = false) (stored res)
    = filter (λ row, targeted id (default "" user) row = false) appointments.
Proof.
  unfold mutationFn. destruct (truthy user); [| done].
  destruct (truthy (modality_id data)).
  - destruct (modalityPrice _ _ _ _) as [[thrown|valor] asked]; [done |].
    match goal with
    | |- context [updateRows ?f ?l ?i ?u ?d] =>
        pose proof (updateRows_frame f l i u d) as Hframe;
        destruct (updateRows f l i u d) as [stored' resp]
    end.
    exact Hframe.
  - match goal with
    | |- context [updateRows ?f ?l ?i ?u ?d] =>
        pose proof (updateRows_frame f l i u d) as Hframe;
        destruct (updateRows f l i u d) as [stored' resp]
    end.
    exact Hframe.
Qed.

(** When the update names a modality whose record is in the cache of the
    account, the store is not asked for the price, and the value sent is
    the cached price, whatever value the caller supplied. *)
Theorem update_prices_changed_modality_from_cache (user : option string)
    (env : Env) (cache : RelatedData.Cache) (appointments : list Appointment.t)
    (id mid : string) (data : UpdateAppointmentData) (cached : ModalityRef.t) :
  truthy user = true →
  modality_id data = Some mid → mid ≠ "" →
  RelatedData.modalitiesCache cache !! default "" user ≫= (λ m, m !! mid)
    = Some cached →
  let res := mutationFn user env cache appointments id data in
  askedModality res = false
  ∧ sent res = Some {| client_id := client_id data; date := date data;
                       modality_id := Some mid; status := status data;
                       valor_total := Some (ModalityRef.valor cached) |}.
Proof.
  intros Hu Hmid Hne Hcached. unfold mutationFn. rewrite Hu, Hmid.
  assert (truthy (Some mid) = true) as ->
    by (simpl; by apply String.eqb_neq in Hne as ->).
  change (default "" (Some mid)) with mid.
  unfold modalityPrice. cbv zeta. rewrite Hcached.
  by destruct (updateRows _ _ _ _ _).
Qed.

(** X10. The update does not look at the complimentary flag: changing the
    modality of a complimentary appointment stores the price of the
    modality as its value, and the flag stays set.  (Ids are the key of
    the appointments.) *)
Theorem update_of_modality_prices_complimentary_appointment
    (user : option string) (env : Env) (cache : RelatedData.Cache)
    (appointments : list Appointment.t) (id mid : string)
    (data : UpdateAppointmentData) (cached : ModalityRef.t) (row : Appointment.t) :
  truthy user = true → updateFailure env = None →
  modality_id data = Some mid → mid ≠ "" →
  RelatedData.modalitiesCache cache !! default "" user ≫= (λ m, m !! mid)
    = Some cached →
  NoDup (Appointment.id <$> appointments) →
  row ∈ appointments →
  Appointment.id row = id → Appointment.user_id row = default "" user →
  Appointment.is_cortesia row = true →
  ∃ row', row' ∈ stored (mutationFn user env cache appointments id data)
          ∧ Appointment.id row' = id
          ∧ Appointment.is_cortesia row' = true
          ∧ Appointment.valor_total row' = ModalityRef.valor cached
          ∧ outcome (mutationFn user env cache appointments id data)
            = Resolved (Some row').
Proof.
  intros Hu Hfail Hmid Hne Hcached Hkey Hin Hid Huser Hcortesia.
  unfold mutationFn. rewrite Hu, Hmid.
  assert (truthy (Some mid) = true) as ->
    by (simpl; by apply String.eqb_neq in Hne as ->).
  change (default "" (Some mid)) with mid.
  unfold modalityPrice. cbv zeta. rewrite Hcached.
  unfold updateRows. rewrite Hfail. cbv zeta.
  assert (targeted id (default "" user) row = true) as Ht
    by (unfold targeted; by rewrite Hid, Huser, !String.eqb_refl).
  rewrite (KeyFacts.filter_unique Appointment.id _ appointments row Hkey Hin Ht).
  2: { intros y _ Hy. unfold targeted in Hy. apply andb_true_iff in Hy as [Hy _].
       apply String.eqb_eq in Hy. congruence. }
  cbn [fmap list_fmap stored outcome CreateAppointment.single Supabase.error
       Supabase.data ok].
  set (updateData := {| client_id := client_id data; date := date data;
                        modality_id := Some mid; status := status data;
                        valor_total := Some (ModalityRef.valor cached) |}).
  exists (applyPatch updateData row). split; [| by repeat split].
  apply list_elem_of_fmap. exists row. split; [| done]. by rewrite Ht.
Qed.

(** X11. A modality that is neither cached nor found in the account stops the
    update: nothing is sent and the appointments are as before. *)
Theorem update_rejects_unknown_modality (user : option string) (env : Env)
    (cache : RelatedData.Cache) (appointments : list Appointment.t)
    (id mid : string) (data : UpdateAppointmentData) :
  truthy user = true →
  modality_id data = Some mid → mid ≠ "" →
  RelatedData.modalitiesCache cache !! default "" user ≫= (λ m, m !! mid) = None →
  (∀ m, m ∈ modalities env →
        ¬ (Modality.id m = mid ∧ Modality.user_id m = default "" user)) →
  mutationFn user env cache appointments id data
  = {| stored := appointments; askedModality := true; sent := None;
       outcome := Rejected {| message := "Modalidade não encontrada" |} |}.
Proof.
  intros Hu Hmid Hne Hcached Hnone. unfold mutationFn. rewrite Hu, Hmid.
  assert (truthy (Some mid) = true) as ->
    by (simpl; by apply String.eqb_neq in Hne as ->).
  change (default "" (Some mid)) with mid.
  unfold modalityPrice. cbv zeta. rewrite Hcached.
  unfold CreateAppointment.selectModalityValor, CreateAppointment.single.
  assert (filter (λ m, Modality.id m = mid ∧ Modality.user_id m = default "" user)
                 (modalities env) = []) as ->.
  { apply elem_of_nil_inv. intros m Hm.
    apply list_elem_of_filter in Hm as [Hm Hin]. by apply (Hnone m). }
  by destruct (modalityFailure env).
Qed.


(** With no modality in the store, the creation is rejected. *)
Lemma create_appointment_unknown_modality_witness :
  CreateAppointment.mutationFn (Some "u1") [] None Samples.insertEcho
    (Samples.createData None CreateAppointment.Undefined)
  = ([], Rejected {| message := "Modalidade não encontrada" |}).
Proof.
  apply (create_appointment_rejects_unknown_modality (Some "u1") [] None
           Samples.insertEcho
           (Samples.createData None CreateAppointment.Undefined)).
  - reflexivity.
  - right. intros m Hm. by apply elem_of_nil in Hm.
Defined.

(** A complimentary appointment moved to the cached modality [m1] is
    stored with the price 120 of that modality. *)
Lemma update_complimentary_witness :
  ∃ row', row' ∈ stored (mutationFn (Some "u1") MoreSamples.updateEnv
                           MoreSamples.pricedCache [MoreSamples.complimentary]
                           "a1" (MoreSamples.changeModality "m1"))
          ∧ Appointment.id row' = "a1"
          ∧ Appointment.is_cortesia row' = true
          ∧ Appointment.valor_total row' = 120.
Proof.
  destruct (update_of_modality_prices_complimentary_appointment (Some "u1")
              MoreSamples.updateEnv MoreSamples.pricedCache
              [MoreSamples.complimentary] "a1" "m1"
              (MoreSamples.changeModality "m1") MoreSamples.futsal
              MoreSamples.complimentary)
    as (row' & Hin & Hid & Hflag & Hvalue & _).
  - reflexivity.
  - reflexivity.
  - reflexivity.
  - discriminate.
  - reflexivity.
  - apply NoDup_singleton.
  - left.
  - reflexivity.
  - reflexivity.
  - reflexivity.
  - exists row'. repeat split; assumption.
Defined.

Lemma update_unknown_modality_witness :
  mutationFn (Some "u1") MoreSamples.updateEnv Samples.emptyCache
    MoreSamples.oneRow "a1" (MoreSamples.changeModality "m1")
  = {| stored := MoreSamples.oneRow; askedModality := true; sent := None;
       outcome := Rejected {| message := "Modalidade não encontrada" |} |}.
Proof.
  apply (update_rejects_unknown_modality (Some "u1") MoreSamples.updateEnv
           Samples.emptyCache MoreSamples.oneRow "a1" "m1"
           (MoreSamples.changeModality "m1")).
  - reflexivity.
  - reflexivity.
  - discriminate.
  - reflexivity.
  - intros m Hm. by apply elem_of_nil in Hm.
Defined.

End MutationFacts.

(** ** Bookings of the portal, one after the other *)

Module BookingSequenceFacts.

Import CreateBooking CreateBookingFacts.

Section Host.

Context `{!JsString.Builtins}.

Lemma newBookingRow_fields (env : Env) (bookingData : CreateClientBookingData)
    (clientId : string) :
  Appointment.user_id (newBookingRow env bookingData clientId) = user_id bookingData
  ∧ Appointment.date (newBookingRow env bookingData clientId) = date bookingData
  ∧ Appointment.status (newBookingRow env bookingData clientId) = "agendado"
  ∧ Appointment.booking_source (newBookingRow env bookingData clientId) = "online"
  ∧ Appointment.payment_status (newBookingRow env bookingData clientId)
    = Some "not_required".
Proof. unfold newBookingRow. simpl. by case_bool_decide. Qed.

(** A booking that succeeds has added its row, and only that, to the
    appointments. *)
Lemma resolved_booking_is_stored (env : Env) (db db' : Db)
    (bookingData : CreateClientBookingData) (row : Appointment.t) :
  mutationFn env db bookingData = (db', Resolved row) →
  appointments db' = appointments db ++ [row]
  ∧ Appointment.user_id row = user_id bookingData
  ∧ Appointment.date row = date bookingData
  ∧ Appointment.status row = "agendado"
  ∧ Appointment.id row = newAppointmentId env.
Proof.
  unfold mutationFn.
  pose proof (resolveClient_appointments env db bookingData) as Hres.
  destruct (resolveClient env db bookingData) as [db1 [thrown|clientId]];
    simpl in Hres; [done |].
  destruct (truthy clientId); simpl; [| done].
  destruct (slotQueryFailure env); [done |].
  destruct (0 <? _); [done |].
  destruct (appointmentInsertFailure env); [done |].
  intros [= <- <-]. simpl. rewrite Hres.
  destruct (newBookingRow_fields env bookingData (default "" clientId))
    as (? & ? & ? & _).
  done.
Qed.

(** X12. After a booking succeeded, no later booking of the same account for
    the same date-time succeeds: it is rejected and adds no appointment. *)
Theorem second_booking_of_a_slot_is_rejected (env env' : Env) (db db' : Db)
    (bookingData bookingData' : CreateClientBookingData) (row : Appointment.t) :
  mutationFn env db bookingData = (db', Resolved row) →
  user_id bookingData' = user_id bookingData →
  date bookingData' = date bookingData →
  ∃ e, (mutationFn env' db' bookingData').2 = Rejected e
       ∧ appointments (mutationFn env' db' bookingData').1 = appointments db'.
Proof.
  intros Hfirst Hu Hd.
  apply resolved_booking_is_stored in Hfirst as (Happ & Hru & Hrd & Hrs & _).
  assert (∃ e, (mutationFn env' db' bookingData').2 = Rejected e) as [e He].
  { unfold mutationFn.
    pose proof (resolveClient_appointments env' db' bookingData') as Hres.
    destruct (resolveClient env' db' bookingData') as [db1 [thrown|clientId]];
      simpl in Hres; [by eexists |].
    destruct (truthy clientId); simpl; [| by eexists].
    destruct (slotQueryFailure env'); [by eexists |].
    rewrite (proj2 (occupying_nonempty _ _ _)); [by eexists |].
    exists row. rewrite Hres, Happ, Hu, Hd, Hrs.
    repeat split; [apply elem_of_app; right; left | done | done | discriminate]. }
  exists e. split; [done |].
  destruct (mutationFn env' db' bookingData') as [db2 out] eqn:Hsecond.
  simpl in *. subst out. by eapply rejected_keeps_appointments.
Qed.

Lemma mutationFn_booking_clients (env : Env) (db : Db)
    (bookingData : CreateClientBookingData) :
  booking_clients (mutationFn env db bookingData).1
  = booking_clients (resolveClient env db bookingData).1.
Proof.
  unfold mutationFn.
  destruct (resolveClient env db bookingData) as [db1 [thrown|clientId]];
    [done |]. simpl.
  destruct (truthy clientId); simpl; [| done].
  destruct (slotQueryFailure env); [done |].
  destruct (0 <? _); [done |].
  by destruct (appointmentInsertFailure env).
Qed.

(** X13. Two bookings that name the same e-mail address, up to surrounding
    white space and letter case, create one client record: the first call
    creates it under the folded address, the second finds it. *)
Theorem repeated_booking_reuses_created_client (env env' : Env) (db : Db)
    (bookingData bookingData' : CreateClientBookingData)
    (clientData clientData' : ClientData) :
  truthy (client_id bookingData) = false →
  client_data bookingData = Some clientData →
  clientLookupFailure env = None → clientInsertFailure env = None →
  (∀ c, c ∈ booking_clients db →
        ¬ (Client.email c = JsString.toLowerCase (JsString.trim (email clientData))
           ∧ Client.user_id c = user_id bookingData)) →
  truthy (client_id bookingData') = false →
  client_data bookingData' = Some clientData' →
  clientLookupFailure env' = None →
  user_id bookingData' = user_id bookingData →
  JsString.toLowerCase (JsString.trim (email clientData'))
    = JsString.toLowerCase (JsString.trim (email clientData)) →
  let db1 := (mutationFn env db bookingData).1 in
  (∃ created,
      booking_clients db1 = booking_clients db ++ [created]
      ∧ Client.id created = newClientId env
      ∧ Client.email created
        = JsString.toLowerCase (JsString.trim (email clientData)))
  ∧ booking_clients (mutationFn env' db1 bookingData').1 = booking_clients db1.
Proof.
  intros Hid Hcd Hlookup Hinsert Hnew Hid' Hcd' Hlookup' Hu Hemail db1.
  set (norm := JsString.toLowerCase (JsString.trim (email clientData))) in *.
  assert (filter (λ c, Client.email c = norm ∧ Client.user_id c = user_id bookingData)
                 (booking_clients db) = []) as Hfilter.
  { apply elem_of_nil_inv. intros c Hc.
    apply list_elem_of_filter in Hc as [Hc Hin]. by apply (Hnew c). }
  assert (∃ created,
             booking_clients db1 = booking_clients db ++ [created]
             ∧ Client.id created = newClientId env
             ∧ Client.email created = norm
             ∧ Client.user_id created = user_id bookingData)
    as (created & Hdb1 & Hcid & Hcemail & Hcuser).
  { unfold db1. rewrite mutationFn_booking_clients.
    unfold resolveClient. rewrite Hid, Hcd. cbv zeta. fold norm.
    rewrite Hfilter, Hlookup, Hinsert. simpl. by eexists. }
  split; [by exists created |].
  rewrite mutationFn_booking_clients.
  unfold resolveClient. rewrite Hid', Hcd'. cbv zeta.
  rewrite Hemail, Hu. fold norm.
  rewrite Hdb1, filter_app, Hfilter, Hlookup'. simpl.
  rewrite filter_cons_True, filter_nil by done. done.
Qed.

Import BookingMutations.

Lemma occupying_app (userId fullDateTime : string) (l1 l2 : list Appointment.t) :
  occupying userId fullDateTime (l1 ++ l2)
  = occupying userId fullDateTime l1 ++ occupying userId fullDateTime l2.
Proof. apply filter_app. Qed.

(** With ids as the key of the appointments, an update by id changes the
    rows of that id and no other. *)
Lemma updateBooking_stored (stored : list Appointment.t) (id : string)
    (data : UpdateClientBookingData) :
  NoDup (Appointment.id <$> stored) →
  (updateBooking None stored id data).1
  = (λ row, if String.eqb (Appointment.id row) id
            then applyPatch data row else row) <$> stored.
Proof.
  intros Hkey. unfold updateBooking. cbv zeta. cbn [fst].
  destruct (KeyFacts.filter_key Appointment.id id stored Hkey)
    as [Hnil|(x & _ & _ & Hone)].
  - rewrite Hnil. simpl. rewrite <- (list_fmap_id stored) at 1.
    apply list_fmap_ext. intros i row Hrow. simpl.
    destruct (String.eqb_spec (Appointment.id row) id) as [Heq|]; [| done].
    assert (row ∈ filter (λ r, Appointment.id r = id) stored) as Hin
      by (apply list_elem_of_filter; split; [done | by eapply list_elem_of_lookup_2]).
    rewrite Hnil in Hin. by apply elem_of_nil in Hin.
  - by rewrite Hone.
Qed.

(** X14. After [cancelBooking] no row of the cancelled id occupies a slot; when
    the cancelled booking was the only occupant of its slot, the slot is
    free, and a booking for it whose client is resolved is stored.  (Ids
    are the key of the appointments.) *)
Theorem cancelled_booking_frees_its_slot (stored : list Appointment.t)
    (clients : list Client.t) (id clientId : string) (env : Env)
    (bookingData : CreateClientBookingData) :
  let db := {| appointments := (cancelBooking None stored id).1;
               booking_clients := clients |} in
  NoDup (Appointment.id <$> stored) →
  (∀ a, a ∈ occupying (user_id bookingData) (date bookingData) stored →
        Appointment.id a = id) →
  resolveClient env db bookingData = (db, inr (Some clientId)) →
  clientId ≠ "" →
  slotQueryFailure env = None → appointmentInsertFailure env = None →
  occupying (user_id bookingData) (date bookingData) (appointments db) = []
  ∧ (mutationFn env db bookingData).2
    = Resolved (newBookingRow env bookingData clientId).
Proof.
  intros db Hkey Honly Hres Hne Hquery Hinsert.
  assert (occupying (user_id bookingData) (date bookingData) (appointments db) = [])
    as Hfree.
  { apply elem_of_nil_inv. intros a Ha.
    apply list_elem_of_filter in Ha as [(Hu & Hd & Hs) Hin].
    cbn [db appointments] in Hin. unfold cancelBooking in Hin.
    rewrite updateBooking_stored in Hin by done.
    apply list_elem_of_fmap in Hin as (a0 & -> & Hin0).
    destruct (String.eqb_spec (Appointment.id a0) id) as [Heq|Hneq].
    - by apply Hs.
    - apply Hneq, Honly. by apply list_elem_of_filter. }
  split; [done |].
  unfold mutationFn. rewrite Hres.
  assert (truthy (Some clientId) = true) as ->
    by (simpl; by apply String.eqb_neq in Hne as ->).
  simpl negb. cbv iota. rewrite Hquery. cbv zeta. rewrite Hfree, Hinsert. done.
Qed.

(** X15. [confirmBooking] checks nothing: when a booking was cancelled, its
    slot was booked again, and the cancelled booking is then confirmed, two
    appointments that are not cancelled hold the same slot.  (Ids are the
    key of the appointments, and the new booking gets an id of its own.) *)
Theorem confirming_a_cancelled_booking_can_double_book
    (stored : list Appointment.t) (clients : list Client.t) (id : string)
    (env : Env) (bookingData : CreateClientBookingData) (db' : Db)
    (first second : Appointment.t) :
  NoDup (Appointment.id <$> stored) → newAppointmentId env ≠ id →
  first ∈ stored → Appointment.id first = id →
  Appointment.user_id first = user_id bookingData →
  Appointment.date first = date bookingData →
  mutationFn env {| appointments := (cancelBooking None stored id).1;
                    booking_clients := clients |} bookingData
  = (db', Resolved second) →
  (2 ≤ length (occupying (user_id bookingData) (date bookingData)
                 (confirmBooking None (appointments db') id).1))%nat.
Proof.
  intros Hkey Hfresh Hin Hid Hu Hd Hbook.
  apply resolved_booking_is_stored in Hbook as (Happ & Hsu & Hsd & Hss & Hsid).
  cbn [appointments] in Happ. unfold cancelBooking in Happ.
  rewrite updateBooking_stored in Happ by done.
  set (g := λ row, if String.eqb (Appointment.id row) id
                   then applyPatch (onlyStatus "cancelado") row else row) in *.
  set (f := λ row, if String.eqb (Appointment.id row) id
                   then applyPatch (onlyStatus "agendado") row else row).
  assert (Appointment.id <$> (g <$> stored) = Appointment.id <$> stored) as Hids.
  { rewrite <- list_fmap_compose. apply list_fmap_ext. intros _ row _.
    unfold g. simpl. by destruct (String.eqb (Appointment.id row) id). }
  assert ((confirmBooking None (appointments db') id).1
          = f <$> (g <$> stored) ++ [second]) as ->.
  { rewrite Happ. unfold confirmBooking, updateBooking. cbv zeta. cbn [fst].
    rewrite filter_app, (filter_cons_False _ second), filter_nil, app_nil_r
      by (rewrite Hsid; done).
    rewrite (KeyFacts.filter_unique Appointment.id _ (g <$> stored) (g first));
      [done | by rewrite Hids | by apply list_elem_of_fmap_2 | | ].
    - unfold g. by rewrite Hid, String.eqb_refl.
    - intros y _ Hy. rewrite Hy. unfold g. by rewrite Hid, String.eqb_refl. }
  rewrite fmap_app, occupying_app, length_app.
  assert (f (g first) ∈ occupying (user_id bookingData) (date bookingData)
                          (f <$> (g <$> stored))) as H1.
  { apply list_elem_of_filter. split.
    - unfold f, g. rewrite Hid, String.eqb_refl. simpl.
      rewrite Hid, String.eqb_refl. simpl. by repeat split.
    - by do 2 apply list_elem_of_fmap_2. }
  assert (f second ∈ occupying (user_id bookingData) (date bookingData)
                       (f <$> [second])) as H2.
  { apply list_elem_of_filter. split; [| apply list_elem_of_fmap_2; left].
    unfold f. destruct (String.eqb (Appointment.id second) id); simpl;
      rewrite ?Hss; by repeat split. }
  destruct (occupying _ _ (f <$> (g <$> stored))); [by apply elem_of_nil in H1 |].
  destruct (occupying _ _ (f <$> [second])); [by apply elem_of_nil in H2 |].
  simpl. lia.
Qed.

End Host.

Import BookingMutations.

#[local] Existing Instance AsciiText.builtins.

(** Booking the same slot twice in an empty store: the second call is
    rejected. *)
Lemma second_booking_witness :
  let bookingData := Samples.booking (Some "c1") None Samples.slot in
  let db' := (mutationFn Samples.bookingEnv MoreSamples.emptyBookingDb bookingData).1 in
  ∃ e, (mutationFn Samples.bookingEnv db' bookingData).2 = Rejected e
       ∧ appointments (mutationFn Samples.bookingEnv db' bookingData).1
         = appointments db'.
Proof.
  intros bookingData db'.
  apply (second_booking_of_a_slot_is_rejected Samples.bookingEnv
           Samples.bookingEnv MoreSamples.emptyBookingDb db' bookingData
           bookingData (newBookingRow Samples.bookingEnv bookingData "c1")).
  - reflexivity.
  - reflexivity.
  - reflexivity.
Defined.

(** Bia books twice, writing her address in two ways: one client record. *)
Lemma repeated_booking_witness :
  let first := Samples.booking None (Some Samples.newcomer) Samples.slot in
  let second :=
    Samples.booking None (Some MoreSamples.newcomerAgain) "2024-05-11T10:00:00" in
  let db1 := (mutationFn Samples.bookingEnv MoreSamples.emptyBookingDb first).1 in
  length (booking_clients db1) = 1%nat
  ∧ booking_clients (mutationFn Samples.bookingEnv db1 second).1
    = booking_clients db1.
Proof.
  intros first second db1.
  destruct (repeated_booking_reuses_created_client Samples.bookingEnv
              Samples.bookingEnv MoreSamples.emptyBookingDb first second
              Samples.newcomer MoreSamples.newcomerAgain) as [_ Hsame].
  - reflexivity.
  - reflexivity.
  - reflexivity.
  - reflexivity.
  - intros c Hc. by apply elem_of_nil in Hc.
  - reflexivity.
  - reflexivity.
  - reflexivity.
  - reflexivity.
  - reflexivity.
  - split; [reflexivity | exact Hsame].
Defined.

(** The slot of the one booking is free again once it is cancelled. *)
Lemma cancelled_booking_witness :
  let bookingData := Samples.booking (Some "c1") None Samples.slot in
  occupying "u1" Samples.slot (appointments MoreSamples.cancelledDb) = []
  ∧ (mutationFn Samples.bookingEnv MoreSamples.cancelledDb bookingData).2
    = Resolved (newBookingRow Samples.bookingEnv bookingData "c1").
Proof.
  intros bookingData.
  apply (cancelled_booking_frees_its_slot MoreSamples.oneRow [] "a1" "c1"
           Samples.bookingEnv bookingData).
  - apply NoDup_singleton.
  - intros a Ha. apply list_elem_of_filter in Ha as [_ Ha].
    apply list_elem_of_singleton in Ha as ->. reflexivity.
  - reflexivity.
  - discriminate.
  - reflexivity.
  - reflexivity.
Defined.

(** Cancel, book again, confirm the cancelled one: two in the slot. *)
Lemma double_booking_witness :
  let bookingData := Samples.booking (Some "c1") None Samples.slot in
  let db' := (mutationFn Samples.bookingEnv MoreSamples.cancelledDb bookingData).1 in
  (2 ≤ length (occupying "u1" Samples.slot
                 (confirmBooking None (appointments db') "a1").1))%nat.
Proof.
  intros bookingData db'.
  apply (confirming_a_cancelled_booking_can_double_book MoreSamples.oneRow []
           "a1" Samples.bookingEnv bookingData db'
           (Samples.appointment "a1" "agendado" 120)
           (newBookingRow Samples.bookingEnv bookingData "c1")).
  - apply NoDup_singleton.
  - discriminate.
  - left.
  - reflexivity.
  - reflexivity.
  - reflexivity.
  - reflexivity.
Defined.

End BookingSequenceFacts.

(** ** The client list: deletes that fail *)

Module ClientsFailureFacts.

Import Queries Clients.

Section Host.

Context `{!JsString.Builtins}.

(** When the delete of the appointments fails, the handler stops there:
    the delete of the client is never sent, the store is as it was, and the
    dialog stays open on the same client with the error in a toast. *)
Theorem delete_client_stops_at_failed_appointment_delete (userId : string)
    (env : Env) (db : Db) (client : Client.t) (st : State) (e : PostgrestError) :
  clientToDelete st = Some client → appointmentsForClient st ≠ [] →
  deleteAppointmentsFailure env = Some e →
  let '(st', db', sent) := handleDeleteClient userId env db st in
  sent = [DeleteAppointments (Client.id client) userId]
  ∧ db' = db
  ∧ clientToDelete st' = Some client
  ∧ clients st' = clients st
  ∧ appointmentsForClient st' = appointmentsForClient st
  ∧ isDeleting st' = false
  ∧ toasts st' = toasts st ++ [destructive "Erro ao excluir cliente" (message e)].
Proof.
  intros Hc Hl He. unfold handleDeleteClient. rewrite Hc.
  destruct (appointmentsForClient st) as [|a l] eqn:Hl'; [done |].
  simpl. rewrite He. simpl. by rewrite ?Hc, ?Hl'.
Qed.

(** X16. The two deletes are not one transaction: when the appointments were
    deleted and the delete of the client then fails, the appointments are
    gone from the store, the client is still there, and the dialog still
    lists the appointments it had loaded. *)
Theorem failed_client_delete_leaves_appointments_deleted (userId : string)
    (env : Env) (db : Db) (client : Client.t) (st : State) (e : PostgrestError) :
  clientToDelete st = Some client → appointmentsForClient st ≠ [] →
  deleteAppointmentsFailure env = None → deleteClientFailure env = Some e →
  let '(st', db', sent) := handleDeleteClient userId env db st in
  sent = [DeleteAppointments (Client.id client) userId;
          DeleteClient (Client.id client) userId]
  ∧ appointmentsOf (Client.id client) userId (appointments db') = []
  ∧ appointments db' = appointmentsNotOf (Client.id client) userId (appointments db)
  ∧ booking_clients db' = booking_clients db
  ∧ clientToDelete st' = Some client
  ∧ clients st' = clients st
  ∧ appointmentsForClient st' = appointmentsForClient st
  ∧ toasts st' = toasts st ++ [destructive "Erro ao excluir cliente" (message e)].
Proof.
  intros Hc Hl Ha He. unfold handleDeleteClient. rewrite Hc.
  destruct (appointmentsForClient st) as [|a l] eqn:Hl'; [done |].
  simpl. rewrite Ha, He. simpl. rewrite ?Hc, ?Hl'.
  repeat split.
  apply elem_of_nil_inv. intros x Hx. unfold appointmentsOf, appointmentsNotOf in Hx.
  apply list_elem_of_filter in Hx as [Hx Hin].
  apply list_elem_of_filter in Hin as [Hnot _]. done.
Qed.

(** X17. When the lookup of the appointments fails as the dialog opens, the
    dialog lists none: the confirm button needs no typed name, and the
    handler sends the delete of the client alone, so the appointments of
    the client stay in the store. *)
Theorem failed_appointment_lookup_removes_confirmation (userId : string)
    (env : Env) (db : Db) (client : Client.t) (st : State) (e : PostgrestError) :
  appointmentsQueryFailure env = Some e → isDeleting st = false →
  deleteClientFailure env = None →
  let opened := openDeleteModal userId env db client st in
  appointmentsForClient opened = []
  ∧ toasts opened
    = toasts st ++ [destructive "Erro ao buscar agendamentos" (message e)]
  ∧ deleteDisabled opened = false
  ∧ (handleDeleteClient userId env db opened).2
    = [DeleteClient (Client.id client) userId]
  ∧ appointments (handleDeleteClient userId env db opened).1.2 = appointments db.
Proof.
  intros Hq Hd Hc. unfold openDeleteModal. rewrite Hq. cbv zeta.
  unfold deleteDisabled, handleDeleteClient. simpl. rewrite Hd, Hc. done.
Qed.


End Host.

#[local] Existing Instance AsciiText.builtins.

(** Ana's appointment is deleted, Ana is not. *)
Lemma failed_client_delete_witness :
  let '(st', db', sent) :=
    handleDeleteClient "u1" MoreSamples.clientDeleteFails Samples.clientsDb
      (Samples.dialog "Ana") in
  sent = [DeleteAppointments "c1" "u1"; DeleteClient "c1" "u1"]
  ∧ appointmentsOf "c1" "u1" (appointments db') = []
  ∧ booking_clients db' = [Samples.ana]
  ∧ clientToDelete st' = Some Samples.ana.
Proof.
  pose proof (failed_client_delete_leaves_appointments_deleted "u1"
                MoreSamples.clientDeleteFails Samples.clientsDb Samples.ana
                (Samples.dialog "Ana") MoreSamples.timeout) as H.
  destruct (handleDeleteClient "u1" MoreSamples.clientDeleteFails
              Samples.clientsDb (Samples.dialog "Ana")) as [[st' db'] sent].
  destruct H as (Hsent & Hnone & _ & Hclients & Hopen & _).
  - reflexivity.
  - discriminate.
  - reflexivity.
  - reflexivity.
  - repeat split; assumption.
Defined.

(** The dialog of Ana opened while the lookup fails: no name is asked
    for, and her appointment outlives her. *)
Lemma failed_appointment_lookup_witness :
  let opened :=
    openDeleteModal "u1" MoreSamples.lookupFails Samples.clientsDb Samples.ana
      Samples.clientsPage in
  deleteDisabled opened = false
  ∧ (handleDeleteClient "u1" MoreSamples.lookupFails Samples.clientsDb opened).2
    = [DeleteClient "c1" "u1"]
  ∧ appointments
      (handleDeleteClient "u1" MoreSamples.lookupFails Samples.clientsDb opened).1.2
    = appointments Samples.clientsDb.
Proof.
  intros opened.
  destruct (failed_appointment_lookup_removes_confirmation "u1"
              MoreSamples.lookupFails Samples.clientsDb Samples.ana
              Samples.clientsPage MoreSamples.timeout)
    as (_ & _ & Hbutton & Hsent & Hkept).
  - reflexivity.
  - reflexivity.
  - reflexivity.
  - repeat split; assumption.
Defined.

End ClientsFailureFacts.

(** ** The client portal page *)

Module PortalPageFacts.

Import PortalPage.

Section Tabs.

Variable parseISO : string → Date.

(** X18. The two tabs read the clock separately, at [t1] and at [t2].  An
    appointment is in both exactly when it is not cancelled and its date
    lies strictly between the readings; it is in neither exactly when it
    is not cancelled and its date does not parse or lies from the second
    reading to the first, both included.  At one reading the first case is
    empty and the second is the appointment dated at that very instant. *)
Theorem portal_tabs_overlap_and_gap (t1 t2 : Z) (a : Agendamento) :
  (isFuturo parseISO t1 a = true ∧ isPassado parseISO t2 a = true
   ↔ Appointment.status (apt a) ≠ "cancelado"
     ∧ ∃ ms, parseISO (Appointment.date (apt a)) = Time ms ∧ t1 < ms < t2)
  ∧ (isFuturo parseISO t1 a = false ∧ isPassado parseISO t2 a = false
     ↔ Appointment.status (apt a) ≠ "cancelado"
       ∧ (parseISO (Appointment.date (apt a)) = InvalidDate
          ∨ ∃ ms, parseISO (Appointment.date (apt a)) = Time ms ∧ t2 ≤ ms ≤ t1)).
Proof.
  unfold isFuturo, isPassado. cbv zeta.
  destruct (String.eqb_spec (Appointment.status (apt a)) "cancelado") as [Hs|Hs];
    destruct (parseISO (Appointment.date (apt a))) as [|ms]; simpl;
    rewrite ?andb_false_r, ?andb_true_r, ?orb_false_r, ?orb_true_r.
  - split; split; intros [? ?]; done.
  - split; split; intros [? ?]; done.
  - split; split.
    + intros [? ?]; done.
    + intros [_ (ms & ? & _)]. done.
    + intros _. split; [done | by left].
    + done.
  - split; split.
    + intros [H1 H2]. apply Z.ltb_lt in H1, H2. split; [done |].
      exists ms. split; [done | lia].
    + intros [_ (ms' & [= <-] & H1 & H2)]. split; by apply Z.ltb_lt.
    + intros [H1 H2]. apply Z.ltb_ge in H1, H2. split; [done |]. right.
      exists ms. split; [done | lia].
    + intros [_ [?|(ms' & [= <-] & H1 & H2)]]; [done |].
      split; by apply Z.ltb_ge.
Qed.

End Tabs.

Lemma maybeSingle_nil {T} (failure : option PostgrestError) :
  data (@maybeSingle T failure []) = None.
Proof. unfold maybeSingle. by destruct failure. Qed.

(** X19. [handleCancelar] cancels nothing that is not the client's own: when no
    appointment of the given id carries the client's id, nor belongs to the
    account with a joined client of the client's e-mail address, the store
    and the list are left as they were and the client is told so. *)
Theorem portal_cancel_requires_own_appointment (env : Env) (me : PortalClient)
    (adminUserId agendamentoId : string) (db : Db) (st : State) :
  (∀ row, row ∈ appointments db → Appointment.id row = agendamentoId →
     Appointment.client_id row ≠ Some (clientId me)
     ∧ (Appointment.user_id row = adminUserId →
        email <$> client (join (booking_clients db) row)
        ≠ Some (clientEmail me))) →
  handleCancelar true env me adminUserId agendamentoId db st
  = ({| agendamentos := agendamentos st; cancelingId := None;
        alerts := alerts st
                  ++ ["Erro ao verificar agendamento. Tente novamente."] |}, db).
Proof.
  intros Hnot.
  assert (findOwn env db me adminUserId agendamentoId = None) as Hown.
  { unfold findOwn. cbv zeta.
    assert (filter (λ row, Appointment.id row = agendamentoId
                           ∧ Appointment.client_id row = Some (clientId me))
                   (appointments db) = []) as ->.
    { apply elem_of_nil_inv. intros row Hrow.
      apply list_elem_of_filter in Hrow as [[Hid Hc] Hin].
      by destruct (Hnot row Hin Hid). }
    rewrite maybeSingle_nil.
    assert (∀ X : option Appointment.t,
              match Supabase.error (@maybeSingle Appointment.t (fetchError1 env) [])
              with None => X | Some _ => X end = X) as Hsame
      by (intros X; by destruct (Supabase.error _)).
    rewrite Hsame. clear Hsame.
    unfold maybeSingle. destruct (fetchError2 env); [done |].
    destruct (filter _ (appointments db)) as [|r [|r' rest]] eqn:Hrows;
      [done | | done].
    simpl.
    assert (r ∈ filter (λ row, Appointment.id row = agendamentoId
                               ∧ Appointment.user_id row = adminUserId)
                       (appointments db)) as Hr by (rewrite Hrows; left).
    apply list_elem_of_filter in Hr as [[Hid Hu] Hin].
    destruct (Hnot r Hin Hid) as [_ Hemail].
    rewrite bool_decide_eq_false_2; [done |]. by apply Hemail. }
  unfold handleCancelar. simpl. by rewrite Hown.
Qed.

Lemma fmap_cancel_filter_id (updatedAt agendamentoId : string)
    (l : list Appointment.t) :
  filter (λ r, Appointment.id r = agendamentoId)
    ((λ row, if String.eqb (Appointment.id row) agendamentoId
             then cancelledAt updatedAt row else row) <$> l)
  = cancelledAt updatedAt <$> filter (λ r, Appointment.id r = agendamentoId) l.
Proof.
  induction l as [|a l IH]; [done |].
  rewrite fmap_cons.
  destruct (String.eqb_spec (Appointment.id a) agendamentoId) as [Heq|Hne].
  - rewrite !filter_cons_True by done. rewrite fmap_cons. by f_equal.
  - rewrite !filter_cons_False by done. done.
Qed.

Lemma fmap_cancel_filter_other (updatedAt agendamentoId : string)
    (l : list Appointment.t) :
  filter (λ r, Appointment.id r ≠ agendamentoId)
    ((λ row, if String.eqb (Appointment.id row) agendamentoId
             then cancelledAt updatedAt row else row) <$> l)
  = filter (λ r, Appointment.id r ≠ agendamentoId) l.
Proof.
  induction l as [|a l IH]; [done |].
  rewrite fmap_cons.
  destruct (String.eqb_spec (Appointment.id a) agendamentoId) as [Heq|Hne].
  - rewrite !filter_cons_False by (simpl; tauto). done.
  - rewrite !filter_cons_True by done. by f_equal.
Qed.

(** X20. A cancellation that goes through: the one appointment of that id, the
    client's own, is cancelled in the store, with the time stamp of the
    update, and no other row changes; in the list of the page every entry
    of that id is cancelled, so that it is off the tab of coming
    appointments and on the tab of past ones whenever the tabs are
    drawn. *)
Theorem portal_cancel_marks_and_moves_appointment (parseISO : string → Date)
    (env : Env) (me : PortalClient) (adminUserId agendamentoId : string)
    (db : Db) (st : State) (row : Appointment.t) :
  filter (λ r, Appointment.id r = agendamentoId) (appointments db) = [row] →
  Appointment.client_id row = Some (clientId me) →
  fetchError1 env = None → updateError env = None →
  let '(st', db') := handleCancelar true env me adminUserId agendamentoId db st in
  alerts st' = alerts st ++ ["Agendamento cancelado com sucesso!"]
  ∧ filter (λ r, Appointment.id r = agendamentoId) (appointments db')
    = [cancelledAt (nowISO env) row]
  ∧ filter (λ r, Appointment.id r ≠ agendamentoId) (appointments db')
    = filter (λ r, Appointment.id r ≠ agendamentoId) (appointments db)
  ∧ ∀ a, a ∈ agendamentos st' → Appointment.id (apt a) = agendamentoId →
         Appointment.status (apt a) = "cancelado"
         ∧ ∀ t, isFuturo parseISO t a = false ∧ isPassado parseISO t a = true.
Proof.
  intros Hone Hclient Hf1 Hupd.
  assert (findOwn env db me adminUserId agendamentoId = Some row) as Hown.
  { unfold findOwn. cbv zeta.
    assert (filter (λ r, Appointment.id r = agendamentoId
                         ∧ Appointment.client_id r = Some (clientId me))
                   (appointments db) = [row]) as ->.
    { rewrite (list_filter_iff _
                 (λ r, Appointment.client_id r = Some (clientId me)
                       ∧ Appointment.id r = agendamentoId)) by (intros; tauto).
      rewrite <- list_filter_filter, Hone. by rewrite filter_cons_True, filter_nil. }
    by rewrite Hf1. }
  unfold handleCancelar. simpl negb. cbv iota zeta. rewrite Hown, Hupd.
  cbn [alerts appointments agendamentos].
  split; [done |].
  split; [by rewrite fmap_cancel_filter_id, Hone |].
  split; [apply fmap_cancel_filter_other |].
  intros a Ha Hid.
  apply list_elem_of_fmap in Ha as (a0 & -> & _).
  destruct (String.eqb_spec (Appointment.id (apt a0)) agendamentoId) as [Heq|Hne];
    [| done].
  split; [done |]. intros t. unfold isFuturo, isPassado. simpl.
  by rewrite andb_false_r, orb_true_r.
Qed.

(** The patch of a list entry commutes with blanking its time stamp. *)
Lemma untimedEntry_patch (agendamentoId : string) (a : Agendamento) :
  untimedEntry
    (if String.eqb (Appointment.id (apt a)) agendamentoId
     then {| apt := cancelled (apt a); client := client a |} else a)
  = (if String.eqb (Appointment.id (apt (untimedEntry a))) agendamentoId
     then {| apt := cancelled (apt (untimedEntry a));
             client := client (untimedEntry a) |}
     else untimedEntry a).
Proof. simpl. by destruct (String.eqb (Appointment.id (apt a)) agendamentoId). Qed.

(** X21. The list of the page stays in step with the store in every column
    but the time stamp: if, time stamps apart, it shows with their joined
    clients the rows that some criterion selects, and the criterion does
    not look at what a cancellation changes, then it still does after
    [handleCancelar], however the call ends.  The time stamp is left out
    because the update writes [updated_at] to the store and the patch of
    the list entry does not. *)
Theorem portal_cancel_keeps_list_in_step_with_store
    (P : Appointment.t → Prop) `{!∀ r, Decision (P r)} (confirmed : bool)
    (env : Env) (me : PortalClient) (adminUserId agendamentoId : string)
    (db : Db) (st : State) :
  (∀ r, P (cancelledAt (nowISO env) r) ↔ P r) →
  untimedEntry <$> agendamentos st
  = untimedEntry <$> (join (booking_clients db) <$> filter P (appointments db)) →
  let '(st', db') :=
    handleCancelar confirmed env me adminUserId agendamentoId db st in
  untimedEntry <$> agendamentos st'
  = untimedEntry <$> (join (booking_clients db') <$> filter P (appointments db')).
Proof.
  intros HP Hst. unfold handleCancelar.
  destruct confirmed; simpl; [| done].
  destruct (findOwn _ _ _ _ _); [| done].
  destruct (updateError env); [done |].
  cbn [agendamentos appointments booking_clients].
  set (g := λ a, if String.eqb (Appointment.id (apt a)) agendamentoId
                 then {| apt := cancelled (apt a); client := client a |}
                 else a).
  set (f := λ row, if String.eqb (Appointment.id row) agendamentoId
                   then cancelledAt (nowISO env) row else row).
  assert (∀ l : list Agendamento,
            untimedEntry <$> (g <$> l) = g <$> (untimedEntry <$> l)) as Hswap.
  { intros l. rewrite <- !list_fmap_compose. apply list_fmap_ext.
    intros _ a _. apply untimedEntry_patch. }
  rewrite Hswap, Hst, <- Hswap. clear Hst Hswap.
  rewrite <- !list_fmap_compose.
  induction (appointments db) as [|r l IH]; [done |].
  rewrite fmap_cons.
  assert (P (f r) ↔ P r) as Hr
    by (unfold f; destruct (String.eqb _ _); [apply HP | done]).
  destruct (decide (P r)) as [Hp|Hp].
  - rewrite !filter_cons_True by tauto. rewrite !fmap_cons, IH. f_equal.
    unfold compose, f, g. cbn [apt join].
    by destruct (String.eqb (Appointment.id r) agendamentoId).
  - rewrite !filter_cons_False by tauto. apply IH.
Qed.

(** The store and the list do part in the time stamp: after Ana's
    cancellation the row of the store carries the time of the update, the
    entry of the list the one it had. *)
Lemma portal_cancel_time_stamp_example :
  let '(st', db') :=
    handleCancelar true MoreSamples.portalEnv MoreSamples.portalAna "u1" "a1"
      MoreSamples.portalDb MoreSamples.portalState in
  Appointment.updated_at <$> appointments db' = ["2024-05-09T15:30:00.000Z"]
  ∧ (λ a, Appointment.updated_at (apt a)) <$> agendamentos st'
    = ["2024-05-01T09:00:00.000Z"].
Proof. vm_compute. by split. Qed.

(** Eve cannot cancel the appointment of Ana. *)
Lemma portal_cancel_stranger_witness :
  handleCancelar true MoreSamples.portalEnv MoreSamples.portalEve "u1" "a1"
    MoreSamples.portalDb MoreSamples.portalState
  = ({| agendamentos := agendamentos MoreSamples.portalState;
        cancelingId := None;
        alerts := ["Erro ao verificar agendamento. Tente novamente."] |},
     MoreSamples.portalDb).
Proof.
  apply (portal_cancel_requires_own_appointment MoreSamples.portalEnv
           MoreSamples.portalEve "u1" "a1" MoreSamples.portalDb
           MoreSamples.portalState).
  intros row Hrow _. apply list_elem_of_singleton in Hrow as ->.
  split; [discriminate | intros _; vm_compute; discriminate].
Defined.

(** Ana cancels her appointment. *)
Lemma portal_cancel_own_witness :
  let '(st', db') :=
    handleCancelar true MoreSamples.portalEnv MoreSamples.portalAna "u1" "a1"
      MoreSamples.portalDb MoreSamples.portalState in
  alerts st' = ["Agendamento cancelado com sucesso!"]
  ∧ appointments db'
    = [cancelledAt "2024-05-09T15:30:00.000Z"
         (Samples.appointment "a1" "agendado" 120)].
Proof.
  pose proof (portal_cancel_marks_and_moves_appointment MoreSamples.parseDate
                MoreSamples.portalEnv MoreSamples.portalAna "u1" "a1"
                MoreSamples.portalDb MoreSamples.portalState
                (Samples.appointment "a1" "agendado" 120)) as H.
  destruct (handleCancelar true MoreSamples.portalEnv MoreSamples.portalAna
              "u1" "a1" MoreSamples.portalDb MoreSamples.portalState)
    as [st' db'] eqn:Hrun.
  destruct H as (Halert & _).
  - reflexivity.
  - reflexivity.
  - reflexivity.
  - reflexivity.
  - split; [exact Halert |]. by injection Hrun as <- <-.
Defined.

(** The page that lists every row of the store still does after Ana
    cancelled. *)
Lemma portal_cancel_in_step_witness :
  let '(st', db') :=
    handleCancelar true MoreSamples.portalEnv MoreSamples.portalAna "u1" "a1"
      MoreSamples.portalDb MoreSamples.portalState in
  untimedEntry <$> agendamentos st'
  = untimedEntry <$> (join (booking_clients db')
                        <$> filter (λ _, True) (appointments db')).
Proof.
  apply (portal_cancel_keeps_list_in_step_with_store (λ _, True) true
           MoreSamples.portalEnv MoreSamples.portalAna "u1" "a1"
           MoreSamples.portalDb MoreSamples.portalState).
  - done.
  - reflexivity.
Defined.

End PortalPageFacts.

(** ** The weekly dashboard page *)

Module DashboardPageFacts.

Import DashboardPage.

Section Page.

Variable tz : TimeZone.
Variable newDate : string → Date.
Variable parseHour : string → option Z.
Variable isTimeSlotBlocked : Date → string → bool.
Variable getAvailableHoursForDay : Date → list string.
Variable formatHour : Date → string.

(** X22. The card "A Cobrar" counts an appointment exactly when the colour
    function, for an appointment that is not complimentary, derives the
    status [a_cobrar] for it. *)
Theorem to_charge_card_agrees_with_status_colour (now : Z) (apt : DashAppointment) :
  newDate "" = InvalidDate →
  isToCharge tz newDate now apt
  = String.eqb
      (Dashboard.effectiveStatus tz now (status apt) (dateArgument newDate apt) false)
      "a_cobrar".
Proof.
  intros Hempty. unfold isToCharge, Dashboard.effectiveStatus, dateArgument.
  destruct (String.eqb_spec (status apt) "a_cobrar") as [Hs|Hs].
  { rewrite Hs. by destruct (String.eqb (date apt) ""). }
  destruct (String.eqb_spec (status apt) "agendado") as [Ha|Ha].
  - rewrite Ha.
    destruct (String.eqb_spec (date apt) "") as [Hd|Hd].
    + by rewrite Hd, Hempty.
    + by destruct (isBefore _ _).
  - apply String.eqb_neq in Hs. destruct (String.eqb (date apt) ""); by rewrite Hs.
Qed.

(** X23. A click on a free cell that is blocked opens nothing but the
    confirmation; confirming then opens the creation dialog on that day
    and time, and declining leaves every dialog as it was before the
    click. *)
Theorem blocked_slot_confirmation_opens_creation (day : Date)
    (timeSlot : string) (st : State) :
  getAppointmentForSlot tz newDate parseHour (appointments st) day timeSlot = None →
  isTimeSlotBlocked day timeSlot = true →
  let asked := handleCellClick tz newDate parseHour isTimeSlotBlocked day timeSlot st in
  isModalOpen asked = isModalOpen st
  ∧ isDetailsModalOpen asked = isDetailsModalOpen st
  ∧ isConfirmationModalOpen asked = true
  ∧ handleConfirmBlockedTimeSlot asked
    = {| appointments := appointments st; isModalOpen := true;
         selectedDate := Some day; selectedTime := Some timeSlot;
         isDetailsModalOpen := isDetailsModalOpen st;
         selectedAppointment := selectedAppointment st;
         isConfirmationModalOpen := false; blockedTimeSlot := None |}
  ∧ handleCancelBlockedTimeSlot asked
    = {| appointments := appointments st; isModalOpen := isModalOpen st;
         selectedDate := selectedDate st; selectedTime := selectedTime st;
         isDetailsModalOpen := isDetailsModalOpen st;
         selectedAppointment := selectedAppointment st;
         isConfirmationModalOpen := false; blockedTimeSlot := None |}.
Proof.
  intros Hfree Hblocked. unfold handleCellClick. rewrite Hfree, Hblocked. done.
Qed.

(** An hour is free on a day of the PDF exactly when it is one of the
    available hours of the day and no appointment of that day, whatever
    its status, is written with that hour. *)
Theorem free_hours_are_available_hours_without_appointment
    (l : list DashAppointment) (day : Date) (hour : string) :
  hour ∈ freeHoursOf tz newDate getAvailableHoursForDay formatHour l day
  ↔ hour ∈ getAvailableHoursForDay day
    ∧ ∀ apt, apt ∈ l → isSameDay tz (newDate (date apt)) day = true →
             formatHour (newDate (date apt)) ≠ hour.
Proof.
  unfold freeHoursOf. cbv zeta. rewrite list_elem_of_filter, list_elem_of_fmap.
  split.
  - intros [Hnot Hav]. split; [done |]. intros apt Hin Hday Heq.
    apply Hnot. exists apt. split; [done |]. by apply list_elem_of_filter.
  - intros [Hav Hnone]. split; [| done]. intros (apt & Heq & Hin).
    apply list_elem_of_filter in Hin as [Hday Hin]. by apply (Hnone apt).
Qed.

End Page.

(** *** The grid of free hours *)

Lemma bind_ext_in {A B} (f g : A → list B) (l : list A) :
  (∀ x, x ∈ l → f x = g x) → l ≫= f = l ≫= g.
Proof.
  induction l as [|a l IH]; intros Hext; [done |].
  rewrite !bind_cons, (Hext a) by left. f_equal.
  apply IH. intros x Hx. apply Hext. by right.
Qed.

Lemma row_major (row col : nat) :
  (col < 5)%nat →
  ((row * 5 + col) `div` 5 = row ∧ (row * 5 + col) `mod` 5 = col)%nat.
Proof.
  intros Hcol. split.
  - symmetry. apply (Nat.div_unique _ 5 row col); lia.
  - symmetry. apply (Nat.mod_unique _ 5 row col); lia.
Qed.

(** Five cells of a row, one after the other, are the next five indices. *)
Lemma bind_rows {B} (g : nat → list B) (rows : nat) :
  (seq 0 rows ≫= λ row, seq 0 5 ≫= λ col, g (row * 5 + col)%nat)
  = seq 0 (rows * 5) ≫= g.
Proof.
  induction rows as [|n IH]; [done |].
  rewrite (seq_S n 0), bind_app, IH.
  replace (S n * 5)%nat with (n * 5 + 5)%nat by lia.
  rewrite seq_app, bind_app. f_equal.
  simpl. rewrite !app_nil_r, Nat.add_0_r.
  by replace (n * 5 + 1)%nat with (S (n * 5)) by lia;
     replace (n * 5 + 2)%nat with (S (S (n * 5))) by lia;
     replace (n * 5 + 3)%nat with (S (S (S (n * 5)))) by lia;
     replace (n * 5 + 4)%nat with (S (S (S (S (n * 5))))) by lia.
Qed.

(** Indices past the end of the list print nothing. *)
Lemma bind_past_end {A B} (l : list A) (h : nat → A → list B) (n : nat) :
  (length l ≤ n)%nat →
  (seq 0 n ≫= λ k, match l !! k with Some x => h k x | None => [] end)
  = seq 0 (length l) ≫= λ k, match l !! k with Some x => h k x | None => [] end.
Proof.
  intros Hle. replace n with (length l + (n - length l))%nat by lia.
  rewrite seq_app, bind_app.
  rewrite <- (app_nil_r (seq 0 (length l) ≫= _)) at 2. f_equal.
  generalize (n - length l)%nat as m. intros m.
  assert (∀ k, k ∈ seq (0 + length l) m →
               match l !! k with Some x => h k x | None => [] end = []) as Hnone.
  { intros k Hk. apply elem_of_seq in Hk.
    rewrite (proj2 (lookup_ge_None l k)); [done | lia]. }
  rewrite (bind_ext_in _ (λ _, []) _ Hnone). clear Hnone.
  induction (seq (0 + length l) m) as [|a s IH]; [done |].
  by rewrite bind_cons, IH.
Qed.

(** One pass over the indices of a list is one pass over the list. *)
Lemma bind_indices {A B} (l : list A) (h : nat → A → list B) :
  (seq 0 (length l) ≫= λ k, match l !! k with Some x => h k x | None => [] end)
  = mjoin (imap h l).
Proof.
  induction l as [|x l IH] using rev_ind; [done |].
  rewrite length_app, Nat.add_1_r, seq_S, bind_app, imap_app, join_app.
  f_equal.
  - rewrite <- IH. apply bind_ext_in. intros k Hk. apply elem_of_seq in Hk.
    rewrite lookup_app_l; [done | lia].
  - simpl. rewrite list_lookup_middle by done.
    by rewrite Nat.add_0_r, !app_nil_r.
Qed.

(** X24. The two nested loops of the PDF write every free hour once, in the
    order of the list, five to a row: the hour at index [k] stands in
    column [k mod 5] of row [k / 5]. *)
Theorem pdf_grid_prints_each_free_hour_once (freeHours : list string)
    (currentY : Z) :
  gridOps freeHours currentY
  = mjoin (imap (λ k hour,
                   [SetFontSize 9;
                    Text hour (25 + Z.of_nat (k `mod` 5) * 35)
                              (currentY + Z.of_nat (k `div` 5) * 5)])
                freeHours).
Proof.
  unfold gridOps. cbv zeta.
  rewrite <- bind_indices.
  rewrite <- (bind_past_end freeHours _ (rowsFor (length freeHours) * 5)).
  2: { unfold rowsFor.
       pose proof (Nat.div_mod_eq (length freeHours + 4) 5) as Hdm.
       pose proof (Nat.mod_upper_bound (length freeHours + 4) 5). lia. }
  rewrite <- bind_rows.
  apply bind_ext_in. intros row _. apply bind_ext_in. intros col Hcol.
  apply elem_of_seq in Hcol.
  destruct (row_major row col) as [-> ->]; [lia |]. done.
Qed.


(** An appointment of 10 May 2024 seen on 12 May 2024 is to be charged. *)
Lemma to_charge_card_witness :
  isToCharge (fixedOffset 0) MoreSamples.parseDate 1715508000000
    MoreSamples.dashAppointment
  = String.eqb
      (Dashboard.effectiveStatus (fixedOffset 0) 1715508000000 "agendado"
         (dateArgument MoreSamples.parseDate MoreSamples.dashAppointment) false)
      "a_cobrar".
Proof.
  apply (to_charge_card_agrees_with_status_colour (fixedOffset 0)
           MoreSamples.parseDate
           1715508000000 MoreSamples.dashAppointment).
  reflexivity.
Defined.

(** A blocked cell of a day without appointments. *)
Lemma blocked_slot_witness :
  let asked :=
    handleCellClick (fixedOffset 0) MoreSamples.parseDate (λ _, Some 10)
      (λ _ _, true)
      (Time 0) "10:00" MoreSamples.dashState in
  isConfirmationModalOpen asked = true
  ∧ isModalOpen (handleConfirmBlockedTimeSlot asked) = true
  ∧ selectedTime (handleConfirmBlockedTimeSlot asked) = Some "10:00"
  ∧ handleCancelBlockedTimeSlot asked = MoreSamples.dashState.
Proof.
  intros asked.
  destruct (blocked_slot_confirmation_opens_creation (fixedOffset 0)
              MoreSamples.parseDate
              (λ _, Some 10) (λ _ _, true) (Time 0) "10:00"
              MoreSamples.dashState) as (_ & _ & Hasked & Hconfirm & Hcancel).
  - reflexivity.
  - reflexivity.
  - fold asked in Hasked, Hconfirm, Hcancel.
    rewrite Hconfirm, Hcancel. by repeat split.
Defined.

End DashboardPageFacts.

(** ** The financial summary and the order of the list *)

Module FinancialOrderFacts.

Import Financial FinancialFacts.

(** X25. The counts of the summary do not depend on the order of the
    appointments; the totals do, as each addition rounds: some list and
    a permutation of it have different totals. *)
Theorem financial_summary_counts_ignore_order_totals_do_not :
  (∀ l1 l2 : list AppointmentWithModality.t, l1 ≡ₚ l2 →
     agendamentos_pagos (getFinancialSummary l1)
     = agendamentos_pagos (getFinancialSummary l2)
     ∧ agendamentos_pendentes (getFinancialSummary l1)
       = agendamentos_pendentes (getFinancialSummary l2)
     ∧ agendamentos_agendados (getFinancialSummary l1)
       = agendamentos_agendados (getFinancialSummary l2)
     ∧ agendamentos_cancelados (getFinancialSummary l1)
       = agendamentos_cancelados (getFinancialSummary l2))
  ∧ ∃ l1 l2 : list AppointmentWithModality.t,
      l1 ≡ₚ l2
      ∧ total_recebido (getFinancialSummary l1)
        ≠ total_recebido (getFinancialSummary l2).
Proof.
  split.
  - intros l1 l2 Hperm. unfold getFinancialSummary. rewrite !fold_step_tally.
    unfold tally, withStatus. cbn.
    repeat split; do 2 f_equal; by rewrite Hperm.
  - exists ((λ v : Z, Samples.plain (Samples.appointment "a" "pago" v))
              <$> [2 ^ 53; 1; 1]),
           (rev ((λ v : Z, Samples.plain (Samples.appointment "a" "pago" v))
                   <$> [2 ^ 53; 1; 1])).
    split; [apply Permutation_rev |]. vm_compute. discriminate.
Qed.

(** The three appointments of the example, and the same in reverse. *)
Lemma financial_summary_order_witness :
  agendamentos_pagos (getFinancialSummary Samples.threeAppointments)
  = agendamentos_pagos (getFinancialSummary (rev Samples.threeAppointments)).
Proof.
  destruct financial_summary_counts_ignore_order_totals_do_not as [Hcounts _].
  destruct (Hcounts Samples.threeAppointments (rev Samples.threeAppointments))
    as [Hpaid _]; [apply Permutation_rev | exact Hpaid].
Defined.

End FinancialOrderFacts.

(** ** The fetch of a period, and deletes *)

Module PeriodFacts.

Import Pagination Queries Period.

(** X26. Against a store that answers every page from the rows of the period,
    the fetch delivers the first 10000 of them, in order; rows past the cap
    are left out without an error.  The related data is resolved once, for
    the delivered rows, and each delivered row carries it: the name and
    phone of the client that the resolved clients map has under the row's
    client id, the name and price of the modality that the resolved
    modalities map has under its modality id, and nothing where the id is
    absent, empty or not in the map. *)
Theorem period_fetch_is_capped_at_ten_thousand_rows (user : option string)
    (periodRows : list Appointment.t) (remote : RelatedData.Remote)
    (cache : RelatedData.Cache) :
  truthy user = true →
  let fetched := take (Z.to_nat (pageSize * 10)) periodRows in
  ∃ maps cache' requests rows,
    RelatedData.fetchRelatedData user remote cache fetched
    = (maps, cache', requests)
    ∧ getAppointmentsByPeriod user (rangeOfTable periodRows) remote cache
      = Some (Resolved rows, cache')
    ∧ AppointmentWithModality.row <$> rows = fetched
    ∧ ∀ r, r ∈ rows →
        (∀ cid, Appointment.client_id (AppointmentWithModality.row r) = Some cid →
           cid ≠ "" →
           AppointmentWithModality.client r
           = (λ c, {| AppointmentWithModality.name := ClientRef.name c;
                      AppointmentWithModality.phone := ClientRef.phone c |})
               <$> RelatedData.clientsMap maps !! cid)
        ∧ (truthy (Appointment.client_id (AppointmentWithModality.row r)) = false →
           AppointmentWithModality.client r = None)
        ∧ (∀ mid, Appointment.modality_id (AppointmentWithModality.row r) = Some mid →
           mid ≠ "" →
           AppointmentWithModality.modality_info r
           = (λ m, {| AppointmentWithModality.modality_name := ModalityRef.name m;
                      AppointmentWithModality.valor := ModalityRef.valor m |})
               <$> RelatedData.modalitiesMap maps !! mid)
        ∧ (truthy (Appointment.modality_id (AppointmentWithModality.row r)) = false →
           AppointmentWithModality.modality_info r = None).
Proof.
  intros Hu fetched.
  destruct (PaginationFacts.paginate_table periodRows) as (st & Hrun & Herr & Hrows).
  unfold getAppointmentsByPeriod. rewrite Hu, Hrun. simpl. rewrite Herr.
  fold fetched in Hrows. rewrite Hrows.
  destruct (RelatedData.fetchRelatedData _ _ _ _) as [[maps cache'] reqs].
  eexists _, _, _, _. split; [reflexivity |]. split; [reflexivity |].
  split; [rewrite <- list_fmap_compose; apply list_fmap_id |].
  intros r [a [-> _]]%list_elem_of_fmap. simpl.
  repeat split.
  - intros cid -> Hne. by destruct cid.
  - by destruct (Appointment.client_id a) as [[|]|].
  - intros mid -> Hne. by destruct mid.
  - by destruct (Appointment.modality_id a) as [[|]|].
Qed.

Lemma filter_all {A} (P : A → Prop) `{!∀ x, Decision (P x)} (l : list A) :
  Forall P l → filter P l = l.
Proof.
  induction 1 as [|x l Hx _ IH]; [done |].
  by rewrite filter_cons_True, IH.
Qed.

(** X27. For an id that no appointment of the account has, the delete resolves
    and the update is rejected; neither changes a row. *)
Theorem delete_of_unknown_appointment_resolves (user : option string)
    (env : UpdateAppointment.Env) (cache : RelatedData.Cache)
    (appointments : list Appointment.t) (id : string)
    (data : UpdateAppointment.UpdateAppointmentData) :
  truthy user = true →
  (∀ row, row ∈ appointments →
          ¬ (Appointment.id row = id
             ∧ Appointment.user_id row = default "" user)) →
  DeleteAppointment.mutationFn user None appointments id
  = (appointments, Resolved ())
  ∧ UpdateAppointment.stored
      (UpdateAppointment.mutationFn user env cache appointments id data)
    = appointments
  ∧ ∃ e, UpdateAppointment.outcome
           (UpdateAppointment.mutationFn user env cache appointments id data)
         = Rejected e.
Proof.
  intros Hu Hnone.
  assert (∀ row, row ∈ appointments →
                 UpdateAppointment.targeted id (default "" user) row = false)
    as Hfalse.
  { intros row Hin. unfold UpdateAppointment.targeted.
    destruct (String.eqb_spec (Appointment.id row) id) as [Hid|]; [| done].
    destruct (String.eqb_spec (Appointment.user_id row) (default "" user));
      [| done].
    by destruct (Hnone row Hin). }
  assert (∀ failure updateData,
            (UpdateAppointment.updateRows failure appointments id
               (default "" user) updateData).1 = appointments
            ∧ is_Some (Supabase.error
                 (UpdateAppointment.updateRows failure appointments id
                    (default "" user) updateData).2)) as Hupd.
  { intros failure updateData. unfold UpdateAppointment.updateRows.
    destruct failure; [by split; [| eexists] |]. cbv zeta.
    assert (filter (λ row, UpdateAppointment.targeted id (default "" user) row = true)
                   appointments = []) as ->; [| by split; [| eexists]].
    apply elem_of_nil_inv. intros row Hrow.
    apply list_elem_of_filter in Hrow as [Ht Hin].
    rewrite Hfalse in Ht; done. }
  split; [| split].
  - unfold DeleteAppointment.mutationFn. rewrite Hu. f_equal.
    apply filter_all, Forall_forall, Hfalse.
  - unfold UpdateAppointment.mutationFn. rewrite Hu.
    destruct (truthy (UpdateAppointment.modality_id data)).
    + destruct (UpdateAppointment.modalityPrice _ _ _ _) as [[thrown|valor] asked];
        [done |].
      match goal with
      | |- context [UpdateAppointment.updateRows ?f ?l ?i ?u ?d] =>
          destruct (Hupd f d) as [Hs _];
          destruct (UpdateAppointment.updateRows f l i u d) as [stored' resp]
      end. done.
    + match goal with
      | |- context [UpdateAppointment.updateRows ?f ?l ?i ?u ?d] =>
          destruct (Hupd f d) as [Hs _];
          destruct (UpdateAppointment.updateRows f l i u d) as [stored' resp]
      end. done.
  - unfold UpdateAppointment.mutationFn. rewrite Hu.
    destruct (truthy (UpdateAppointment.modality_id data)).
    + destruct (UpdateAppointment.modalityPrice _ _ _ _) as [[thrown|valor] asked];
        [by eexists |].
      match goal with
      | |- context [UpdateAppointment.updateRows ?f ?l ?i ?u ?d] =>
          destruct (Hupd f d) as [_ [e He]];
          destruct (UpdateAppointment.updateRows f l i u d) as [stored' resp]
      end. simpl in *. rewrite He. by eexists.
    + match goal with
      | |- context [UpdateAppointment.updateRows ?f ?l ?i ?u ?d] =>
          destruct (Hupd f d) as [_ [e He]];
          destruct (UpdateAppointment.updateRows f l i u d) as [stored' resp]
      end. simpl in *. rewrite He. by eexists.
Qed.


Lemma period_fetch_witness :
  let fetched := take (Z.to_nat (pageSize * 10)) MoreSamples.oneRow in
  (∃ maps cache' requests rows,
     RelatedData.fetchRelatedData (Some "u1") MoreSamples.remoteWithAna
       Samples.emptyCache fetched
     = (maps, cache', requests)
     ∧ getAppointmentsByPeriod (Some "u1") (rangeOfTable MoreSamples.oneRow)
         MoreSamples.remoteWithAna Samples.emptyCache
       = Some (Resolved rows, cache')
     ∧ AppointmentWithModality.row <$> rows = fetched
     ∧ ∀ r, r ∈ rows →
         (∀ cid, Appointment.client_id (AppointmentWithModality.row r) = Some cid →
            cid ≠ "" →
            AppointmentWithModality.client r
            = (λ c, {| AppointmentWithModality.name := ClientRef.name c;
                       AppointmentWithModality.phone := ClientRef.phone c |})
                <$> RelatedData.clientsMap maps !! cid)
         ∧ (truthy (Appointment.client_id (AppointmentWithModality.row r)) = false →
            AppointmentWithModality.client r = None)
         ∧ (∀ mid, Appointment.modality_id (AppointmentWithModality.row r) = Some mid →
            mid ≠ "" →
            AppointmentWithModality.modality_info r
            = (λ m, {| AppointmentWithModality.modality_name := ModalityRef.name m;
                       AppointmentWithModality.valor := ModalityRef.valor m |})
                <$> RelatedData.modalitiesMap maps !! mid)
         ∧ (truthy (Appointment.modality_id (AppointmentWithModality.row r)) = false →
            AppointmentWithModality.modality_info r = None))
  ∧ fst <$> getAppointmentsByPeriod (Some "u1") (rangeOfTable MoreSamples.oneRow)
              MoreSamples.remoteWithAna Samples.emptyCache
    = Some (Resolved
              [{| AppointmentWithModality.row :=
                    Samples.appointment "a1" "agendado" 120;
                  AppointmentWithModality.client :=
                    Some {| AppointmentWithModality.name := "Ana";
                            AppointmentWithModality.phone := None |};
                  AppointmentWithModality.modality_info :=
                    Some {| AppointmentWithModality.modality_name := "Futsal";
                            AppointmentWithModality.valor := 120 |} |}]).
Proof.
  split.
  - apply (period_fetch_is_capped_at_ten_thousand_rows (Some "u1")
             MoreSamples.oneRow MoreSamples.remoteWithAna Samples.emptyCache).
    reflexivity.
  - vm_compute. reflexivity.
Defined.

(** No appointment has the id [zz]. *)
Lemma delete_unknown_witness :
  DeleteAppointment.mutationFn (Some "u1") None MoreSamples.oneRow "zz"
  = (MoreSamples.oneRow, Resolved ())
  ∧ UpdateAppointment.stored
      (UpdateAppointment.mutationFn (Some "u1") MoreSamples.updateEnv
         Samples.emptyCache MoreSamples.oneRow "zz"
         (MoreSamples.changeModality ""))
    = MoreSamples.oneRow
  ∧ ∃ e, UpdateAppointment.outcome
           (UpdateAppointment.mutationFn (Some "u1") MoreSamples.updateEnv
              Samples.emptyCache MoreSamples.oneRow "zz"
              (MoreSamples.changeModality ""))
         = Rejected e.
Proof.
  apply (delete_of_unknown_appointment_resolves (Some "u1")
           MoreSamples.updateEnv Samples.emptyCache MoreSamples.oneRow "zz"
           (MoreSamples.changeModality "")).
  - reflexivity.
  - intros row Hrow [Hid _]. apply list_elem_of_singleton in Hrow as ->.
    discriminate Hid.
Defined.

End PeriodFacts.

(** ** What the client portal lists *)

Module FetchAgendamentosFacts.

Import Pagination PaginationFacts PortalPage FetchAgendamentos.

Lemma maybeSingle_Some {T} (failure : option PostgrestError) (rows : list T) (x : T) :
  data (maybeSingle failure rows) = Some x → rows = [x].
Proof.
  unfold maybeSingle. destruct failure; [done |].
  destruct rows as [|r [|r' rest]]; [done | | done].
  by intros [= ->].
Qed.

(** The client the function goes on with keeps the e-mail address, and
    its id is the id of a client of the account that has the id or the
    e-mail address of the logged-in client. *)
Lemma verifiedClient_spec (env : Env) (db : Db) (client client' : PortalClient)
    (adminUserId : string) :
  verifiedClient env db client adminUserId = Some client' →
  clientEmail client' = clientEmail client
  ∧ ∃ c, c ∈ booking_clients db
         ∧ Client.user_id c = adminUserId
         ∧ Client.id c = clientId client'
         ∧ (Client.id c = clientId client ∨ Client.email c = clientEmail client).
Proof.
  unfold verifiedClient. cbv zeta.
  destruct (Supabase.error (maybeSingle (clientError env) _)); [done |].
  destruct (data (maybeSingle (clientError env) _)) as [c|] eqn:Hcheck.
  - intros [= <-]. split; [done |]. apply maybeSingle_Some in Hcheck.
    assert (c ∈ filter (λ c, Client.id c = clientId client
                             ∧ Client.user_id c = adminUserId)
                       (booking_clients db)) as Hc by (rewrite Hcheck; left).
    apply list_elem_of_filter in Hc as [[Hid Hu] Hin].
    exists c. repeat split; try done. by left.
  - destruct (Supabase.error (maybeSingle (emailError env) _)); [done |].
    destruct (data (maybeSingle (emailError env) _)) as [c|] eqn:Hmail; [| done].
    intros [= <-]. split; [done |]. apply maybeSingle_Some in Hmail.
    assert (c ∈ filter (λ c, Client.email c = clientEmail client
                             ∧ Client.user_id c = adminUserId)
                       (booking_clients db)) as Hc by (rewrite Hmail; left).
    apply list_elem_of_filter in Hc as [[Hid Hu] Hin].
    exists c. repeat split; try done. by right.
Qed.

Lemma pages_rows {A} (failure : option (Z * PostgrestError)) (table : list A)
    (off : Z) (a : A) :
  a ∈ pageRows (pages failure table) off → a ∈ table.
Proof.
  unfold pageRows, pages, rangeFailingAt, rangeOfTable.
  destruct failure as [[bad e]|]; [destruct (off =? bad) |]; simpl;
    intros Hin; try by apply elem_of_nil in Hin.
  all: by eapply subseteq_drop, subseteq_take.
Qed.

(** The rows a fetch delivers are rows of the result set. *)
Lemma paginate_rows {A} (failure : option (Z * PostgrestError)) (table : list A)
    (st : LoopState) (a : A) :
  paginate (pages failure table) = Some st → error st = None →
  a ∈ allAppointments st → a ∈ table.
Proof.
  intros Hrun Herr Hin.
  destruct (paginate_run (pages failure table)) as (st' & n & Hrun' & Hdesc).
  rewrite Hrun in Hrun'. injection Hrun' as <-.
  rewrite (Described_rows _ st n Hdesc Herr) in Hin.
  apply list_elem_of_In, in_concat in Hin as (page & Hpage & Ha).
  apply list_elem_of_In in Hpage, Ha.
  apply list_elem_of_fmap in Hpage as (off & -> & _).
  by eapply pages_rows.
Qed.

(** X28. [fetchAgendamentos] always returns, and it lists only appointments of
    the client: either it leaves the list as it was, or every appointment
    it lists is a row of the account whose joined client has the e-mail
    address of the logged-in client, or whose client is a client of the
    account with the id or the e-mail address of the logged-in client. *)
Theorem portal_fetch_lists_only_own_appointments (env : Env) (db : Db)
    (client : PortalClient) (adminUserId : option string)
    (agendamentos : list Agendamento) :
  ∃ listed me',
    fetchAgendamentos env db (Some client) adminUserId agendamentos
    = Some (listed, me')
    ∧ (listed = agendamentos
       ∨ ∀ a, a ∈ listed →
           apt a ∈ appointments db
           ∧ Appointment.user_id (apt a) = default "" adminUserId
           ∧ (email <$> PortalPage.client a = Some (clientEmail client)
              ∨ ∃ c, c ∈ booking_clients db
                     ∧ Client.user_id c = default "" adminUserId
                     ∧ Appointment.client_id (apt a) = Some (Client.id c)
                     ∧ (Client.id c = clientId client
                        ∨ Client.email c = clientEmail client))).
Proof.
  unfold fetchAgendamentos.
  destruct (negb _ || negb _); [by eexists _, _; split; [| left] |].
  cbv zeta.
  destruct (verifiedClient env db client (default "" adminUserId))
    as [client'|] eqn:Hver; [| by eexists _, _; split; [| left]].
  apply verifiedClient_spec in Hver as (Hemail & c & Hc & Hcu & Hcid & Hsame).
  destruct (paginate_total (pages (pageFailure env)
              (ownRows db (clientId client') (default "" adminUserId))))
    as [st Hrun].
  rewrite Hrun. simpl.
  destruct (error st) eqn:Herr; [by eexists _, _; split; [| left] |].
  destruct (allAppointments st) as [|a0 l0] eqn:Hall.
  - destruct (paginate_total (pages (altPageFailure env)
                (accountRows db (default "" adminUserId)))) as [alt Halt].
    rewrite Halt. simpl.
    destruct (error alt) eqn:Haerr.
    { eexists _, _. split; [done |]. right. intros a Ha.
      by apply elem_of_nil in Ha. }
    destruct (allAppointments alt) as [|b0 m0] eqn:Haall.
    { eexists _, _. split; [done |]. right. intros a Ha.
      by apply elem_of_nil in Ha. }
    destruct (filter _ (b0 :: m0)) as [|f0 fl] eqn:Hfilter.
    { eexists _, _. split; [done |]. right. intros a Ha.
      by apply elem_of_nil in Ha. }
    eexists _, _. split; [done |]. right. intros a Ha.
    rewrite <- Hfilter in Ha. apply list_elem_of_filter in Ha as [Hmail Hin].
    rewrite <- Haall in Hin.
    apply (paginate_rows _ _ _ _ Halt Haerr) in Hin.
    apply list_elem_of_fmap in Hin as (row & -> & Hrow).
    apply list_elem_of_filter in Hrow as [Hu Hrow].
    split; [done |]. split; [done |]. left.
    rewrite <- Hemail. exact Hmail.
  - eexists _, _. split; [reflexivity |]. right. intros a Ha.
    rewrite <- Hall in Ha.
    apply (paginate_rows _ _ _ _ Hrun Herr) in Ha.
    apply list_elem_of_fmap in Ha as (row & -> & Hrow).
    apply list_elem_of_filter in Hrow as [[Hcl Hu] Hrow].
    split; [done |]. split; [done |]. right.
    exists c. split; [done |]. split; [done |]. split; [by rewrite Hcid |]. done.
Qed.

(** X29. A client whose id the account does not know is served under the id of
    the one client of the account with the same e-mail address: the id of
    the client object is replaced, and the list is the first 10000
    appointments of that client in the account. *)
Theorem portal_fetch_falls_back_to_client_of_same_email (env : Env) (db : Db)
    (client : PortalClient) (adminUserId : option string)
    (agendamentos : list Agendamento) (found : Client.t) :
  clientId client ≠ "" → truthy adminUserId = true →
  clientError env = None → emailError env = None → pageFailure env = None →
  filter (λ c, Client.id c = clientId client
               ∧ Client.user_id c = default "" adminUserId)
         (booking_clients db) = [] →
  filter (λ c, Client.email c = clientEmail client
               ∧ Client.user_id c = default "" adminUserId)
         (booking_clients db) = [found] →
  ownRows db (Client.id found) (default "" adminUserId) ≠ [] →
  fetchAgendamentos env db (Some client) adminUserId agendamentos
  = Some (take (Z.to_nat (pageSize * 10))
               (ownRows db (Client.id found) (default "" adminUserId)),
          Some {| clientId := Client.id found;
                  clientEmail := clientEmail client;
                  clientName := clientName client |}).
Proof.
  intros Hid Hadmin Hce Hee Hpf Hnone Hone Hrows.
  unfold fetchAgendamentos.
  assert (truthy (Some (clientId client)) = true) as ->
    by (simpl; by apply String.eqb_neq in Hid as ->).
  rewrite Hadmin. simpl negb. cbv iota zeta. simpl orb. cbv iota.
  unfold verifiedClient. cbv zeta. rewrite Hce, Hee, Hnone, Hone. simpl.
  rewrite Hpf. unfold pages.
  destruct (paginate_table (ownRows db (Client.id found) (default "" adminUserId)))
    as (st & Hrun & Herr & Hall).
  rewrite Hrun. simpl. rewrite Herr, Hall.
  destruct (take _ _) eqn:Htake; [| done].
  destruct (ownRows db (Client.id found) (default "" adminUserId)); [done |].
  unfold pageSize in Htake. discriminate Htake.
Qed.


(** Ana, logged in under the id [c0], is served under [c1]. *)
Lemma portal_fetch_fallback_witness :
  fetchAgendamentos MoreSamples.fetchEnv MoreSamples.portalDb
    (Some MoreSamples.portalAnaOtherId) (Some "u1") []
  = Some (join [Samples.ana] <$> MoreSamples.oneRow,
          Some MoreSamples.portalAna).
Proof.
  apply (portal_fetch_falls_back_to_client_of_same_email MoreSamples.fetchEnv
           MoreSamples.portalDb MoreSamples.portalAnaOtherId (Some "u1") []
           Samples.ana).
  - discriminate.
  - reflexivity.
  - reflexivity.
  - reflexivity.
  - reflexivity.
  - reflexivity.
  - reflexivity.
  - discriminate.
Defined.

End FetchAgendamentosFacts.

(** ** The search box of the client list *)

Module ClientSearchFacts.

Import ClientSearch.

Lemma prefix_empty (s : string) : String.prefix "" s = true.
Proof. by destruct s. Qed.

Lemma prefix_refl (s : string) : String.prefix s s = true.
Proof.
  induction s as [|c s IH]; [done |]. simpl.
  destruct (ascii_dec c c); [done | congruence].
Qed.

Lemma includes_empty (s : string) : includes s "" = true.
Proof. destruct s; simpl; by rewrite ?prefix_empty. Qed.

Lemma includes_refl (s : string) : includes s s = true.
Proof. destruct s; [done |]. cbn [includes]. by rewrite prefix_refl. Qed.

Section Host.

Context `{!JsString.Builtins}.

(** X30. Whatever [toLowerCase] folds, as long as it leaves the empty
    string empty: the empty search term keeps every client; and a term
    that [toLowerCase] maps to what it maps the name or the e-mail address
    of a client to finds that client. *)
Theorem client_search_is_case_insensitive (searchTerm : string)
    (clients : list Client.t) :
  JsString.toLowerCase "" = "" →
  filteredClients "" clients = clients
  ∧ ∀ client, client ∈ clients →
      JsString.toLowerCase searchTerm = JsString.toLowerCase (Client.name client)
      ∨ JsString.toLowerCase searchTerm = JsString.toLowerCase (Client.email client) →
      client ∈ filteredClients searchTerm clients.
Proof.
  intros Hempty. split.
  - unfold filteredClients. induction clients as [|c l IH]; [done |].
    rewrite filter_cons_True, IH; [done |].
    unfold matches. by rewrite Hempty, includes_empty.
  - intros client Hin Hterm. apply list_elem_of_filter. split; [| done].
    unfold matches. destruct Hterm as [-> | ->];
      by rewrite includes_refl, ?orb_true_r.
Qed.

End Host.

#[local] Existing Instance AsciiText.builtins.

(** Ana is found by her name in capitals, and the empty term keeps her. *)
Lemma client_search_witness :
  filteredClients "" [Samples.ana] = [Samples.ana]
  ∧ Samples.ana ∈ filteredClients "ANA" [Samples.ana].
Proof.
  destruct (client_search_is_case_insensitive "ANA" [Samples.ana])
    as [Hall Hfound]; [reflexivity |].
  split; [exact Hall |]. apply (Hfound Samples.ana).
  - left.
  - left. reflexivity.
Defined.

End ClientSearchFacts.
